(** * ReadifyFont-Qt: a shallow embedding of the PyQt5 front end

    The program is one class, [RF_Qt], a main window whose slots mutate
    widgets and a [FontInfo] object and finally hand an argument list to a
    [QProcess].  The embedding keeps that shape: the window is a record of
    widget states, every slot is a function on that record, the results of
    the modal dialogs are arguments of the slot that opens them, and the
    signals Qt delivers are the constructors of an event type. *)

From Stdlib Require Import Bool Arith Lia List String Ascii ZArith DecimalString.
Import ListNotations.
Open Scope string_scope.
Open Scope list_scope.

(** ** Python [str] operations used by the program *)

Module PyStr.

(** Truth value of a [str]: the empty string is false. *)
Definition truthy (s : string) : bool :=
  match s with
  | EmptyString => false
  | String _ _ => true
  end.

(** [c.lower()] on one character of the ASCII range: 'A'..'Z' (65..90) move
    by 32, every other character is kept. *)
Definition lower_ascii (c : ascii) : ascii :=
  let n := nat_of_ascii c in
  if Nat.leb 65 n && Nat.leb n 90 then ascii_of_nat (n + 32) else c.

(** [s.lower()]. *)
Fixpoint lower (s : string) : string :=
  match s with
  | EmptyString => EmptyString
  | String c s' => String (lower_ascii c) (lower s')
  end.

(** [s.startswith(p)]. *)
Fixpoint startswith (p s : string) : bool :=
  match p, s with
  | EmptyString, _ => true
  | String _ _, EmptyString => false
  | String a p', String b s' => Ascii.eqb a b && startswith p' s'
  end.

(** [tok in s]: [tok] occurs in [s] as a contiguous substring. *)
Fixpoint contains (tok s : string) : bool :=
  startswith tok s ||
  match s with
  | EmptyString => false
  | String _ s' => contains tok s'
  end.

(** [s.split(sep)] for a one-character separator: the pieces between the
    separators, never an empty list (['']) for the empty string). *)
Fixpoint split (sep : ascii) (s : string) : list string :=
  match s with
  | EmptyString => [EmptyString]
  | String c s' =>
      if Ascii.eqb c sep then EmptyString :: split sep s'
      else match split sep s' with
           | [] => [String c EmptyString]
           | x :: xs => String c x :: xs
           end
  end.

(** [sep.join(parts)]. *)
Fixpoint join (sep : string) (parts : list string) : string :=
  match parts with
  | [] => EmptyString
  | [x] => x
  | x :: rest => x ++ sep ++ join sep rest
  end.

(** [c * n]: a character repeated. *)
Fixpoint times (c : ascii) (n : nat) : string :=
  match n with
  | O => EmptyString
  | S n' => String c (times c n')
  end.

(** [s.rfind(c) + 1]: the position just after the last [c], 0 when [c]
    does not occur ([rfind] gives -1 then). *)
Fixpoint rfind_succ (c : ascii) (s : string) : nat :=
  match s with
  | EmptyString => 0
  | String a s' =>
      match rfind_succ c s' with
      | O => if Ascii.eqb a c then 1 else 0
      | S k => S (S k)
      end
  end.

(** [s[:i]] and [s[i:]]. *)
Definition upto (i : nat) (s : string) : string := substring 0 i s.

Fixpoint from (i : nat) (s : string) : string :=
  match i, s with
  | O, _ => s
  | S _, EmptyString => EmptyString
  | S i', String _ s' => from i' s'
  end.

(** [s.rstrip(c)]: trailing occurrences of [c] removed. *)
Fixpoint rstrip (c : ascii) (s : string) : string :=
  match s with
  | EmptyString => EmptyString
  | String a s' =>
      match rstrip c s' with
      | EmptyString => if Ascii.eqb a c then EmptyString else String a EmptyString
      | r => String a r
      end
  end.

End PyStr.

(** ** [os.path], POSIX flavour: [normpath] and [split] *)

Module posixpath.
Import PyStr.

Definition sep : ascii := "/"%char.

(** One turn of the loop of [normpath] over the components; [new_comps] is
    the Python list, grown and popped at its end. *)
Definition normpath_step (initial_slashes : nat) (new_comps : list string)
    (comp : string) : list string :=
  if (comp =? "") || (comp =? ".") then new_comps
  else if negb (comp =? "..")
          || (Nat.eqb initial_slashes 0 && Nat.eqb (List.length new_comps) 0)
          || (negb (Nat.eqb (List.length new_comps) 0)
              && (last new_comps "" =? ".."))
       then new_comps ++ [comp]
       else match new_comps with
            | [] => new_comps
            | _ :: _ => removelast new_comps
            end.

Definition normpath (path : string) : string :=
  if path =? "" then "."
  else
    let initial_slashes :=
      if startswith "/" path
      then if startswith "//" path && negb (startswith "///" path) then 2 else 1
      else 0 in
    let comps := PyStr.split sep path in
    let new_comps := fold_left (normpath_step initial_slashes) comps [] in
    let joined := join "/" new_comps in
    let path' := (times sep initial_slashes ++ joined)%string in
    if path' =? "" then "." else path'.

(** [os.path.split(p)]: [(head, tail)], [tail] being what follows the last
    slash. *)
Definition split (p : string) : string * string :=
  let i := rfind_succ sep p in
  let head := upto i p in
  let tail := from i p in
  let head' :=
    if truthy head && negb (head =? times sep (String.length head))
    then rstrip sep head else head in
  (head', tail).

End posixpath.

(** ** The Qt widgets and the process object, as far as the program uses them

    Each widget is the record of the properties the program reads or
    writes; a Qt method is a function on that record.  The behaviour of the
    methods is Qt's documented one. *)

Module Qt.

Record QComboBox := { cmb_currentIndex : nat; cmb_enabled : bool }.
Record QLabel := { lab_text : string; lab_enabled : bool }.
Record QLineEdit := { le_text : string }.
Record QCheckBox := { chk_text : string; chk_checked : bool; chk_enabled : bool }.
Record QRadioButton := { rad_text : string; rad_checked : bool }.
Record QSlider :=
  { sld_minimum : Z; sld_maximum : Z; sld_value : Z; sld_enabled : bool }.
Record QPushButton := { btn_enabled : bool }.
Record QProgressBar := { bar_minimum : Z; bar_maximum : Z; bar_value : Z }.

(** The log window: one entry per paragraph, [append] adds a paragraph. *)
Definition QTextEdit := list string.

Inductive ProcessState := NotRunning | Starting | Running.
Inductive ProcessChannelMode := SeparateChannels | MergedChannels.
Inductive ProcessError :=
  FailedToStart | Crashed | Timedout | WriteError | ReadError | UnknownError.
Inductive ProcessChannel := StandardOutput | StandardError.

(** [proc_stdout] and [proc_stderr] hold the bytes that have arrived on the
    two read channels and have not been read yet. *)
Record QProcess :=
  { proc_state : ProcessState;
    proc_channel_mode : ProcessChannelMode;
    proc_program : string;
    proc_arguments : list string;
    proc_exit_code : Z;
    proc_stdout : string;
    proc_stderr : string }.

Definition ProcessState_eqb (a b : ProcessState) : bool :=
  match a, b with
  | NotRunning, NotRunning | Starting, Starting | Running, Running => true
  | _, _ => false
  end.

(** [cmb.setCurrentIndex(i)], [cmb.setEnabled(b)]. *)
Definition cmb_setCurrentIndex (i : nat) (c : QComboBox) : QComboBox :=
  {| cmb_currentIndex := i; cmb_enabled := cmb_enabled c |}.
Definition cmb_setEnabled (b : bool) (c : QComboBox) : QComboBox :=
  {| cmb_currentIndex := cmb_currentIndex c; cmb_enabled := b |}.

Definition lab_setText (t : string) (l : QLabel) : QLabel :=
  {| lab_text := t; lab_enabled := lab_enabled l |}.
Definition lab_setEnabled (b : bool) (l : QLabel) : QLabel :=
  {| lab_text := lab_text l; lab_enabled := b |}.

Definition chk_setEnabled (b : bool) (c : QCheckBox) : QCheckBox :=
  {| chk_text := chk_text c; chk_checked := chk_checked c; chk_enabled := b |}.
Definition chk_setChecked (b : bool) (c : QCheckBox) : QCheckBox :=
  {| chk_text := chk_text c; chk_checked := b; chk_enabled := chk_enabled c |}.

Definition rad_setChecked (b : bool) (r : QRadioButton) : QRadioButton :=
  {| rad_text := rad_text r; rad_checked := b |}.

Definition sld_setEnabled (b : bool) (s : QSlider) : QSlider :=
  {| sld_minimum := sld_minimum s; sld_maximum := sld_maximum s;
     sld_value := sld_value s; sld_enabled := b |}.
Definition sld_setValue (v : Z) (s : QSlider) : QSlider :=
  {| sld_minimum := sld_minimum s; sld_maximum := sld_maximum s;
     sld_value := Z.max (sld_minimum s) (Z.min (sld_maximum s) v);
     sld_enabled := sld_enabled s |}.

(** [QProgressBar.setRange]: a value that falls outside the new range
    resets the bar (value [minimum - 1]). *)
Definition bar_setRange (lo hi : Z) (b : QProgressBar) : QProgressBar :=
  if (lo =? bar_minimum b)%Z && (hi =? bar_maximum b)%Z then b
  else
    let hi' := Z.max lo hi in
    {| bar_minimum := lo; bar_maximum := hi';
       bar_value := if (bar_value b <? lo - 1)%Z || (hi' <? bar_value b)%Z
                    then (lo - 1)%Z else bar_value b |}.

(** [QProgressBar.setValue]: ignored when the value is out of range, unless
    the range is (0, 0). *)
Definition bar_setValue (v : Z) (b : QProgressBar) : QProgressBar :=
  if (bar_value b =? v)%Z
     || (((bar_maximum b <? v)%Z || (v <? bar_minimum b)%Z)
         && (negb (bar_maximum b =? 0)%Z || negb (bar_minimum b =? 0)%Z))
  then b
  else {| bar_minimum := bar_minimum b; bar_maximum := bar_maximum b;
          bar_value := v |}.

(** [QProcess.setProcessChannelMode]. *)
Definition setProcessChannelMode (m : ProcessChannelMode) (p : QProcess) : QProcess :=
  {| proc_state := proc_state p; proc_channel_mode := m;
     proc_program := proc_program p; proc_arguments := proc_arguments p;
     proc_exit_code := proc_exit_code p;
     proc_stdout := proc_stdout p; proc_stderr := proc_stderr p |}.

Definition proc_setState (st : ProcessState) (p : QProcess) : QProcess :=
  {| proc_state := st; proc_channel_mode := proc_channel_mode p;
     proc_program := proc_program p; proc_arguments := proc_arguments p;
     proc_exit_code := proc_exit_code p;
     proc_stdout := proc_stdout p; proc_stderr := proc_stderr p |}.

Definition proc_setExitCode (code : Z) (p : QProcess) : QProcess :=
  {| proc_state := proc_state p; proc_channel_mode := proc_channel_mode p;
     proc_program := proc_program p; proc_arguments := proc_arguments p;
     proc_exit_code := code;
     proc_stdout := proc_stdout p; proc_stderr := proc_stderr p |}.

(** [QProcess.start(program, arguments)]: when the object already runs a
    process the call only prints a warning and the running process goes on
    unaffected; otherwise the object enters [Starting]. *)
Definition start (program : string) (arguments : list string) (p : QProcess)
    : QProcess :=
  match proc_state p with
  | NotRunning =>
      {| proc_state := Starting; proc_channel_mode := proc_channel_mode p;
         proc_program := program; proc_arguments := arguments;
         proc_exit_code := 0%Z; proc_stdout := ""; proc_stderr := "" |}
  | Starting | Running => p
  end.

(** Bytes written by the child on one of its two streams reach the read
    channel of that stream; in [MergedChannels] mode the child's standard
    error is the same pipe as its standard output. *)
Definition child_wrote (ch : ProcessChannel) (data : string) (p : QProcess)
    : QProcess :=
  let to_stdout :=
    match ch, proc_channel_mode p with
    | StandardOutput, _ => true
    | StandardError, MergedChannels => true
    | StandardError, SeparateChannels => false
    end in
  {| proc_state := proc_state p; proc_channel_mode := proc_channel_mode p;
     proc_program := proc_program p; proc_arguments := proc_arguments p;
     proc_exit_code := proc_exit_code p;
     proc_stdout := if to_stdout then (proc_stdout p ++ data)%string
                    else proc_stdout p;
     proc_stderr := if to_stdout then proc_stderr p
                    else (proc_stderr p ++ data)%string |}.

(** [QProcess.readAllStandardOutput()]: the bytes waiting on the standard
    output channel, which is emptied. *)
Definition readAllStandardOutput (p : QProcess) : string * QProcess :=
  (proc_stdout p,
   {| proc_state := proc_state p; proc_channel_mode := proc_channel_mode p;
      proc_program := proc_program p; proc_arguments := proc_arguments p;
      proc_exit_code := proc_exit_code p;
      proc_stdout := ""; proc_stderr := proc_stderr p |}).

End Qt.
Export Qt.

(** ** The [FontInfo] object

    The class lives in FontInfo.py; the window only assigns its attributes
    and calls [gen_cli_command].  The record has the attributes the window
    assigns. *)

Record FontInfo :=
  { font_name : string;
    font_file_reg : option string;
    font_file_it : option string;
    font_file_bd : option string;
    font_file_bi : option string;
    leg_kern : bool;
    strip_panose : bool;
    name_hack : bool;
    change_hint : string;
    add_weight : Z;
    mod_bearings : bool;
    out_dir : option string }.

Definition put_font_name (v : string) (self : FontInfo) : FontInfo :=
  Build_FontInfo v (font_file_reg self) (font_file_it self) (font_file_bd
    self) (font_file_bi self) (leg_kern self) (strip_panose self) (name_hack
    self) (change_hint self) (add_weight self) (mod_bearings self) (out_dir
    self).

Definition put_font_file_reg (v : option string) (self : FontInfo) : FontInfo :=
  Build_FontInfo (font_name self) v (font_file_it self) (font_file_bd self)
    (font_file_bi self) (leg_kern self) (strip_panose self) (name_hack self)
    (change_hint self) (add_weight self) (mod_bearings self) (out_dir self).

Definition put_font_file_it (v : option string) (self : FontInfo) : FontInfo :=
  Build_FontInfo (font_name self) (font_file_reg self) v (font_file_bd self)
    (font_file_bi self) (leg_kern self) (strip_panose self) (name_hack self)
    (change_hint self) (add_weight self) (mod_bearings self) (out_dir self).

Definition put_font_file_bd (v : option string) (self : FontInfo) : FontInfo :=
  Build_FontInfo (font_name self) (font_file_reg self) (font_file_it self) v
    (font_file_bi self) (leg_kern self) (strip_panose self) (name_hack self)
    (change_hint self) (add_weight self) (mod_bearings self) (out_dir self).

Definition put_font_file_bi (v : option string) (self : FontInfo) : FontInfo :=
  Build_FontInfo (font_name self) (font_file_reg self) (font_file_it self)
    (font_file_bd self) v (leg_kern self) (strip_panose self) (name_hack self)
    (change_hint self) (add_weight self) (mod_bearings self) (out_dir self).

Definition put_leg_kern (v : bool) (self : FontInfo) : FontInfo :=
  Build_FontInfo (font_name self) (font_file_reg self) (font_file_it self)
    (font_file_bd self) (font_file_bi self) v (strip_panose self) (name_hack
    self) (change_hint self) (add_weight self) (mod_bearings self) (out_dir
    self).

Definition put_strip_panose (v : bool) (self : FontInfo) : FontInfo :=
  Build_FontInfo (font_name self) (font_file_reg self) (font_file_it self)
    (font_file_bd self) (font_file_bi self) (leg_kern self) v (name_hack self)
    (change_hint self) (add_weight self) (mod_bearings self) (out_dir self).

Definition put_name_hack (v : bool) (self : FontInfo) : FontInfo :=
  Build_FontInfo (font_name self) (font_file_reg self) (font_file_it self)
    (font_file_bd self) (font_file_bi self) (leg_kern self) (strip_panose
    self) v (change_hint self) (add_weight self) (mod_bearings self) (out_dir
    self).

Definition put_change_hint (v : string) (self : FontInfo) : FontInfo :=
  Build_FontInfo (font_name self) (font_file_reg self) (font_file_it self)
    (font_file_bd self) (font_file_bi self) (leg_kern self) (strip_panose
    self) (name_hack self) v (add_weight self) (mod_bearings self) (out_dir
    self).

Definition put_add_weight (v : Z) (self : FontInfo) : FontInfo :=
  Build_FontInfo (font_name self) (font_file_reg self) (font_file_it self)
    (font_file_bd self) (font_file_bi self) (leg_kern self) (strip_panose
    self) (name_hack self) (change_hint self) v (mod_bearings self) (out_dir
    self).

Definition put_mod_bearings (v : bool) (self : FontInfo) : FontInfo :=
  Build_FontInfo (font_name self) (font_file_reg self) (font_file_it self)
    (font_file_bd self) (font_file_bi self) (leg_kern self) (strip_panose
    self) (name_hack self) (change_hint self) (add_weight self) v (out_dir
    self).

Definition put_out_dir (v : option string) (self : FontInfo) : FontInfo :=
  Build_FontInfo (font_name self) (font_file_reg self) (font_file_it self)
    (font_file_bd self) (font_file_bi self) (leg_kern self) (strip_panose
    self) (name_hack self) (change_hint self) (add_weight self) (mod_bearings
    self) v.

(** ** The main window *)

Definition SEL_REGULAR : nat := 1.
Definition SEL_ITALIC : nat := 2.
Definition SEL_BOLD : nat := 3.
Definition SEL_BOLDITALIC : nat := 4.
Definition SEL_NONE : nat := 0.

Definition fnt_styles : list string := ["Regular"; "Italic"; "Bold"; "Bold Italic"].

(** The attributes of [RF_Qt].  [font_files] is [None] until fonts are
    loaded; [ff_path] is [None] when [helper.which] found nothing. *)
Record RF_Qt :=
  { fnt_sty_combo_list : list QComboBox;
    fnt_file_name_list : list QLabel;
    font_files : option (list string);
    font_info : FontInfo;
    cli_process : QProcess;
    new_fnt_name : QLineEdit;
    basic_opt_list : list QCheckBox;
    hint_opt_list : list QRadioButton;
    darken_opt : QCheckBox;
    mod_bearing_opt : QCheckBox;
    lbl : QLabel;
    darken_amount_opt : QSlider;
    darken_amount_lab : QLabel;
    gen_ttf_btn : QPushButton;
    prog_bar : QProgressBar;
    log_win : QTextEdit;
    ff_path : option string }.

Definition put_fnt_sty_combo_list (v : list QComboBox) (self : RF_Qt) : RF_Qt :=
  Build_RF_Qt v (fnt_file_name_list self) (font_files self) (font_info self)
    (cli_process self) (new_fnt_name self) (basic_opt_list self)
    (hint_opt_list self) (darken_opt self) (mod_bearing_opt self) (lbl self)
    (darken_amount_opt self) (darken_amount_lab self) (gen_ttf_btn self)
    (prog_bar self) (log_win self) (ff_path self).

Definition put_fnt_file_name_list (v : list QLabel) (self : RF_Qt) : RF_Qt :=
  Build_RF_Qt (fnt_sty_combo_list self) v (font_files self) (font_info self)
    (cli_process self) (new_fnt_name self) (basic_opt_list self)
    (hint_opt_list self) (darken_opt self) (mod_bearing_opt self) (lbl self)
    (darken_amount_opt self) (darken_amount_lab self) (gen_ttf_btn self)
    (prog_bar self) (log_win self) (ff_path self).

Definition put_font_files (v : option (list string)) (self : RF_Qt) : RF_Qt :=
  Build_RF_Qt (fnt_sty_combo_list self) (fnt_file_name_list self) v (font_info
    self) (cli_process self) (new_fnt_name self) (basic_opt_list self)
    (hint_opt_list self) (darken_opt self) (mod_bearing_opt self) (lbl self)
    (darken_amount_opt self) (darken_amount_lab self) (gen_ttf_btn self)
    (prog_bar self) (log_win self) (ff_path self).

Definition put_font_info (v : FontInfo) (self : RF_Qt) : RF_Qt :=
  Build_RF_Qt (fnt_sty_combo_list self) (fnt_file_name_list self) (font_files
    self) v (cli_process self) (new_fnt_name self) (basic_opt_list self)
    (hint_opt_list self) (darken_opt self) (mod_bearing_opt self) (lbl self)
    (darken_amount_opt self) (darken_amount_lab self) (gen_ttf_btn self)
    (prog_bar self) (log_win self) (ff_path self).

Definition put_cli_process (v : QProcess) (self : RF_Qt) : RF_Qt :=
  Build_RF_Qt (fnt_sty_combo_list self) (fnt_file_name_list self) (font_files
    self) (font_info self) v (new_fnt_name self) (basic_opt_list self)
    (hint_opt_list self) (darken_opt self) (mod_bearing_opt self) (lbl self)
    (darken_amount_opt self) (darken_amount_lab self) (gen_ttf_btn self)
    (prog_bar self) (log_win self) (ff_path self).

Definition put_new_fnt_name (v : QLineEdit) (self : RF_Qt) : RF_Qt :=
  Build_RF_Qt (fnt_sty_combo_list self) (fnt_file_name_list self) (font_files
    self) (font_info self) (cli_process self) v (basic_opt_list self)
    (hint_opt_list self) (darken_opt self) (mod_bearing_opt self) (lbl self)
    (darken_amount_opt self) (darken_amount_lab self) (gen_ttf_btn self)
    (prog_bar self) (log_win self) (ff_path self).

Definition put_basic_opt_list (v : list QCheckBox) (self : RF_Qt) : RF_Qt :=
  Build_RF_Qt (fnt_sty_combo_list self) (fnt_file_name_list self) (font_files
    self) (font_info self) (cli_process self) (new_fnt_name self) v
    (hint_opt_list self) (darken_opt self) (mod_bearing_opt self) (lbl self)
    (darken_amount_opt self) (darken_amount_lab self) (gen_ttf_btn self)
    (prog_bar self) (log_win self) (ff_path self).

Definition put_hint_opt_list (v : list QRadioButton) (self : RF_Qt) : RF_Qt :=
  Build_RF_Qt (fnt_sty_combo_list self) (fnt_file_name_list self) (font_files
    self) (font_info self) (cli_process self) (new_fnt_name self)
    (basic_opt_list self) v (darken_opt self) (mod_bearing_opt self) (lbl
    self) (darken_amount_opt self) (darken_amount_lab self) (gen_ttf_btn self)
    (prog_bar self) (log_win self) (ff_path self).

Definition put_darken_opt (v : QCheckBox) (self : RF_Qt) : RF_Qt :=
  Build_RF_Qt (fnt_sty_combo_list self) (fnt_file_name_list self) (font_files
    self) (font_info self) (cli_process self) (new_fnt_name self)
    (basic_opt_list self) (hint_opt_list self) v (mod_bearing_opt self) (lbl
    self) (darken_amount_opt self) (darken_amount_lab self) (gen_ttf_btn self)
    (prog_bar self) (log_win self) (ff_path self).

Definition put_mod_bearing_opt (v : QCheckBox) (self : RF_Qt) : RF_Qt :=
  Build_RF_Qt (fnt_sty_combo_list self) (fnt_file_name_list self) (font_files
    self) (font_info self) (cli_process self) (new_fnt_name self)
    (basic_opt_list self) (hint_opt_list self) (darken_opt self) v (lbl self)
    (darken_amount_opt self) (darken_amount_lab self) (gen_ttf_btn self)
    (prog_bar self) (log_win self) (ff_path self).

Definition put_lbl (v : QLabel) (self : RF_Qt) : RF_Qt :=
  Build_RF_Qt (fnt_sty_combo_list self) (fnt_file_name_list self) (font_files
    self) (font_info self) (cli_process self) (new_fnt_name self)
    (basic_opt_list self) (hint_opt_list self) (darken_opt self)
    (mod_bearing_opt self) v (darken_amount_opt self) (darken_amount_lab self)
    (gen_ttf_btn self) (prog_bar self) (log_win self) (ff_path self).

Definition put_darken_amount_opt (v : QSlider) (self : RF_Qt) : RF_Qt :=
  Build_RF_Qt (fnt_sty_combo_list self) (fnt_file_name_list self) (font_files
    self) (font_info self) (cli_process self) (new_fnt_name self)
    (basic_opt_list self) (hint_opt_list self) (darken_opt self)
    (mod_bearing_opt self) (lbl self) v (darken_amount_lab self) (gen_ttf_btn
    self) (prog_bar self) (log_win self) (ff_path self).

Definition put_darken_amount_lab (v : QLabel) (self : RF_Qt) : RF_Qt :=
  Build_RF_Qt (fnt_sty_combo_list self) (fnt_file_name_list self) (font_files
    self) (font_info self) (cli_process self) (new_fnt_name self)
    (basic_opt_list self) (hint_opt_list self) (darken_opt self)
    (mod_bearing_opt self) (lbl self) (darken_amount_opt self) v (gen_ttf_btn
    self) (prog_bar self) (log_win self) (ff_path self).

Definition put_gen_ttf_btn (v : QPushButton) (self : RF_Qt) : RF_Qt :=
  Build_RF_Qt (fnt_sty_combo_list self) (fnt_file_name_list self) (font_files
    self) (font_info self) (cli_process self) (new_fnt_name self)
    (basic_opt_list self) (hint_opt_list self) (darken_opt self)
    (mod_bearing_opt self) (lbl self) (darken_amount_opt self)
    (darken_amount_lab self) v (prog_bar self) (log_win self) (ff_path self).

Definition put_prog_bar (v : QProgressBar) (self : RF_Qt) : RF_Qt :=
  Build_RF_Qt (fnt_sty_combo_list self) (fnt_file_name_list self) (font_files
    self) (font_info self) (cli_process self) (new_fnt_name self)
    (basic_opt_list self) (hint_opt_list self) (darken_opt self)
    (mod_bearing_opt self) (lbl self) (darken_amount_opt self)
    (darken_amount_lab self) (gen_ttf_btn self) v (log_win self) (ff_path
    self).

Definition put_log_win (v : QTextEdit) (self : RF_Qt) : RF_Qt :=
  Build_RF_Qt (fnt_sty_combo_list self) (fnt_file_name_list self) (font_files
    self) (font_info self) (cli_process self) (new_fnt_name self)
    (basic_opt_list self) (hint_opt_list self) (darken_opt self)
    (mod_bearing_opt self) (lbl self) (darken_amount_opt self)
    (darken_amount_lab self) (gen_ttf_btn self) (prog_bar self) v (ff_path
    self).

Definition put_ff_path (v : option string) (self : RF_Qt) : RF_Qt :=
  Build_RF_Qt (fnt_sty_combo_list self) (fnt_file_name_list self) (font_files
    self) (font_info self) (cli_process self) (new_fnt_name self)
    (basic_opt_list self) (hint_opt_list self) (darken_opt self)
    (mod_bearing_opt self) (lbl self) (darken_amount_opt self)
    (darken_amount_lab self) (gen_ttf_btn self) (prog_bar self) (log_win self)
    v.

(** ** Python values and exceptions *)

Inductive exn := TypeError | UnicodeDecodeError.

Inductive result (A : Type) :=
| Ok (a : A)
| Raise (e : exn).
Arguments Ok {A} a.
Arguments Raise {A} e.

(** Truth value of an attribute that holds [None] or a [str]. *)
Definition truthy_opt (o : option string) : bool :=
  match o with
  | Some s => PyStr.truthy s
  | None => false
  end.

(** Truth value of an attribute that holds [None] or a list. *)
Definition truthy_list {A : Type} (o : option (list A)) : bool :=
  match o with
  | Some (_ :: _) => true
  | _ => false
  end.

(** [str(n)] for an [int]. *)
Definition str_of_int (n : Z) : string := NilZero.string_of_int (Z.to_int n).

(** ** The slots of [RF_Qt] *)

Section Window.

(** [helper.valid_filename], [FontInfo.gen_cli_command] and the codec
    [sys.getdefaultencoding()] (strict, so it can fail) are not part of the
    window: the slots are stated for any of them. *)
Variable valid_filename : string -> bool.
Variable gen_cli_command : FontInfo -> list string.
Variable decode : string -> option string.

(** [set_ff_path]: [located] is [path[0]], what the file dialog returned
    (empty when the dialog was cancelled). *)
Definition set_ff_path (located : string) (self : RF_Qt) : RF_Qt :=
  if PyStr.truthy located
  then put_ff_path (Some (posixpath.normpath located)) self
  else self.

(** [set_basic_opt]: [opt] is [self.sender()]. *)
Definition set_basic_opt (opt : QCheckBox) (self : RF_Qt) : RF_Qt :=
  let text := PyStr.lower (chk_text opt) in
  let b := chk_checked opt in
  let fi := font_info self in
  let fi := if PyStr.contains "kerning" text then put_leg_kern b fi else fi in
  let fi := if PyStr.contains "panose" text then put_strip_panose b fi else fi in
  let fi := if PyStr.contains "alt" text then put_name_hack b fi else fi in
  put_font_info fi self.

Definition set_family_name (name : string) (self : RF_Qt) : RF_Qt :=
  if PyStr.truthy name then
    if valid_filename name then
      let self := put_font_info (put_font_name name (font_info self)) self in
      if truthy_list (font_files self)
      then put_gen_ttf_btn {| btn_enabled := true |} self
      else self
    else put_gen_ttf_btn {| btn_enabled := false |} self
  else put_gen_ttf_btn {| btn_enabled := false |} self.

Definition set_darken_amount (amount : Z) (self : RF_Qt) : RF_Qt :=
  let self :=
    put_darken_amount_lab
      (lab_setText (str_of_int amount) (darken_amount_lab self)) self in
  put_font_info (put_add_weight amount (font_info self)) self.

(** [set_hint]: [hint] is [self.sender()]. *)
Definition set_hint (hint : QRadioButton) (self : RF_Qt) : RF_Qt :=
  if rad_checked hint then
    let text := PyStr.lower (rad_text hint) in
    if PyStr.contains "keep" text
    then put_font_info (put_change_hint "keep" (font_info self)) self
    else if PyStr.contains "remove" text
    then put_font_info (put_change_hint "remove" (font_info self)) self
    else if PyStr.contains "auto" text
    then put_font_info (put_change_hint "auto" (font_info self)) self
    else self
  else self.

(** [set_darken_opt]: [sender] is [self.sender()], the darken check box. *)
Definition set_darken_opt (sender : QCheckBox) (self : RF_Qt) : RF_Qt :=
  if chk_checked sender then
    let self := put_mod_bearing_opt (chk_setEnabled true (mod_bearing_opt self)) self in
    let self := put_lbl (lab_setEnabled true (lbl self)) self in
    let self := put_darken_amount_lab (lab_setEnabled true (darken_amount_lab self)) self in
    let self := put_darken_amount_opt (sld_setEnabled true (darken_amount_opt self)) self in
    set_darken_amount (sld_value (darken_amount_opt self)) self
  else
    let self := put_mod_bearing_opt (chk_setEnabled false (mod_bearing_opt self)) self in
    let self := put_lbl (lab_setEnabled false (lbl self)) self in
    let self := put_darken_amount_lab (lab_setEnabled false (darken_amount_lab self)) self in
    let self := put_darken_amount_opt (sld_setEnabled false (darken_amount_opt self)) self in
    set_darken_amount 0 self.

Definition set_mod_bearing (self : RF_Qt) : RF_Qt :=
  if chk_checked (mod_bearing_opt self)
  then put_font_info (put_mod_bearings true (font_info self)) self
  else put_font_info (put_mod_bearings false (font_info self)) self.

(** The first loop of [load_fonts], over [zip(labels, combos)]. *)
Fixpoint reset_rows (labels : list QLabel) (combos : list QComboBox)
    : list QLabel * list QComboBox :=
  match labels, combos with
  | f_label :: labels', f_style :: combos' =>
      let (ls, cs) := reset_rows labels' combos' in
      (lab_setText "Load font file..." f_label :: ls,
       cmb_setEnabled false (cmb_setCurrentIndex SEL_NONE f_style) :: cs)
  | _, _ => (labels, combos)
  end.

(** The [if]/[elif] chain of [load_fonts] on one file name: the index the
    combo box is set to, [None] when no branch is taken. *)
Definition detect_style (f_file : string) : option nat :=
  if PyStr.contains "regular" (PyStr.lower f_file) then Some SEL_REGULAR
  else if PyStr.contains "bold" (PyStr.lower f_file)
          && PyStr.contains "italic" (PyStr.lower f_file) then Some SEL_BOLDITALIC
  else if PyStr.contains "bold" (PyStr.lower f_file) then Some SEL_BOLD
  else if PyStr.contains "italic" (PyStr.lower f_file) then Some SEL_ITALIC
  else None.

(** The body of the third loop of [load_fonts]. *)
Definition fill_row (f_file : string) (f_label : QLabel) (f_style : QComboBox)
    : QLabel * QComboBox :=
  let f_label := lab_setText f_file f_label in
  let f_style := cmb_setEnabled true f_style in
  (f_label,
   match detect_style f_file with
   | Some i => cmb_setCurrentIndex i f_style
   | None => f_style
   end).

(** The third loop of [load_fonts], over [zip(f_f_names, labels, combos)]. *)
Fixpoint fill_rows (names : list string) (labels : list QLabel)
    (combos : list QComboBox) : list QLabel * list QComboBox :=
  match names, labels, combos with
  | f_file :: names', f_label :: labels', f_style :: combos' =>
      let (l, c) := fill_row f_file f_label f_style in
      let (ls, cs) := fill_rows names' labels' combos' in
      (l :: ls, c :: cs)
  | _, _, _ => (labels, combos)
  end.

(** The second loop of [load_fonts]: the file name component of a path. *)
Definition file_name (file : string) : string :=
  snd (posixpath.split (posixpath.normpath file)).

(** [load_fonts]: [selected] is [f_f[0]], the list of paths the file dialog
    returned (empty when the dialog was cancelled). *)
Definition load_fonts (selected : list string) (self : RF_Qt) : RF_Qt :=
  match selected with
  | [] => self
  | _ :: _ =>
      let (labels, combos) :=
        reset_rows (fnt_file_name_list self) (fnt_sty_combo_list self) in
      let self := put_font_files (Some selected) self in
      let f_f_names := map file_name selected in
      let (labels, combos) := fill_rows f_f_names labels combos in
      let self := put_fnt_file_name_list labels self in
      let self := put_fnt_sty_combo_list combos self in
      if PyStr.truthy (le_text (new_fnt_name self))
      then put_gen_ttf_btn {| btn_enabled := true |} self
      else self
  end.

Definition read_proc_output (self : RF_Qt) : result RF_Qt :=
  let (data, proc) := readAllStandardOutput (cli_process self) in
  let self := put_cli_process proc self in
  match decode data with
  | None => Raise UnicodeDecodeError
  | Some output => Ok (put_log_win (log_win self ++ [output]) self)
  end.

(** [manage_proc]: [proc] is [self.sender()], the process object. *)
Definition manage_proc (proc : QProcess) (self : RF_Qt) : RF_Qt :=
  let self :=
    match proc_state proc with
    | Running => put_prog_bar (bar_setRange 0 0 (prog_bar self)) self
    | _ => self
    end in
  match proc_state proc with
  | NotRunning =>
      let self := put_prog_bar (bar_setRange 0 100 (prog_bar self)) self in
      put_prog_bar (bar_setValue 100 (prog_bar self)) self
  | _ => self
  end.

(** The body of the loop of [gen_ttf] over [zip(font_files, combos)]. *)
Definition assign_file (fi : FontInfo) (row : string * QComboBox) : FontInfo :=
  let (file, style) := row in
  if Nat.eqb (cmb_currentIndex style) SEL_REGULAR then put_font_file_reg (Some file) fi
  else if Nat.eqb (cmb_currentIndex style) SEL_BOLDITALIC then put_font_file_bi (Some file) fi
  else if Nat.eqb (cmb_currentIndex style) SEL_BOLD then put_font_file_bd (Some file) fi
  else if Nat.eqb (cmb_currentIndex style) SEL_ITALIC then put_font_file_it (Some file) fi
  else fi.

Definition assign_files (files : list string) (combos : list QComboBox)
    (fi : FontInfo) : FontInfo :=
  fold_left assign_file (combine files combos) fi.

(** [gen_ttf]: [located] is what the dialog of [set_ff_path] returns if it
    is opened, [chosen_dir] what the directory dialog returns (empty when
    cancelled).  The two branches of the test on [font_info.out_dir] differ
    only in the directory the dialog opens in, so they are one here.
    Iterating over [font_files] when it is [None] raises.

    This is the slot when no signal arrives while its dialogs are open, as
    is the case when no child process is active.  [gen_ttf_modal] below is
    the slot with the event loops of the dialogs. *)
Definition gen_ttf (located chosen_dir : string) (self : RF_Qt) : result RF_Qt :=
  let self := put_log_win [] self in
  let self := if negb (truthy_opt (ff_path self))
              then set_ff_path located self else self in
  match ff_path self with
  | Some program =>
      if PyStr.truthy program then
        let save_dir := posixpath.normpath chosen_dir in
        if (save_dir =? ".") || (save_dir =? "") then Ok self
        else
          let self := put_font_info (put_out_dir (Some save_dir) (font_info self)) self in
          match font_files self with
          | None => Raise TypeError
          | Some files =>
              let self :=
                put_font_info
                  (assign_files files (fnt_sty_combo_list self) (font_info self))
                  self in
              let cli_opt_list := gen_cli_command (font_info self) in
              Ok (put_cli_process
                    (start program cli_opt_list (cli_process self)) self)
          end
      else Ok self
  | None => Ok self
  end.

(** ** Construction of the window *)

(** [__init__]: [info] is the fresh [FontInfo()], [which] the result of
    [helper.which('fontforge')], [located] what the dialog of [set_ff_path]
    returns if it is opened.  Checking the first hinting button emits
    [toggled], which runs [set_hint]; the slider gets its value before
    [valueChanged] is connected. *)
Definition init (info : FontInfo) (which : option string) (located : string)
    : RF_Qt :=
  let combo := {| cmb_currentIndex := 0; cmb_enabled := false |} in
  let label := {| lab_text := "Load font file..."; lab_enabled := true |} in
  let box t := {| chk_text := t; chk_checked := false; chk_enabled := true |} in
  let radio t := {| rad_text := t; rad_checked := false |} in
  let keep := {| rad_text := "Keep Existing"; rad_checked := true |} in
  let self :=
    {| fnt_sty_combo_list := map (fun _ => combo) fnt_styles;
       fnt_file_name_list := map (fun _ => label) fnt_styles;
       font_files := None;
       font_info := info;
       cli_process :=
         setProcessChannelMode MergedChannels
           {| proc_state := NotRunning; proc_channel_mode := SeparateChannels;
              proc_program := ""; proc_arguments := [];
              proc_exit_code := 0%Z; proc_stdout := ""; proc_stderr := "" |};
       new_fnt_name := {| le_text := "" |};
       basic_opt_list := map box ["Legacy Kerning"; "Clear PANOSE"; "Alt. Name"];
       hint_opt_list := [keep; radio "Remove Existing"; radio "AutoHint"];
       darken_opt := box "Darken Font";
       mod_bearing_opt := chk_setEnabled false (box "Modify Bearings");
       lbl := {| lab_text := "Darken Amount:"; lab_enabled := false |};
       darken_amount_opt :=
         sld_setEnabled false
           (sld_setValue 12
              {| sld_minimum := 1; sld_maximum := 50; sld_value := 1;
                 sld_enabled := true |});
       darken_amount_lab := {| lab_text := str_of_int 12; lab_enabled := false |};
       gen_ttf_btn := {| btn_enabled := false |};
       prog_bar := {| bar_minimum := 0; bar_maximum := 100; bar_value := -1 |};
       log_win := [];
       ff_path := which |} in
  let self := set_hint keep self in
  if negb (truthy_opt (ff_path self)) then set_ff_path located self else self.

(** ** Signals

    What reaches the window while the event loop runs: the actions of the
    user on the widgets (a disabled widget takes none) and what happens to
    the child process.  The dialogs a slot opens are answered by the
    arguments of its event, and a slot runs as a whole: the signals that
    arrive while a dialog of [gen_ttf] is open are those of
    [gen_ttf_modal]. *)

Inductive Event :=
| NameEdited (name : string)
| BasicOptClicked (i : nat)
| HintClicked (i : nat)
| DarkenClicked
| ModBearingClicked
| SliderMoved (v : Z)
| StyleChosen (row index : nat)
| LoadFontsClicked (selected : list string)
| GenerateClicked (located chosen_dir : string)
| ProcStarted
| ChildWrote (ch : ProcessChannel) (data : string)
| ReadyRead
| ProcFinished (code : Z)
| ProcErrorOccurred (e : ProcessError).

(** [l[i] = f(l[i])], nothing when [i] is out of range. *)
Fixpoint alter_nth {A : Type} (f : A -> A) (i : nat) (l : list A) : list A :=
  match l, i with
  | [], _ => []
  | x :: l', O => f x :: l'
  | x :: l', S i' => x :: alter_nth f i' l'
  end.

(** Checking radio button [i] unchecks the others of its group, which is
    exclusive: afterwards button [i] alone is checked. *)
Fixpoint check_radio (i : nat) (l : list QRadioButton) : list QRadioButton :=
  match l, i with
  | [], _ => []
  | r :: l', O => rad_setChecked true r :: map (rad_setChecked false) l'
  | r :: l', S i' => rad_setChecked false r :: check_radio i' l'
  end.

Definition on_hint_clicked (i : nat) (self : RF_Qt) : RF_Qt :=
  match nth_error (hint_opt_list self) i with
  | Some r =>
      if rad_checked r then self
      else
        let self := put_hint_opt_list (check_radio i (hint_opt_list self)) self in
        (* [toggled] of the buttons that lost the check reaches [set_hint]
           with [isChecked()] false, which does nothing *)
        set_hint (rad_setChecked true r) self
  | None => self
  end.

Definition on_darken_clicked (self : RF_Qt) : RF_Qt :=
  let box := darken_opt self in
  let box := chk_setChecked (negb (chk_checked box)) box in
  set_darken_opt box (put_darken_opt box self).

Definition on_mod_bearing_clicked (self : RF_Qt) : RF_Qt :=
  let box := mod_bearing_opt self in
  if chk_enabled box
  then set_mod_bearing
         (put_mod_bearing_opt (chk_setChecked (negb (chk_checked box)) box) self)
  else self.

(** [valueChanged] is emitted only when the value changes. *)
Definition on_slider_moved (v : Z) (self : RF_Qt) : RF_Qt :=
  let sld := darken_amount_opt self in
  let sld' := sld_setValue v sld in
  if sld_enabled sld && negb (sld_value sld' =? sld_value sld)%Z
  then set_darken_amount (sld_value sld') (put_darken_amount_opt sld' self)
  else self.

(** The user picks entry [index] (0 is the empty entry) in the combo box
    of row [row]; no slot is connected to the combo boxes. *)
Definition on_style_chosen (row index : nat) (self : RF_Qt) : RF_Qt :=
  if Nat.leb index (List.length fnt_styles) then
    put_fnt_sty_combo_list
      (alter_nth (fun c => if cmb_enabled c then cmb_setCurrentIndex index c else c)
         row (fnt_sty_combo_list self)) self
  else self.

Definition on_proc_started (self : RF_Qt) : RF_Qt :=
  match proc_state (cli_process self) with
  | Starting =>
      let self := put_cli_process (proc_setState Running (cli_process self)) self in
      manage_proc (cli_process self) self
  | _ => self
  end.

Definition on_proc_finished (code : Z) (self : RF_Qt) : RF_Qt :=
  match proc_state (cli_process self) with
  | Running =>
      let self :=
        put_cli_process
          (proc_setExitCode code (proc_setState NotRunning (cli_process self)))
          self in
      manage_proc (cli_process self) self
  | _ => self
  end.

(** The [error] signal runs [manage_proc].  [FailedToStart] ends a start,
    [Crashed] ends a running process and is followed by [finished]; the
    other errors leave the process state as it is. *)
Definition on_proc_error (e : ProcessError) (self : RF_Qt) : RF_Qt :=
  match e, proc_state (cli_process self) with
  | FailedToStart, Starting =>
      let self := put_cli_process (proc_setState NotRunning (cli_process self)) self in
      manage_proc (cli_process self) self
  | FailedToStart, _ => self
  | Crashed, Running =>
      (* [error] is emitted while the state is still [Running], then the
         process object is cleaned up and [finished] is emitted *)
      let self := manage_proc (cli_process self) self in
      let self := put_cli_process (proc_setState NotRunning (cli_process self)) self in
      manage_proc (cli_process self) self
  | Crashed, _ => self
  | _, _ => manage_proc (cli_process self) self
  end.

Definition step (e : Event) (self : RF_Qt) : result RF_Qt :=
  match e with
  | NameEdited name =>
      Ok (set_family_name name (put_new_fnt_name {| le_text := name |} self))
  | BasicOptClicked i =>
      Ok (put_basic_opt_list
            (alter_nth (fun c => chk_setChecked (negb (chk_checked c)) c) i
               (basic_opt_list self)) self)
  | HintClicked i => Ok (on_hint_clicked i self)
  | DarkenClicked => Ok (on_darken_clicked self)
  | ModBearingClicked => Ok (on_mod_bearing_clicked self)
  | SliderMoved v => Ok (on_slider_moved v self)
  | StyleChosen row index => Ok (on_style_chosen row index self)
  | LoadFontsClicked selected => Ok (load_fonts selected self)
  | GenerateClicked located chosen_dir =>
      if btn_enabled (gen_ttf_btn self)
      then gen_ttf located chosen_dir self
      else Ok self
  | ProcStarted => Ok (on_proc_started self)
  | ChildWrote ch data =>
      match proc_state (cli_process self) with
      | Running => Ok (put_cli_process (child_wrote ch data (cli_process self)) self)
      | _ => Ok self
      end
  | ReadyRead =>
      if PyStr.truthy (proc_stdout (cli_process self))
      then read_proc_output self
      else Ok self
  | ProcFinished code => Ok (on_proc_finished code self)
  | ProcErrorOccurred e => Ok (on_proc_error e self)
  end.

(** The event loop: the slots run one after the other; an exception that
    leaves a slot ends the run. *)
Fixpoint run (events : list Event) (self : RF_Qt) : result RF_Qt :=
  match events with
  | [] => Ok self
  | e :: events' =>
      match step e self with
      | Ok self' => run events' self'
      | Raise x => Raise x
      end
  end.

(** ** Signals during a dialog

    [QMessageBox.warning] and the static functions of [QFileDialog] block
    in an event loop of their own.  The dialogs are modal: the window takes
    no input while one is open, but the signals of the child process are
    delivered and their slots run before the dialog returns. *)

Definition process_event (e : Event) : bool :=
  match e with
  | ProcStarted | ChildWrote _ _ | ReadyRead | ProcFinished _
  | ProcErrorOccurred _ => true
  | _ => false
  end.

(** The event loop of a dialog on the events that arrive while it is
    open. *)
Definition during_dialog (events : list Event) (self : RF_Qt) : result RF_Qt :=
  run (filter process_event events) self.

(** [gen_ttf] with the event loops of its dialogs: [during_locate] are the
    events that arrive while the dialogs of [set_ff_path] are open,
    [during_dir] those that arrive while the directory dialog is open.  The
    log is cleared before the first dialog; [ff_path] is read again when
    [start] is called, after the last. *)
Definition gen_ttf_modal (located : string) (during_locate : list Event)
    (chosen_dir : string) (during_dir : list Event) (self : RF_Qt)
    : result RF_Qt :=
  let self := put_log_win [] self in
  match (if negb (truthy_opt (ff_path self))
         then match during_dialog during_locate self with
              | Ok self => Ok (set_ff_path located self)
              | Raise x => Raise x
              end
         else Ok self) with
  | Raise x => Raise x
  | Ok self =>
      if truthy_opt (ff_path self) then
        match during_dialog during_dir self with
        | Raise x => Raise x
        | Ok self =>
            let save_dir := posixpath.normpath chosen_dir in
            if (save_dir =? ".") || (save_dir =? "") then Ok self
            else
              let self :=
                put_font_info (put_out_dir (Some save_dir) (font_info self))
                  self in
              match font_files self with
              | None => Raise TypeError
              | Some files =>
                  let self :=
                    put_font_info
                      (assign_files files (fnt_sty_combo_list self)
                         (font_info self))
                      self in
                  let cli_opt_list := gen_cli_command (font_info self) in
                  match ff_path self with
                  | Some program =>
                      Ok (put_cli_process
                            (start program cli_opt_list (cli_process self)) self)
                  | None => Raise TypeError
                  end
              end
        end
      else Ok self
  end.

End Window.

(** ** Parts of the repository outside the window's source file

    helper.py and FontInfo.py are not available.  The slots above take what
    they need from them as parameters; the definitions of this module give
    those parts the content the specification describes. *)

Module Spec.

(** Modelled from the spec: the filesystem-reserved characters the Name
    Validator rejects (section 4.2; the double quote is character 34). *)
Definition reserved_chars : list ascii :=
  ["/"; "\"; ":"; "*"; "?"; ascii_of_nat 34; "<"; ">"; "|"]%char.

(** Modelled from the spec: white space, for the names of white space
    only. *)
Definition is_space (c : ascii) : bool :=
  existsb (Nat.eqb (nat_of_ascii c)) [32; 9; 10; 11; 12; 13].

Fixpoint string_forallb (f : ascii -> bool) (s : string) : bool :=
  match s with
  | EmptyString => true
  | String c s' => f c && string_forallb f s'
  end.

(** Modelled from the spec: the Name Validator [isValidFamilyName], which
    stands for [helper.valid_filename] (helper.py is missing).  It rejects
    the empty string, a string with a filesystem-reserved character and a
    string of white space only. *)
Definition isValidFamilyName (name : string) : bool :=
  negb (name =? "")
  && string_forallb (fun c => negb (existsb (Ascii.eqb c) reserved_chars)) name
  && negb (string_forallb is_space name).

(** Modelled from the spec: the attribute values of a fresh [FontInfo()]
    (FontInfo.py is missing): the default values of the job configuration,
    hinting mode Keep, nothing selected. *)
Definition FontInfo_new : FontInfo :=
  {| font_name := ""; font_file_reg := None; font_file_it := None;
     font_file_bd := None; font_file_bi := None;
     leg_kern := false; strip_panose := false; name_hack := false;
     change_hint := "keep"; add_weight := 0; mod_bearings := false;
     out_dir := None |}.

(** Modelled from the spec: the data model of section 3, for the Command
    Builder. *)
Inductive StyleSlot := Regular | Italic | Bold | BoldItalic | Unassigned.

Definition StyleSlot_eqb (a b : StyleSlot) : bool :=
  match a, b with
  | Regular, Regular | Italic, Italic | Bold, Bold
  | BoldItalic, BoldItalic | Unassigned, Unassigned => true
  | _, _ => false
  end.

Record FontFileEntry := { path : string; slot : StyleSlot }.

Inductive HintMode := Keep | Remove | Auto.

Record JobConfiguration :=
  { familyName : string;
    files : list FontFileEntry;
    legacyKerning : bool;
    stripPanose : bool;
    nameHack : bool;
    hintMode : HintMode;
    darkenEnabled : bool;
    darkenAmount : Z;
    modifyBearings : bool;
    outputDir : option string;
    executablePath : option string }.

Inductive BuildResult :=
| Built (args : list string)
| ConfigIncomplete.

(** Modelled from the spec: the flag [--<slot>-file] of a style slot. *)
Definition slot_flag (s : StyleSlot) : string :=
  match s with
  | Regular => "--regular-file"
  | Italic => "--italic-file"
  | Bold => "--bold-file"
  | BoldItalic => "--bolditalic-file"
  | Unassigned => ""
  end.

(** Modelled from the spec: the argument pair of one style slot, nothing
    when no file has it. *)
Definition slot_args (cfg : JobConfiguration) (s : StyleSlot) : list string :=
  match find (fun e => StyleSlot_eqb (slot e) s) (files cfg) with
  | Some e => [slot_flag s; path e]
  | None => []
  end.

(** Modelled from the spec: one flag per enabled boolean option. *)
Definition option_args (cfg : JobConfiguration) : list string :=
  (if legacyKerning cfg then ["--legacy-kerning"] else [])
  ++ (if stripPanose cfg then ["--strip-panose"] else [])
  ++ (if nameHack cfg then ["--alt-name"] else []).

(** Modelled from the spec: the flag of the hinting mode. *)
Definition hint_flag (m : HintMode) : string :=
  match m with
  | Keep => "--hint-keep"
  | Remove => "--hint-remove"
  | Auto => "--hint-auto"
  end.

(** Modelled from the spec: [--darken <amount>], then [--fix-bearings],
    when darkening is enabled; nothing otherwise. *)
Definition darken_args (cfg : JobConfiguration) : list string :=
  if darkenEnabled cfg
  then ["--darken"; str_of_int (darkenAmount cfg)]
       ++ (if modifyBearings cfg then ["--fix-bearings"] else [])
  else [].

(** Modelled from the spec: the Command Builder [build] (section 4.3), which
    stands for [FontInfo.gen_cli_command] (FontInfo.py is missing): the
    family name, the file pairs in slot order, the enabled flags, the hint
    flag, the darken arguments, the output directory; [ConfigIncomplete]
    without an assigned file, a valid name or an output directory. *)
Definition build (cfg : JobConfiguration) : BuildResult :=
  match outputDir cfg with
  | None => ConfigIncomplete
  | Some dir =>
      if existsb (fun e => negb (StyleSlot_eqb (slot e) Unassigned)) (files cfg)
         && isValidFamilyName (familyName cfg)
      then Built ([familyName cfg]
                  ++ flat_map (slot_args cfg) [Regular; Italic; Bold; BoldItalic]
                  ++ option_args cfg
                  ++ [hint_flag (hintMode cfg)]
                  ++ darken_args cfg
                  ++ ["--out-dir"; dir])
      else ConfigIncomplete
  end.

(** The stored darken amount and bearings flag replaced. *)
Definition with_darken_values (amount : Z) (bearings : bool)
    (cfg : JobConfiguration) : JobConfiguration :=
  {| familyName := familyName cfg; files := files cfg;
     legacyKerning := legacyKerning cfg; stripPanose := stripPanose cfg;
     nameHack := nameHack cfg; hintMode := hintMode cfg;
     darkenEnabled := darkenEnabled cfg;
     darkenAmount := amount; modifyBearings := bearings;
     outputDir := outputDir cfg; executablePath := executablePath cfg |}.

(** Modelled from the spec: the states of the Process Supervisor
    (section 4.5). *)
Inductive FailReason := NonZeroExit (code : Z) | SpawnError | Cancelled.
Inductive SupervisorState :=
  Idle | Starting | Running | Succeeded | Failed (reason : FailReason).

End Spec.

(** ** The default encodings

    [sys.getdefaultencoding()] is 'ascii' under Python 2 and 'utf-8' under
    Python 3; decoding is strict.  The decoded text is kept as the bytes
    that encode it. *)

(** The 'ascii' codec: a byte above 127 cannot be decoded. *)
Definition decode_ascii (data : string) : option string :=
  if Spec.string_forallb (fun c => Nat.ltb (nat_of_ascii c) 128) data
  then Some data else None.

(** The byte [c] lies in [lo..hi]. *)
Definition between (lo hi : nat) (c : ascii) : bool :=
  Nat.leb lo (nat_of_ascii c) && Nat.leb (nat_of_ascii c) hi.

(** Well-formed UTF-8: one byte below 128, or a lead byte with its one, two
    or three continuation bytes, without overlong forms, surrogates and
    code points above U+10FFFF. *)
Fixpoint utf8_valid (s : string) : bool :=
  match s with
  | EmptyString => true
  | String a s1 =>
      if between 0 127 a then utf8_valid s1
      else if between 194 223 a then
        match s1 with
        | String b s2 => between 128 191 b && utf8_valid s2
        | _ => false
        end
      else if between 224 239 a then
        match s1 with
        | String b (String c s3) =>
            (if between 224 224 a then between 160 191 b
             else if between 237 237 a then between 128 159 b
             else between 128 191 b)
            && between 128 191 c && utf8_valid s3
        | _ => false
        end
      else if between 240 244 a then
        match s1 with
        | String b (String c (String d s4)) =>
            (if between 240 240 a then between 144 191 b
             else if between 244 244 a then between 128 143 b
             else between 128 191 b)
            && between 128 191 c && between 128 191 d && utf8_valid s4
        | _ => false
        end
      else false
  end.

(** The 'utf-8' codec. *)
Definition decode_utf8 (data : string) : option string :=
  if utf8_valid data then Some data else None.

(** ** Notions used by the statements *)

(** [occurs tok s]: [tok] is a contiguous part of [s]. *)
Definition occurs (tok s : string) : Prop :=
  exists pre post : string, s = (pre ++ tok ++ post)%string.

(** The attribute of [FontInfo] that holds the file of a style
    ([SEL_REGULAR] = 1, [SEL_ITALIC] = 2, [SEL_BOLD] = 3,
    [SEL_BOLDITALIC] = 4). *)
Definition slot_file (style : nat) (fi : FontInfo) : option string :=
  match style with
  | 1 => font_file_reg fi
  | 2 => font_file_it fi
  | 3 => font_file_bd fi
  | 4 => font_file_bi fi
  | _ => None
  end.

(** The last file of [rows] whose combo box shows [style]. *)
Fixpoint last_with_style (style : nat) (rows : list (string * QComboBox))
    : option string :=
  match rows with
  | [] => None
  | (file, c) :: rows' =>
      match last_with_style style rows' with
      | Some f => Some f
      | None => if Nat.eqb (cmb_currentIndex c) style then Some file else None
      end
  end.

(** The loaded files that have a style, with the style their combo box
    shows: the assigned entries of the job. *)
Definition assigned_entries (self : RF_Qt) : list (string * nat) :=
  match font_files self with
  | None => []
  | Some files =>
      filter (fun e => negb (Nat.eqb (snd e) SEL_NONE))
        (map (fun r => (fst r, cmb_currentIndex (snd r)))
           (combine files (fnt_sty_combo_list self)))
  end.

(** What the window shows of the child process: progress bar and log. *)
Definition shown (self : RF_Qt) : QProgressBar * QTextEdit :=
  (prog_bar self, log_win self).

(** The part of the window a generation request works on besides widgets:
    the process object and the log of its output. *)
Definition job (self : RF_Qt) : QProcess * QTextEdit :=
  (cli_process self, log_win self).

(** A process is starting or running. *)
Definition busy (p : QProcess) : bool :=
  negb (ProcessState_eqb (proc_state p) NotRunning).

Definition ProcessChannel_eqb (a b : ProcessChannel) : bool :=
  match a, b with
  | StandardOutput, StandardOutput | StandardError, StandardError => true
  | _, _ => false
  end.

(** The bytes the child wrote during [events], in the order of arrival,
    each with the stream it came from. *)
Fixpoint written (events : list Event) : list (ProcessChannel * ascii) :=
  match events with
  | [] => []
  | ChildWrote ch data :: events' =>
      map (pair ch) (list_ascii_of_string data) ++ written events'
  | _ :: events' => written events'
  end.

(** The bytes the child wrote on one stream during [events]. *)
Fixpoint written_on (ch : ProcessChannel) (events : list Event) : list ascii :=
  match events with
  | [] => []
  | ChildWrote ch' data :: events' =>
      (if ProcessChannel_eqb ch' ch then list_ascii_of_string data else [])
      ++ written_on ch events'
  | _ :: events' => written_on ch events'
  end.

(** Every chunk that [read_proc_output] reads during [events] can be
    decoded; [waiting] is what waits on the read channel at the start. *)
Fixpoint decodable (decode : string -> option string) (events : list Event)
    (waiting : string) : bool :=
  match events with
  | [] => true
  | ChildWrote _ data :: events' => decodable decode events' (waiting ++ data)
  | ReadyRead :: events' =>
      if PyStr.truthy waiting
      then match decode waiting with
           | Some _ => decodable decode events' ""
           | None => false
           end
      else decodable decode events' waiting
  | _ :: events' => decodable decode events' waiting
  end.

(** The chunks [read_proc_output] reads during [events]: a [readyRead]
    takes all that waits on the read channel. *)
Fixpoint chunks_read (events : list Event) (waiting : string) : list string :=
  match events with
  | [] => []
  | ChildWrote _ data :: events' => chunks_read events' (waiting ++ data)
  | ReadyRead :: events' =>
      if PyStr.truthy waiting
      then waiting :: chunks_read events' ""
      else chunks_read events' waiting
  | _ :: events' => chunks_read events' waiting
  end.

(** What waits on the read channel after [events]. *)
Fixpoint left_waiting (events : list Event) (waiting : string) : string :=
  match events with
  | [] => waiting
  | ChildWrote _ data :: events' => left_waiting events' (waiting ++ data)
  | ReadyRead :: events' => left_waiting events' ""
  | _ :: events' => left_waiting events' waiting
  end.

(** The concatenation of the chunks read from the process. *)
Fixpoint str_concat (chunks : list string) : string :=
  match chunks with
  | [] => EmptyString
  | c :: chunks' => (c ++ str_concat chunks')%string
  end.

(** Events that leave the child running and the log to the process: all
    but the end of the process and a new generation request. *)
Definition keeps_running (e : Event) : bool :=
  match e with
  | GenerateClicked _ _ | ProcFinished _ | ProcErrorOccurred _ => false
  | _ => true
  end.

(** ** A concrete session, for the closed examples

    The statements below hold for every validator, command generator and
    codec; the examples run the window with the validator of the
    specification, the 'ascii' codec and a generator that passes the family
    name alone (no example depends on the argument list). *)

Definition cli_of_name (fi : FontInfo) : list string := [font_name fi].

(** The session of the examples: Python 2 (codec 'ascii'). *)

Definition run0 : list Event -> RF_Qt -> result RF_Qt :=
  run Spec.isValidFamilyName cli_of_name decode_ascii.

(** The window as it opens when fontforge is found on the PATH. *)
Definition window0 : RF_Qt :=
  init Spec.FontInfo_new (Some "/usr/bin/fontforge") "".

(** The window of the examples once a generation has been requested and the
    child has started. *)
Definition to_running : list Event :=
  [NameEdited "MyFont"; LoadFontsClicked ["/fonts/Foo-Regular.ttf"];
   GenerateClicked "" "/out"; ProcStarted].

Definition running0 : RF_Qt :=
  match run0 to_running window0 with
  | Ok self => self
  | Raise _ => window0
  end.

(** The same window after the child has written a line that was shown. *)
Definition logging0 : RF_Qt :=
  match run0 [ChildWrote StandardOutput "Opening font"; ReadyRead] running0 with
  | Ok self => self
  | Raise _ => running0
  end.

(** What reaches that window while the directory dialog of a second
    request is open: the child writes a line, which is read; the name field
    takes no input meanwhile. *)
Definition late_output : list Event :=
  [ChildWrote StandardOutput "Saving"; NameEdited "Other"; ReadyRead].

(** The window [logging0] after these signals alone, without a request. *)
Definition went_on0 : RF_Qt :=
  match run0 (filter process_event late_output) logging0 with
  | Ok self => self
  | Raise _ => logging0
  end.

(** The window of the examples after Darken and Modify Bearings have been
    checked and Darken unchecked again. *)
Definition darken_off0 : RF_Qt :=
  match run0 [DarkenClicked; ModBearingClicked; DarkenClicked] window0 with
  | Ok self => self
  | Raise _ => window0
  end.

(** Two sessions of the examples: two bold files loaded, and a file whose
    name tells no style. *)
Definition two_bold : list Event :=
  [NameEdited "MyFont";
   LoadFontsClicked ["/fonts/A-Bold.ttf"; "/fonts/B-Bold.ttf"];
   GenerateClicked "" "/out"].

Definition no_style : list Event :=
  [NameEdited "MyFont"; LoadFontsClicked ["/fonts/Foo.ttf"];
   GenerateClicked "" "/out"].

(** The window of the examples after [events]. *)
Definition after (events : list Event) : RF_Qt :=
  match run0 events window0 with
  | Ok self => self
  | Raise _ => window0
  end.

(** The window as it opens when fontforge is not on the PATH and the user
    points at it in the dialog. *)
Definition window1 : RF_Qt :=
  init Spec.FontInfo_new None "/opt/ff/bin/../fontforge".

(** That window after the session [two_bold]. *)
Definition located0 : RF_Qt :=
  match run0 two_bold window1 with
  | Ok self => self
  | Raise _ => window1
  end.

(** A selection of five files. *)
Definition five_files : list string :=
  ["/fonts/Foo-Regular.ttf"; "/fonts/Foo-Italic.ttf"; "/fonts/Foo-Bold.ttf";
   "/fonts/Foo-BoldItalic.ttf"; "/fonts/Foo-Light.ttf"].

(** Output on both streams, read once, with an edit of the name in
    between. *)
Definition some_output : list Event :=
  [ChildWrote StandardOutput "abc"; ChildWrote StandardError "err"; ReadyRead;
   NameEdited "Other"; ChildWrote StandardOutput "d"].

(** A job configuration with darkening off whose font file is named like
    an option. *)
Definition odd_path_cfg : Spec.JobConfiguration :=
  {| Spec.familyName := "MyFont";
     Spec.files := [{| Spec.path := "--darken"; Spec.slot := Spec.Regular |}];
     Spec.legacyKerning := false; Spec.stripPanose := false;
     Spec.nameHack := false; Spec.hintMode := Spec.Keep;
     Spec.darkenEnabled := false; Spec.darkenAmount := 12;
     Spec.modifyBearings := true;
     Spec.outputDir := Some "/out"; Spec.executablePath := None |}.

(** The configuration of the scenario of the specification, darkening off
    with a darken amount and a bearings flag still stored. *)
Definition plain_cfg : Spec.JobConfiguration :=
  {| Spec.familyName := "MyFont";
     Spec.files := [{| Spec.path := "a.ttf"; Spec.slot := Spec.Regular |}];
     Spec.legacyKerning := false; Spec.stripPanose := false;
     Spec.nameHack := false; Spec.hintMode := Spec.Keep;
     Spec.darkenEnabled := false; Spec.darkenAmount := 12;
     Spec.modifyBearings := true;
     Spec.outputDir := Some "/out"; Spec.executablePath := None |}.

(** ** Notions used by the session invariants *)

(** The keywords [set_hint] stores, in the order of the hinting buttons. *)
Definition hint_keywords : list string := ["keep"; "remove"; "auto"].

(** The state of the hinting group when button [i] is the checked one:
    the three buttons with their texts, button [i] alone checked, and the
    keyword of button [i] stored in the job. *)
Definition hint_group (i : nat) (s : RF_Qt) : Prop :=
  map rad_text (hint_opt_list s) = ["Keep Existing"; "Remove Existing"; "AutoHint"]
  /\ map rad_checked (hint_opt_list s) = map (Nat.eqb i) [0; 1; 2]
  /\ nth_error hint_keywords i = Some (change_hint (font_info s)).

(** The loaded font files, none before the first load. *)
Definition loaded_files (self : RF_Qt) : list string :=
  match font_files self with
  | Some files => files
  | None => []
  end.

(** The state of the darken group: the slider stays in 1..50 and is
    enabled with the Darken box; with the box checked the job holds the
    value of the slider, which the label shows; with the box unchecked it
    holds 0 or what the fresh [FontInfo] held. *)
Definition darken_group (info : FontInfo) (s : RF_Qt) : Prop :=
  sld_minimum (darken_amount_opt s) = 1%Z
  /\ sld_maximum (darken_amount_opt s) = 50%Z
  /\ (1 <= sld_value (darken_amount_opt s) <= 50)%Z
  /\ sld_enabled (darken_amount_opt s) = chk_checked (darken_opt s)
  /\ if chk_checked (darken_opt s)
     then add_weight (font_info s) = sld_value (darken_amount_opt s)
          /\ lab_text (darken_amount_lab s)
             = str_of_int (sld_value (darken_amount_opt s))
     else add_weight (font_info s) = add_weight info
          \/ add_weight (font_info s) = 0%Z.

(** The state of the font grid: a combo box is enabled exactly when its
    row shows a loaded file, its index is one of the five entries, and a
    disabled combo box shows the empty entry. *)
Definition rows_ok (s : RF_Qt) : Prop :=
  forall (i : nat) (c : QComboBox),
    nth_error (fnt_sty_combo_list s) i = Some c ->
    cmb_currentIndex c <= 4
    /\ cmb_enabled c = Nat.ltb i (List.length (loaded_files s))
    /\ (cmb_enabled c = false -> cmb_currentIndex c = SEL_NONE).

(** A longer session of the examples: darkening switched on and the
    slider moved, the third hinting button clicked, a basic option checked,
    two bold files loaded and a generation requested; then the child
    started. *)
Definition busy_session : list Event :=
  [DarkenClicked; SliderMoved 30; HintClicked 2; BasicOptClicked 0]
  ++ two_bold ++ [ProcStarted].

(** After [two_bold], a regular file alone is loaded and a generation is
    requested again. *)
Definition reload : list Event :=
  [ProcStarted; ProcFinished 0; LoadFontsClicked ["/fonts/Foo-Regular.ttf"];
   GenerateClicked "" "/out2"].

Definition reloaded0 : RF_Qt :=
  match run0 reload (after two_bold) with
  | Ok self => self
  | Raise _ => window0
  end.

(** ** Proof automation *)

(** The slots unfolded and their case distinctions made. *)
Ltac slots :=
  unfold step, on_hint_clicked, on_darken_clicked, on_mod_bearing_clicked,
    on_slider_moved, on_style_chosen, on_proc_started, on_proc_finished,
    on_proc_error, set_family_name, set_darken_amount, set_hint,
    set_darken_opt, set_mod_bearing, load_fonts, read_proc_output,
    readAllStandardOutput, manage_proc, gen_ttf, set_ff_path in *.

Ltac cases :=
  repeat match goal with
         | H : Ok _ = Ok _ |- _ => injection H as H; try subst
         | H : Raise _ = Ok _ |- _ => discriminate H
         | H : context [match ?x with _ => _ end] |- _ => destruct x eqn:?
         | H : context [if ?x then _ else _] |- _ => destruct x eqn:?
         | |- context [match ?x with _ => _ end] => destruct x eqn:?
         | |- context [if ?x then _ else _] => destruct x eqn:?
         end.

(** * Properties *)

(** ** Python strings and paths *)

Example normpath_ex1 :
  posixpath.normpath "/home//user/./fonts/../Foo-Bold.ttf" = "/home/user/Foo-Bold.ttf".
Proof. reflexivity. Qed.

Example normpath_ex2 : posixpath.normpath "" = ".".
Proof. reflexivity. Qed.

Example split_ex1 :
  posixpath.split "/home/user/Foo-Bold.ttf" = ("/home/user", "Foo-Bold.ttf").
Proof. reflexivity. Qed.

Example split_ex2 : posixpath.split "/Foo.ttf" = ("/", "Foo.ttf").
Proof. reflexivity. Qed.

Example contains_ex1 : PyStr.contains "bold" (PyStr.lower "Foo-BoLd.ttf") = true.
Proof. reflexivity. Qed.

Lemma startswith_spec (p s : string) :
  PyStr.startswith p s = true <-> exists post, s = (p ++ post)%string.
Proof.
  revert s; induction p as [|a p IH]; intros s; simpl.
  - split; [intros _; now exists s | reflexivity].
  - destruct s as [|b s]; simpl.
    + split; [discriminate | intros [post H]; discriminate].
    + rewrite andb_true_iff, Ascii.eqb_eq, IH. split.
      * intros [-> [post ->]]. now exists post.
      * intros [post H]. injection H as -> ->. split; [reflexivity | now exists post].
Qed.

Lemma contains_spec (tok s : string) :
  PyStr.contains tok s = true <-> occurs tok s.
Proof.
  unfold occurs. induction s as [|c s IH].
  - simpl. rewrite orb_false_r, startswith_spec. split.
    + intros [post H]. now exists EmptyString, post.
    + intros [pre [post H]]. destruct pre; simpl in H.
      * now exists post.
      * discriminate.
  - change (PyStr.contains tok (String c s))
      with (PyStr.startswith tok (String c s) || PyStr.contains tok s).
    rewrite orb_true_iff, startswith_spec, IH. split.
    + intros [[post H] | [pre [post H]]].
      * now exists EmptyString, post.
      * exists (String c pre), post. simpl. now rewrite H.
    + intros [pre [post H]]. destruct pre as [|a pre]; simpl in H.
      * left. now exists post.
      * right. injection H as _ H. now exists pre, post.
Qed.

Lemma contains_false_spec (tok s : string) :
  PyStr.contains tok s = false <-> ~ occurs tok s.
Proof.
  rewrite <- contains_spec.
  destruct (PyStr.contains tok s); split; intuition congruence.
Qed.

Lemma lower_ascii_idem (c : ascii) :
  PyStr.lower_ascii (PyStr.lower_ascii c) = PyStr.lower_ascii c.
Proof.
  destruct c as [[] [] [] [] [] [] [] []]; reflexivity.
Qed.

Lemma lower_idem (s : string) : PyStr.lower (PyStr.lower s) = PyStr.lower s.
Proof.
  induction s as [|c s IH]; simpl; [reflexivity|].
  now rewrite lower_ascii_idem, IH.
Qed.

(** ** The rows of the font grid *)

Section Rows.

Lemma reset_rows_length (labels : list QLabel) (combos : list QComboBox) :
  List.length (fst (reset_rows labels combos)) = List.length labels
  /\ List.length (snd (reset_rows labels combos)) = List.length combos.
Proof.
  revert combos; induction labels as [|l labels IH]; intros [|c combos];
    simpl; auto.
  specialize (IH combos). destruct (reset_rows labels combos) as [ls cs].
  simpl in *. destruct IH as [-> ->]. auto.
Qed.

Lemma fill_rows_length (names : list string) (labels : list QLabel)
    (combos : list QComboBox) :
  List.length (fst (fill_rows names labels combos)) = List.length labels
  /\ List.length (snd (fill_rows names labels combos)) = List.length combos.
Proof.
  revert labels combos; induction names as [|n names IH];
    intros [|l labels] [|c combos]; simpl; auto.
  specialize (IH labels combos).
  destruct (fill_rows names labels combos) as [ls cs].
  simpl in *. destruct IH as [-> ->]. auto.
Qed.

Lemma reset_rows_nth (labels : list QLabel) (combos : list QComboBox)
    (i : nat) (l : QLabel) (c : QComboBox) :
  nth_error labels i = Some l ->
  nth_error combos i = Some c ->
  nth_error (fst (reset_rows labels combos)) i
    = Some (lab_setText "Load font file..." l)
  /\ nth_error (snd (reset_rows labels combos)) i
    = Some (cmb_setEnabled false (cmb_setCurrentIndex SEL_NONE c)).
Proof.
  revert combos i; induction labels as [|l0 labels IH];
    intros [|c0 combos] [|i] Hl Hc; simpl in *; try discriminate.
  - destruct (reset_rows labels combos). simpl.
    injection Hl as ->. injection Hc as ->. auto.
  - specialize (IH combos i Hl Hc).
    destruct (reset_rows labels combos). simpl in *. exact IH.
Qed.

Lemma fill_rows_nth (names : list string) (labels : list QLabel)
    (combos : list QComboBox) (i : nat) (n : string) (l : QLabel)
    (c : QComboBox) :
  nth_error names i = Some n ->
  nth_error labels i = Some l ->
  nth_error combos i = Some c ->
  nth_error (fst (fill_rows names labels combos)) i = Some (fst (fill_row n l c))
  /\ nth_error (snd (fill_rows names labels combos)) i = Some (snd (fill_row n l c)).
Proof.
  revert labels combos i; induction names as [|n0 names IH];
    intros [|l0 labels] [|c0 combos] [|i] Hn Hl Hc; simpl in *; try discriminate.
  - destruct (fill_rows names labels combos). simpl.
    injection Hn as ->. injection Hl as ->. injection Hc as ->. auto.
  - specialize (IH labels combos i Hn Hl Hc).
    destruct (fill_rows names labels combos). simpl in *. exact IH.
Qed.

End Rows.

(** The widgets of the grid after [load_fonts]. *)
Lemma load_fonts_rows (selected : list string) (self : RF_Qt) :
  selected <> [] ->
  let reset := reset_rows (fnt_file_name_list self) (fnt_sty_combo_list self) in
  let filled := fill_rows (map file_name selected) (fst reset) (snd reset) in
  fnt_file_name_list (load_fonts selected self) = fst filled
  /\ fnt_sty_combo_list (load_fonts selected self) = snd filled.
Proof.
  intros Hs. destruct selected as [|f selected]; [congruence|].
  unfold load_fonts.
  destruct (reset_rows (fnt_file_name_list self) (fnt_sty_combo_list self))
    as [ls cs].
  cbv zeta. cbn [fst snd].
  destruct (fill_rows (map file_name (f :: selected)) ls cs) as [ls' cs'].
  destruct (PyStr.truthy _); split; reflexivity.
Qed.

(** The priority of the style detection, on the substrings of the lowered
    file name. *)
Lemma detect_style_priority (f_file : string) :
  let fn := PyStr.lower f_file in
  (occurs "regular" fn -> detect_style f_file = Some SEL_REGULAR)
  /\ (~ occurs "regular" fn -> occurs "bold" fn -> occurs "italic" fn ->
      detect_style f_file = Some SEL_BOLDITALIC)
  /\ (~ occurs "regular" fn -> occurs "bold" fn -> ~ occurs "italic" fn ->
      detect_style f_file = Some SEL_BOLD)
  /\ (~ occurs "regular" fn -> ~ occurs "bold" fn -> occurs "italic" fn ->
      detect_style f_file = Some SEL_ITALIC)
  /\ (~ occurs "regular" fn -> ~ occurs "bold" fn -> ~ occurs "italic" fn ->
      detect_style f_file = None).
Proof.
  cbv zeta. unfold detect_style.
  repeat split; intros;
    repeat match goal with
           | H : occurs _ _ |- _ => apply contains_spec in H; rewrite H
           | H : ~ occurs _ _ |- _ => apply contains_false_spec in H; rewrite H
           end; reflexivity.
Qed.

(** ** The file attributes *)

(** The loop of [gen_ttf] writes the four file attributes only. *)
Lemma assign_files_frame (files : list string) (combos : list QComboBox)
    (fi : FontInfo) :
  let fi' := assign_files files combos fi in
  font_name fi' = font_name fi
  /\ leg_kern fi' = leg_kern fi
  /\ strip_panose fi' = strip_panose fi
  /\ name_hack fi' = name_hack fi
  /\ change_hint fi' = change_hint fi
  /\ add_weight fi' = add_weight fi
  /\ mod_bearings fi' = mod_bearings fi
  /\ out_dir fi' = out_dir fi.
Proof.
  unfold assign_files. generalize (combine files combos) as rows.
  intros rows; revert fi. induction rows as [|[file c] rows IH]; intros fi.
  - cbn. repeat split.
  - cbn [fold_left]. specialize (IH (assign_file fi (file, c))).
    cbv zeta in *. destruct IH as (H1 & H2 & H3 & H4 & H5 & H6 & H7 & H8).
    rewrite H1, H2, H3, H4, H5, H6, H7, H8. unfold assign_file.
    repeat match goal with
           | |- context [if ?x then _ else _] => destruct x
           end; repeat split.
Qed.

Lemma assign_files_mod_bearings (files : list string) (combos : list QComboBox)
    (fi : FontInfo) :
  mod_bearings (assign_files files combos fi) = mod_bearings fi.
Proof. apply (assign_files_frame files combos fi). Qed.

Lemma assign_files_font_name (files : list string) (combos : list QComboBox)
    (fi : FontInfo) :
  font_name (assign_files files combos fi) = font_name fi.
Proof. apply (assign_files_frame files combos fi). Qed.

Lemma assign_files_add_weight (files : list string) (combos : list QComboBox)
    (fi : FontInfo) :
  add_weight (assign_files files combos fi) = add_weight fi.
Proof. apply (assign_files_frame files combos fi). Qed.

Lemma str_app_nil_r (s : string) : (s ++ "")%string = s.
Proof. induction s as [|c s IH]; simpl; [reflexivity | now rewrite IH]. Qed.

Lemma str_app_assoc (a b c : string) :
  ((a ++ b) ++ c)%string = (a ++ (b ++ c))%string.
Proof. induction a as [|x a IH]; simpl; [reflexivity | now rewrite IH]. Qed.

Lemma string_of_list_ascii_app (l1 l2 : list ascii) :
  string_of_list_ascii (l1 ++ l2)
  = (string_of_list_ascii l1 ++ string_of_list_ascii l2)%string.
Proof. induction l1 as [|x l1 IH]; simpl; [reflexivity | now rewrite IH]. Qed.

Lemma truthy_false (s : string) : PyStr.truthy s = false -> s = "".
Proof. destruct s; [reflexivity | discriminate]. Qed.

(** ** Only four rows *)

Lemma fill_rows_firstn (names : list string) (labels : list QLabel)
    (combos : list QComboBox) :
  fill_rows names labels combos
  = fill_rows (firstn (List.length labels) names) labels combos.
Proof.
  revert labels combos; induction names as [|n names IH];
    intros [|l labels] [|c combos]; try reflexivity.
  cbn [List.length firstn fill_rows]. rewrite (IH labels combos). reflexivity.
Qed.

Lemma load_fonts_firstn (selected : list string) (self : RF_Qt) :
  List.length (fnt_file_name_list self) = 4 ->
  4 < List.length selected ->
  load_fonts selected self
  = put_font_files (Some selected) (load_fonts (firstn 4 selected) self).
Proof.
  intros Hlen Hsel.
  destruct selected as [|a [|b [|c [|d [|e rest]]]]]; cbn in Hsel; try lia.
  unfold load_fonts. cbn [firstn].
  pose proof (reset_rows_length (fnt_file_name_list self) (fnt_sty_combo_list self))
    as [Hl _].
  destruct (reset_rows (fnt_file_name_list self) (fnt_sty_combo_list self))
    as [ls cs].
  cbn [fst] in Hl. rewrite Hlen in Hl.
  rewrite (fill_rows_firstn (map file_name (a :: b :: c :: d :: e :: rest)) ls cs).
  rewrite Hl. cbn [map firstn].
  destruct (fill_rows _ ls cs) as [ls' cs'].
  cbn [new_fnt_name put_font_files put_fnt_file_name_list put_fnt_sty_combo_list].
  destruct (PyStr.truthy (le_text (new_fnt_name self))); reflexivity.
Qed.

Lemma assign_files_firstn (files : list string) (combos : list QComboBox)
    (fi : FontInfo) :
  assign_files (firstn (List.length combos) files) combos fi
  = assign_files files combos fi.
Proof.
  unfold assign_files. now rewrite <- combine_firstn_r.
Qed.

(** ** Style detection (C1) *)

(** C1, amended.  [load_fonts] shows in row [i] the file name component of
    the [i]-th selected path and sets the style of that row from the
    lowered file name alone, by strict priority: "regular" gives Regular;
    else "bold" together with "italic" gives Bold Italic; else "bold" gives
    Bold; else "italic" gives Italic; otherwise the row is left without a
    style.  A name with all three of "regular", "bold" and "italic" is
    therefore Regular. *)
Theorem load_fonts_style_priority
    (selected : list string) (self : RF_Qt) (i : nat) (file : string)
    (l : QLabel) (c : QComboBox) :
  nth_error selected i = Some file ->
  nth_error (fnt_file_name_list self) i = Some l ->
  nth_error (fnt_sty_combo_list self) i = Some c ->
  exists (l' : QLabel) (c' : QComboBox),
    nth_error (fnt_file_name_list (load_fonts selected self)) i = Some l'
    /\ nth_error (fnt_sty_combo_list (load_fonts selected self)) i = Some c'
    /\ lab_text l' = file_name file
    /\ cmb_enabled c' = true
    /\ let fn := PyStr.lower (file_name file) in
       (occurs "regular" fn -> cmb_currentIndex c' = SEL_REGULAR)
       /\ (~ occurs "regular" fn -> occurs "bold" fn -> occurs "italic" fn ->
           cmb_currentIndex c' = SEL_BOLDITALIC)
       /\ (~ occurs "regular" fn -> occurs "bold" fn -> ~ occurs "italic" fn ->
           cmb_currentIndex c' = SEL_BOLD)
       /\ (~ occurs "regular" fn -> ~ occurs "bold" fn -> occurs "italic" fn ->
           cmb_currentIndex c' = SEL_ITALIC)
       /\ (~ occurs "regular" fn -> ~ occurs "bold" fn -> ~ occurs "italic" fn ->
           cmb_currentIndex c' = SEL_NONE).
Proof.
  intros Hf Hl Hc.
  assert (Hne : selected <> []) by (intros ->; destruct i; discriminate).
  destruct (load_fonts_rows selected self Hne) as [El Ec].
  cbv zeta in El, Ec. rewrite El, Ec. clear El Ec.
  destruct (reset_rows_nth _ _ i l c Hl Hc) as [Hl1 Hc1].
  pose proof (map_nth_error file_name i selected Hf) as Hn.
  destruct (fill_rows_nth _ _ _ i _ _ _ Hn Hl1 Hc1) as [Hl2 Hc2].
  eexists; eexists.
  split; [exact Hl2|]. split; [exact Hc2|].
  split; [reflexivity|].
  unfold fill_row. cbn [snd].
  destruct (detect_style_priority (file_name file)) as (P1 & P2 & P3 & P4 & P5).
  cbv zeta in *.
  split; [destruct (detect_style (file_name file)); reflexivity|].
  repeat split; intros;
    [ rewrite P1 | rewrite P2 | rewrite P3 | rewrite P4 | rewrite P5 ];
    auto.
Qed.

Lemma load_fonts_style_priority_witness :
  let self := init Spec.FontInfo_new (Some "/usr/bin/fontforge") "" in
  exists (l' : QLabel) (c' : QComboBox),
    nth_error (fnt_file_name_list
                 (load_fonts ["/fonts/Foo-BoldItalic.ttf"] self)) 0 = Some l'
    /\ nth_error (fnt_sty_combo_list
                    (load_fonts ["/fonts/Foo-BoldItalic.ttf"] self)) 0 = Some c'
    /\ lab_text l' = "Foo-BoldItalic.ttf"
    /\ cmb_currentIndex c' = SEL_BOLDITALIC.
Proof.
  intros self.
  destruct (load_fonts_style_priority ["/fonts/Foo-BoldItalic.ttf"] self 0
              "/fonts/Foo-BoldItalic.ttf"
              {| lab_text := "Load font file..."; lab_enabled := true |}
              {| cmb_currentIndex := 0; cmb_enabled := false |}
              eq_refl eq_refl eq_refl)
    as (l' & c' & H1 & H2 & H3 & _ & _ & H5 & _).
  exists l', c'. split; [exact H1|]. split; [exact H2|]. split; [exact H3|].
  apply H5.
  - apply contains_false_spec. vm_compute; reflexivity.
  - apply contains_spec. vm_compute; reflexivity.
  - apply contains_spec. vm_compute; reflexivity.
Defined.

(** Only the file name component counts: a directory named after a style
    does not give its files that style. *)
Example directory_is_not_inspected :
  file_name "/fonts/bold/Foo-Italic.ttf" = "Foo-Italic.ttf"
  /\ map cmb_currentIndex
       (fnt_sty_combo_list (load_fonts ["/fonts/bold/Foo-Italic.ttf"] window0))
     = [SEL_ITALIC; SEL_NONE; SEL_NONE; SEL_NONE].
Proof. split; vm_compute; reflexivity. Qed.

(** C1 as stated fails: a file name with "regular", "bold" and "italic"
    is given the style Regular, not Bold Italic. *)
Lemma regular_wins_over_bold_italic :
  let file := "/fonts/Foo-Regular-BoldItalic.ttf" in
  let self := load_fonts [file] (init Spec.FontInfo_new (Some "/usr/bin/fontforge") "") in
  occurs "regular" (PyStr.lower (file_name file))
  /\ occurs "bold" (PyStr.lower (file_name file))
  /\ occurs "italic" (PyStr.lower (file_name file))
  /\ map cmb_currentIndex (fnt_sty_combo_list self)
     = [SEL_REGULAR; SEL_NONE; SEL_NONE; SEL_NONE]
  /\ SEL_REGULAR <> SEL_BOLDITALIC.
Proof.
  cbv zeta.
  split; [apply contains_spec; vm_compute; reflexivity|].
  split; [apply contains_spec; vm_compute; reflexivity|].
  split; [apply contains_spec; vm_compute; reflexivity|].
  split; [vm_compute; reflexivity | discriminate].
Qed.

(** ** The end of the child process (C2) *)

(** Whatever the bar showed, [setRange(0, 100)] followed by [setValue(100)]
    leaves it complete. *)
Lemma bar_complete (b : QProgressBar) :
  bar_setValue 100 (bar_setRange 0 100 b)
  = {| bar_minimum := 0; bar_maximum := 100; bar_value := 100 |}.
Proof.
  destruct b as [lo hi v]. unfold bar_setRange. cbn [bar_minimum bar_maximum bar_value].
  destruct (Z.eqb_spec 0 lo) as [<-|Hlo]; cbn [andb].
  - destruct (Z.eqb_spec 100 hi) as [<-|Hhi].
    + unfold bar_setValue. cbn [bar_minimum bar_maximum bar_value].
      destruct (Z.eqb_spec v 100) as [->|Hv]; reflexivity.
    + unfold bar_setValue. cbn [bar_minimum bar_maximum bar_value].
      match goal with |- context [(?x =? 100)%Z] => destruct (Z.eqb_spec x 100) as [E|E] end.
      * cbn [orb]. f_equal. exact E.
      * reflexivity.
  - unfold bar_setValue. cbn [bar_minimum bar_maximum bar_value].
    match goal with |- context [(?x =? 100)%Z] => destruct (Z.eqb_spec x 100) as [E|E] end.
    + cbn [orb]. f_equal. exact E.
    + reflexivity.
Qed.

(** C2, amended.  When the child exits, [manage_proc] does not look at the
    exit code: whatever the code, the progress bar is put to its complete
    state (range 0..100, value 100) and the log is left as it is, so that
    the window after one exit code is the window after any other with only
    the code kept by the process object replaced. *)
Theorem finished_ignores_exit_code (code : Z) (self : RF_Qt) :
  proc_state (cli_process self) = Running ->
  prog_bar (on_proc_finished code self)
  = {| bar_minimum := 0; bar_maximum := 100; bar_value := 100 |}
  /\ log_win (on_proc_finished code self) = log_win self
  /\ proc_state (cli_process (on_proc_finished code self)) = NotRunning
  /\ forall code' : Z,
       on_proc_finished code' self
       = put_cli_process
           (proc_setExitCode code' (cli_process (on_proc_finished code self)))
           (on_proc_finished code self).
Proof.
  intros Hrun. unfold on_proc_finished. rewrite Hrun.
  unfold manage_proc. cbn.
  rewrite bar_complete. repeat split.
Qed.

Lemma finished_ignores_exit_code_witness :
  proc_state (cli_process running0) = Running
  /\ shown (on_proc_finished 2 running0)
     = ({| bar_minimum := 0; bar_maximum := 100; bar_value := 100 |}, []).
Proof.
  assert (Hrun : proc_state (cli_process running0) = Running)
    by (vm_compute; reflexivity).
  split; [exact Hrun|].
  destruct (finished_ignores_exit_code 2 running0 Hrun) as (Hbar & Hlog & _).
  unfold shown. rewrite Hbar, Hlog. vm_compute; reflexivity.
Defined.

(** C2 as stated fails: nothing the window shows tells exit code 0 from
    exit code 2, so no terminal state read from it can be Succeeded for the
    one and Failed(NonZeroExit(2)) for the other. *)
Lemma exit_code_not_shown :
  proc_state (cli_process running0) = Running
  /\ ~ exists outcome : QProgressBar * QTextEdit -> Spec.SupervisorState,
         outcome (shown (on_proc_finished 0 running0)) = Spec.Succeeded
         /\ outcome (shown (on_proc_finished 2 running0))
            = Spec.Failed (Spec.NonZeroExit 2).
Proof.
  split; [vm_compute; reflexivity|].
  intros [outcome [H0 H2]].
  assert (E : shown (on_proc_finished 0 running0)
              = shown (on_proc_finished 2 running0)) by (vm_compute; reflexivity).
  rewrite E in H0. rewrite H0 in H2. discriminate H2.
Qed.

(** ** Generation requests *)

Section Generation.

Variable gen_cli_command : FontInfo -> list string.

Local Abbreviation gen_ttf' := (gen_ttf gen_cli_command).

Lemma start_busy (program : string) (arguments : list string) (p : QProcess) :
  busy p = true -> start program arguments p = p.
Proof.
  unfold busy, start. destruct (proc_state p); [discriminate | reflexivity ..].
Qed.

(** *** One file per style (C5) *)

Lemma assign_file_slot (fi : FontInfo) (file : string) (c : QComboBox)
    (style : nat) :
  In style [SEL_REGULAR; SEL_ITALIC; SEL_BOLD; SEL_BOLDITALIC] ->
  slot_file style (assign_file fi (file, c))
  = if Nat.eqb (cmb_currentIndex c) style then Some file else slot_file style fi.
Proof.
  intros Hin. unfold assign_file.
  destruct c as [idx en]. cbn [cmb_currentIndex].
  unfold SEL_REGULAR, SEL_ITALIC, SEL_BOLD, SEL_BOLDITALIC in *.
  destruct Hin as [<-|[<-|[<-|[<-|[]]]]];
    do 5 (destruct idx as [|idx]; try reflexivity).
Qed.

Lemma assign_files_last_wins (files : list string) (combos : list QComboBox)
    (fi : FontInfo) (style : nat) :
  In style [SEL_REGULAR; SEL_ITALIC; SEL_BOLD; SEL_BOLDITALIC] ->
  slot_file style (assign_files files combos fi)
  = match last_with_style style (combine files combos) with
    | Some f => Some f
    | None => slot_file style fi
    end.
Proof.
  intros Hin. unfold assign_files.
  generalize (combine files combos) as rows. intros rows; revert fi.
  induction rows as [|[file c] rows IH]; intros fi; [reflexivity|].
  cbn [fold_left last_with_style]. rewrite IH.
  destruct (last_with_style style rows); [reflexivity|].
  rewrite (assign_file_slot fi file c style Hin).
  destruct (Nat.eqb (cmb_currentIndex c) style); reflexivity.
Qed.

(** C5, amended.  When a generation request goes through (a process is
    launched), each of the four file attributes of the job holds one file
    at most: the last of the loaded files, in selection order, whose combo
    box shows that style, and what the attribute held before when there is
    none.  The loaded files themselves may share a style. *)
Theorem gen_ttf_last_file_of_style
    (located chosen_dir : string) (self self' : RF_Qt) (files : list string)
    (style : nat) :
  font_files self = Some files ->
  proc_state (cli_process self) = NotRunning ->
  gen_ttf' located chosen_dir self = Ok self' ->
  proc_state (cli_process self') = Starting ->
  In style [SEL_REGULAR; SEL_ITALIC; SEL_BOLD; SEL_BOLDITALIC] ->
  slot_file style (font_info self')
  = match last_with_style style (combine files (fnt_sty_combo_list self)) with
    | Some f => Some f
    | None => slot_file style (font_info self)
    end.
Proof.
  intros Hfiles Hidle Hgen Hstarted Hin.
  unfold gen_ttf, set_ff_path in Hgen. cbn [ff_path put_log_win] in Hgen.
  repeat match type of Hgen with
         | context [if ?x then _ else _] => destruct x eqn:?
         | context [match ?x with _ => _ end] => destruct x eqn:?
         end;
    try discriminate Hgen; injection Hgen as <-;
    revert Hin; cbn in *; intros Hin; try congruence;
    match goal with
    | H : font_files self = Some ?l, H' : font_files self = Some files |- _ =>
        rewrite H' in H; injection H as <-
    end;
    rewrite (assign_files_last_wins _ _ _ style Hin);
    destruct (last_with_style style _); try reflexivity;
    destruct Hin as [<-|[<-|[<-|[<-|[]]]]]; reflexivity.
Qed.

(** *** More than four files (C10) *)

Lemma gen_ttf_firstn (located chosen_dir : string) (self : RF_Qt)
    (files : list string) :
  font_files self = Some files ->
  let first := Some (firstn (List.length (fnt_sty_combo_list self)) files) in
  exists r : RF_Qt,
    gen_ttf' located chosen_dir self = Ok r
    /\ gen_ttf' located chosen_dir (put_font_files first self)
       = Ok (put_font_files first r).
Proof.
  intros Hfiles. cbv zeta. unfold gen_ttf, set_ff_path.
  cbn [ff_path put_log_win put_font_files].
  repeat match goal with
         | |- context [if ?x then _ else _] => destruct x eqn:?
         | |- context [match ?x with _ => _ end] => destruct x eqn:?
         end;
    cbn in *; try congruence;
    try (eexists; split; reflexivity);
    repeat match goal with
           | H : ?x = Some _, H' : ?x = Some _ |- _ => rewrite H in H'
           | H : Some _ = Some _ |- _ => injection H as H; subst
           end;
    try congruence;
    (eexists; split; [reflexivity|]);
    rewrite assign_files_firstn; reflexivity.
Qed.

End Generation.

(** ** The event loop *)

Section Session.

Variable valid_filename : string -> bool.
Variable gen_cli_command : FontInfo -> list string.
Variable decode : string -> option string.

Local Abbreviation step' := (step valid_filename gen_cli_command decode).
Local Abbreviation run' := (run valid_filename gen_cli_command decode).

(** A property kept by every slot holds all along a run. *)
Lemma run_invariant (P : RF_Qt -> Prop) :
  (forall e s s', P s -> step' e s = Ok s' -> P s') ->
  forall events s s', P s -> run' events s = Ok s' -> P s'.
Proof.
  intros Hstep events. induction events as [|e events IH]; intros s s' Hs Hrun.
  - simpl in Hrun. injection Hrun as <-. exact Hs.
  - simpl in Hrun. destruct (step' e s) as [s1|x] eqn:E; [|discriminate].
    eapply IH; [|exact Hrun]. eapply Hstep; eauto.
Qed.

Lemma run_app (ev1 ev2 : list Event) (s : RF_Qt) :
  run' (ev1 ++ ev2) s
  = match run' ev1 s with
    | Ok s1 => run' ev2 s1
    | Raise x => Raise x
    end.
Proof.
  revert s; induction ev1 as [|e ev1 IH]; intros s; simpl; [reflexivity|].
  destruct (step' e s); [apply IH | reflexivity].
Qed.

Lemma set_hint_cases (r : QRadioButton) (s : RF_Qt) :
  set_hint r s = s
  \/ exists h : string, set_hint r s = put_font_info (put_change_hint h (font_info s)) s.
Proof.
  unfold set_hint.
  repeat match goal with
         | |- context [if ?x then _ else _] => destruct x
         end; eauto.
Qed.

Lemma init_frame (info : FontInfo) (which : option string) (located : string) :
  let self := init info which located in
  btn_enabled (gen_ttf_btn self) = false
  /\ font_name (font_info self) = font_name info
  /\ font_files self = None
  /\ List.length (fnt_file_name_list self) = 4
  /\ List.length (fnt_sty_combo_list self) = 4
  /\ log_win self = []
  /\ chk_enabled (mod_bearing_opt self) = chk_checked (darken_opt self)
  /\ ff_path self
     = if truthy_opt which then which
       else if PyStr.truthy located then Some (posixpath.normpath located)
            else which.
Proof.
  unfold init. cbv zeta.
  match goal with
  | |- context [set_hint ?r ?s] =>
      destruct (set_hint_cases r s) as [E|[h E]]; rewrite E; clear E
  end;
    cbn [ff_path put_font_info]; unfold set_ff_path;
    destruct (truthy_opt which); cbn [negb];
    try destruct (PyStr.truthy located); repeat split.
Qed.

(** *** The darken group (C3) *)

Lemma darken_group_step (e : Event) (s s' : RF_Qt) :
  chk_enabled (mod_bearing_opt s) = chk_checked (darken_opt s) ->
  step' e s = Ok s' ->
  chk_enabled (mod_bearing_opt s') = chk_checked (darken_opt s').
Proof.
  intros Hinv Hstep. destruct e; slots; cases; cbn in *; congruence.
Qed.


(** C3, amended.  All along a session the Modify Bearings box is enabled
    exactly when the Darken box is checked; while the Darken box is
    unchecked no event changes the stored [mod_bearings], so it cannot
    become true then; and checking or unchecking the Darken box keeps the
    stored [mod_bearings] as it is (it is not forced to false). *)
Theorem mod_bearings_frozen_while_darken_off
    (info : FontInfo) (which : option string) (located : string)
    (events : list Event) (self : RF_Qt) :
  run' events (init info which located) = Ok self ->
  chk_enabled (mod_bearing_opt self) = chk_checked (darken_opt self)
  /\ (forall (e : Event) (self' : RF_Qt),
        chk_checked (darken_opt self) = false ->
        step' e self = Ok self' ->
        mod_bearings (font_info self') = mod_bearings (font_info self))
  /\ forall self' : RF_Qt,
       step' DarkenClicked self = Ok self' ->
       mod_bearings (font_info self') = mod_bearings (font_info self).
Proof.
  intros Hrun.
  assert (Hinv : chk_enabled (mod_bearing_opt self) = chk_checked (darken_opt self)).
  { apply (run_invariant
             (fun s => chk_enabled (mod_bearing_opt s) = chk_checked (darken_opt s))
             darken_group_step events _ _) in Hrun; [exact Hrun|].
    apply (init_frame info which located). }
  split; [exact Hinv|]. split.
  - intros e self' Hoff Hstep. rewrite Hoff in Hinv.
    destruct e; slots; cases; cbn in *;
      rewrite ?assign_files_mod_bearings; cbn; congruence.
  - intros self' Hstep. slots; cases; reflexivity.
Qed.


(** *** The Generate button (C6) *)

Lemma button_step (info : FontInfo) (e : Event) (s s' : RF_Qt) :
  (btn_enabled (gen_ttf_btn s) = true ->
   PyStr.truthy (le_text (new_fnt_name s)) = true
   /\ truthy_list (font_files s) = true) ->
  step' e s = Ok s' ->
  btn_enabled (gen_ttf_btn s') = true ->
  PyStr.truthy (le_text (new_fnt_name s')) = true
  /\ truthy_list (font_files s') = true.
Proof.
  intros Hinv Hstep. destruct e; slots; cases; cbn in *;
    try discriminate; try (intuition congruence).
Qed.

Lemma font_name_step (info : FontInfo) (e : Event) (s s' : RF_Qt) :
  (font_name (font_info s) = font_name info
   \/ (PyStr.truthy (font_name (font_info s)) = true
       /\ valid_filename (font_name (font_info s)) = true)) ->
  step' e s = Ok s' ->
  font_name (font_info s') = font_name info
  \/ (PyStr.truthy (font_name (font_info s')) = true
      /\ valid_filename (font_name (font_info s')) = true).
Proof.
  intros Hinv Hstep. destruct e; slots; cases; cbn in *;
    rewrite ?assign_files_font_name; cbn; auto.
Qed.


(** C6, amended.  All along a session the Generate button is enabled only
    while the name field is not empty and font files are loaded, whatever
    their styles; the family name kept for the generator is the initial one
    or a non-empty name that passed the validator; and an edit of the name
    leaves the button enabled exactly when the new name is not empty,
    passes the validator and font files are loaded. *)
Theorem generate_needs_name_and_files
    (info : FontInfo) (which : option string) (located : string)
    (events : list Event) (self : RF_Qt) :
  run' events (init info which located) = Ok self ->
  (btn_enabled (gen_ttf_btn self) = true ->
   PyStr.truthy (le_text (new_fnt_name self)) = true
   /\ truthy_list (font_files self) = true)
  /\ (font_name (font_info self) = font_name info
      \/ (PyStr.truthy (font_name (font_info self)) = true
          /\ valid_filename (font_name (font_info self)) = true))
  /\ forall (name : string) (self' : RF_Qt),
       step' (NameEdited name) self = Ok self' ->
       btn_enabled (gen_ttf_btn self')
       = PyStr.truthy name && valid_filename name && truthy_list (font_files self).
Proof.
  intros Hrun.
  destruct (init_frame info which located) as (I1 & I2 & _).
  assert (Hbtn : btn_enabled (gen_ttf_btn self) = true ->
                 PyStr.truthy (le_text (new_fnt_name self)) = true
                 /\ truthy_list (font_files self) = true).
  { revert Hrun.
    apply (run_invariant
             (fun s => btn_enabled (gen_ttf_btn s) = true ->
                       PyStr.truthy (le_text (new_fnt_name s)) = true
                       /\ truthy_list (font_files s) = true)
             (button_step info) events).
    cbv zeta in I1. rewrite I1. discriminate. }
  split; [exact Hbtn|]. split.
  - revert Hrun. apply (run_invariant _ (font_name_step info) events).
    left. exact I2.
  - intros name self' Hstep. cbn in Hstep. injection Hstep as <-.
    unfold set_family_name. cbn.
    destruct (PyStr.truthy name); [|reflexivity].
    destruct (valid_filename name); [|reflexivity].
    destruct (truthy_list (font_files self)) eqn:Hf; [reflexivity|].
    cbn. destruct (btn_enabled (gen_ttf_btn self)); [|reflexivity].
    destruct (Hbtn eq_refl) as [_ H]. congruence.
Qed.

(** *** The path of fontforge (C9) *)

Lemma normpath_truthy (p : string) : PyStr.truthy (posixpath.normpath p) = true.
Proof.
  unfold posixpath.normpath. destruct (p =? ""); [reflexivity|].
  cbv zeta.
  match goal with
  | |- context [if (?x =? "") then _ else _] =>
      destruct (String.eqb_spec x "") as [E|E]; [reflexivity|];
      destruct x; [congruence | reflexivity]
  end.
Qed.

Lemma ff_path_step (e : Event) (s s' : RF_Qt) :
  truthy_opt (ff_path s) = true ->
  step' e s = Ok s' ->
  ff_path s' = ff_path s.
Proof.
  intros Hinv Hstep.
  destruct e; slots; cbn [ff_path put_log_win] in Hstep;
    try rewrite Hinv in Hstep; cbn [negb] in Hstep;
    cases; cbn in *; try discriminate; try congruence.
Qed.

(** C9.  [helper.which] is consulted once, when the window is built: a
    path it finds is kept for the whole session.  When it finds nothing,
    the path given in the dialog (when the window opens or, failing that,
    at a generation request) is taken as it is, whatever it is (only
    normalised); once set, the path is kept through every later event, and
    nothing checks it before it is handed to the process object as the
    program to start. *)
Theorem ff_path_cached
    (info : FontInfo) (which : option string) (located : string)
    (events : list Event) (self : RF_Qt) :
  run' events (init info which located) = Ok self ->
  (forall p : string, which = Some p -> PyStr.truthy p = true ->
     ff_path self = Some p)
  /\ (truthy_opt which = false -> PyStr.truthy located = true ->
      ff_path self = Some (posixpath.normpath located))
  /\ (forall (later : list Event) (self' : RF_Qt),
        truthy_opt (ff_path self) = true ->
        run' later self = Ok self' ->
        ff_path self' = ff_path self)
  /\ (forall (located' chosen_dir : string) (self' : RF_Qt),
        truthy_opt (ff_path self) = false ->
        PyStr.truthy located' = true ->
        gen_ttf gen_cli_command located' chosen_dir self = Ok self' ->
        ff_path self' = Some (posixpath.normpath located'))
  /\ (forall (located' chosen_dir : string) (self' : RF_Qt),
        truthy_opt (ff_path self) = true ->
        proc_state (cli_process self) = NotRunning ->
        gen_ttf gen_cli_command located' chosen_dir self = Ok self' ->
        proc_state (cli_process self') = Starting ->
        Some (proc_program (cli_process self')) = ff_path self).
Proof.
  intros Hrun.
  destruct (init_frame info which located) as (_ & _ & _ & _ & _ & _ & _ & I7).
  assert (Hkeep : forall v, truthy_opt (Some v) = true ->
                   ff_path (init info which located) = Some v ->
                   ff_path self = Some v).
  { intros v Hv H0.
    revert Hrun. apply (run_invariant (fun s => ff_path s = Some v)); [|exact H0].
    intros e s s' Hs Hstep. rewrite <- Hs. apply (ff_path_step e s s'); [|exact Hstep].
    rewrite Hs. exact Hv. }
  split; [|split; [|split; [|split]]].
  - intros p -> Hp. apply Hkeep; [exact Hp|].
    cbv zeta in I7. rewrite I7. cbn [truthy_opt]. rewrite Hp. reflexivity.
  - intros Hw Hl. apply Hkeep; [apply normpath_truthy|].
    cbv zeta in I7. rewrite I7, Hw, Hl. reflexivity.
  - intros later self' Ht Hlater.
    apply (run_invariant (fun s => ff_path s = ff_path self)) with (2 := eq_refl)
      in Hlater; [exact Hlater|].
    intros e s s' Hs Hstep. rewrite <- Hs.
    apply (ff_path_step e s s'); [|exact Hstep]. rewrite Hs. exact Ht.
  - intros located' chosen_dir self' Hf Hl Hgen.
    unfold gen_ttf, set_ff_path in Hgen. cbn [ff_path put_log_win] in Hgen.
    rewrite Hf, Hl in Hgen. cbn [negb ff_path put_ff_path] in Hgen.
    rewrite normpath_truthy in Hgen.
    cases; cbn in *; congruence.
  - intros located' chosen_dir self' Ht Hidle Hgen Hst.
    unfold gen_ttf, set_ff_path in Hgen. cbn [ff_path put_log_win] in Hgen.
    rewrite Ht in Hgen. cbn [negb] in Hgen.
    cases; cbn in *; try congruence;
      unfold start; rewrite Hidle; cbn; congruence.
Qed.


(** *** More than four files (C10) *)

Lemma alter_nth_length {A : Type} (f : A -> A) (i : nat) (l : list A) :
  List.length (alter_nth f i l) = List.length l.
Proof.
  revert i; induction l as [|x l IH]; intros [|i]; simpl; auto.
Qed.

Lemma load_fonts_length (selected : list string) (s : RF_Qt) :
  List.length (fnt_file_name_list (load_fonts selected s))
  = List.length (fnt_file_name_list s)
  /\ List.length (fnt_sty_combo_list (load_fonts selected s))
     = List.length (fnt_sty_combo_list s).
Proof.
  destruct selected as [|f selected]; [split; reflexivity|].
  destruct (load_fonts_rows (f :: selected) s ltac:(discriminate)) as [-> ->].
  destruct (fill_rows_length (map file_name (f :: selected))
              (fst (reset_rows (fnt_file_name_list s) (fnt_sty_combo_list s)))
              (snd (reset_rows (fnt_file_name_list s) (fnt_sty_combo_list s))))
    as [-> ->].
  apply reset_rows_length.
Qed.

Lemma rows_step (n m : nat) (e : Event) (s s' : RF_Qt) :
  List.length (fnt_file_name_list s) = n
  /\ List.length (fnt_sty_combo_list s) = m ->
  step' e s = Ok s' ->
  List.length (fnt_file_name_list s') = n
  /\ List.length (fnt_sty_combo_list s') = m.
Proof.
  intros [Hn Hm] Hstep.
  destruct e;
    try (cbn [step] in Hstep; injection Hstep as <-;
         match goal with
         | |- context [load_fonts ?sel ?s] =>
             destruct (load_fonts_length sel s) as [-> ->]; auto
         end);
    slots; cases; cbn in *; rewrite ?alter_nth_length; auto.
Qed.

(** C10.  All along a session, a selection of more than four paths is
    handled without error as its first four paths would be: [load_fonts]
    leaves every widget as it would for the first four, only [font_files]
    keeps the whole selection, and a generation request made with the whole
    selection in [font_files] returns, with the result it has when
    [font_files] holds the first four paths only.  The paths after the
    fourth get no label and no style and reach no attribute of the job. *)
Theorem files_beyond_fourth_ignored
    (info : FontInfo) (which : option string) (located : string)
    (events : list Event) (self : RF_Qt) (selected : list string) :
  run' events (init info which located) = Ok self ->
  4 < List.length selected ->
  load_fonts selected self
  = put_font_files (Some selected) (load_fonts (firstn 4 selected) self)
  /\ (font_files self = Some selected ->
      forall located' chosen_dir : string,
      exists r : RF_Qt,
        gen_ttf gen_cli_command located' chosen_dir self = Ok r
        /\ gen_ttf gen_cli_command located' chosen_dir
             (put_font_files (Some (firstn 4 selected)) self)
           = Ok (put_font_files (Some (firstn 4 selected)) r)).
Proof.
  intros Hrun Hsel.
  assert (Hrows : List.length (fnt_file_name_list self) = 4
                  /\ List.length (fnt_sty_combo_list self) = 4).
  { revert Hrun. apply (run_invariant _ (rows_step 4 4) events).
    destruct (init_frame info which located) as (_ & _ & _ & H4 & H5 & _).
    split; assumption. }
  destruct Hrows as [Hl Hc]. split.
  - apply load_fonts_firstn; assumption.
  - intros Hfiles located' chosen_dir.
    pose proof (gen_ttf_firstn gen_cli_command located' chosen_dir self selected
                  Hfiles) as H.
    cbv zeta in H. rewrite Hc in H. exact H.
Qed.


(** *** The output of the child *)

(** The bytes of one stream are, in their order, the bytes of the merged
    feed that come from that stream. *)
Lemma written_on_filter (ch : ProcessChannel) (events : list Event) :
  map snd (filter (fun b => ProcessChannel_eqb (fst b) ch) (written events))
  = written_on ch events.
Proof.
  induction events as [|e events IH]; [reflexivity|].
  destruct e; cbn [written written_on]; try exact IH.
  rewrite filter_app, map_app, IH. f_equal.
  generalize (list_ascii_of_string data) as l. intros l.
  destruct (ProcessChannel_eqb ch0 ch) eqn:E;
    induction l as [|x l IHl]; cbn; rewrite ?E; cbn; now rewrite ?IHl.
Qed.

Lemma written_cons_data (ch : ProcessChannel) (data : string)
    (events : list Event) :
  string_of_list_ascii (map snd (written (ChildWrote ch data :: events)))
  = (data ++ string_of_list_ascii (map snd (written events)))%string.
Proof.
  cbn [written]. rewrite map_app, string_of_list_ascii_app, map_map.
  cbn [snd]. rewrite map_id, string_of_list_ascii_of_string. reflexivity.
Qed.

(** An event other than the arrival and the reading of output leaves the
    process object and the log alone while the child runs. *)
Lemma quiet_step (e : Event) (s s' : RF_Qt) :
  keeps_running e = true ->
  (forall ch data, e <> ChildWrote ch data) ->
  e <> ReadyRead ->
  proc_state (cli_process s) = Running ->
  step' e s = Ok s' ->
  cli_process s' = cli_process s /\ log_win s' = log_win s.
Proof.
  intros Hk Hw Hr Hrun Hstep.
  destruct e; try discriminate Hk;
    try (exfalso; eapply Hw; reflexivity);
    try (exfalso; apply Hr; reflexivity);
    slots; cases; cbn in *; try congruence; auto.
Qed.

Lemma quiet_step_returns (e : Event) (s : RF_Qt) :
  keeps_running e = true ->
  e <> ReadyRead ->
  exists s' : RF_Qt, step' e s = Ok s'.
Proof.
  intros Hk Hr. destruct e; try discriminate Hk; try congruence;
    cbn [step]; try (eexists; reflexivity).
  destruct (proc_state (cli_process s)); eexists; reflexivity.
Qed.

Lemma mode_step (e : Event) (s s' : RF_Qt) :
  proc_channel_mode (cli_process s) = MergedChannels ->
  step' e s = Ok s' ->
  proc_channel_mode (cli_process s') = MergedChannels.
Proof.
  intros Hinv Hstep. destruct e; slots; unfold start, child_wrote in *;
    cases; cbn in *; congruence.
Qed.

(** The chunks read and what still waits are, together, what waited
    before and what the child wrote since, in the order of arrival. *)
Lemma chunks_read_account (events : list Event) :
  forall waiting : string,
  (str_concat (chunks_read events waiting) ++ left_waiting events waiting)%string
  = (waiting ++ string_of_list_ascii (map snd (written events)))%string.
Proof.
  induction events as [|e events IH]; intros waiting.
  - cbn. now rewrite str_app_nil_r.
  - destruct e; try (cbn [chunks_read left_waiting written]; apply IH).
    + (* ChildWrote *)
      cbn [chunks_read left_waiting]. rewrite IH, written_cons_data.
      now rewrite str_app_assoc.
    + (* ReadyRead *)
      cbn [chunks_read left_waiting written].
      destruct (PyStr.truthy waiting) eqn:Hw.
      * cbn [str_concat]. rewrite str_app_assoc, IH. reflexivity.
      * apply truthy_false in Hw. subst waiting. apply IH.
Qed.

(** Once a [readyRead] has been served nothing waits until the child
    writes again. *)
Lemma left_waiting_after_read (events : list Event) (waiting : string) :
  left_waiting (events ++ [ReadyRead]) waiting = "".
Proof.
  revert waiting. induction events as [|e events IH]; intros waiting;
    [reflexivity|]. destruct e; cbn [app left_waiting]; apply IH.
Qed.

(** The run of output events on a window whose process is running with
    merged channels: every [readyRead] appends the decoded text of all
    that waits. *)
Lemma output_run (events : list Event) :
  forall self : RF_Qt,
  forallb keeps_running events = true ->
  proc_state (cli_process self) = Running ->
  proc_channel_mode (cli_process self) = MergedChannels ->
  decodable decode events (proc_stdout (cli_process self)) = true ->
  exists (self' : RF_Qt) (texts : list string),
    run' events self = Ok self'
    /\ Forall2 (fun chunk text => decode chunk = Some text)
         (chunks_read events (proc_stdout (cli_process self))) texts
    /\ log_win self' = log_win self ++ texts
    /\ proc_stdout (cli_process self')
       = left_waiting events (proc_stdout (cli_process self)).
Proof.
  induction events as [|e events IH]; intros self Hk Hrun Hmode Hdec.
  - exists self, []. split; [reflexivity|].
    split; [constructor|]. split; [now rewrite app_nil_r|]. reflexivity.
  - cbn [forallb] in Hk. apply andb_true_iff in Hk as [Hke Hk].
    destruct e as [ | | | | | | | | | |ch data| | | ];
      try discriminate Hke.
    11: { (* ReadyRead *)
      cbn [decodable] in Hdec. cbn [run step chunks_read left_waiting].
      destruct (PyStr.truthy (proc_stdout (cli_process self))) eqn:Hbuf.
      - unfold read_proc_output, readAllStandardOutput.
        destruct (decode (proc_stdout (cli_process self))) as [out|] eqn:Hout;
          [|discriminate Hdec].
        match goal with
        | |- context [run' events ?s1] =>
            destruct (IH s1 Hk Hrun Hmode Hdec)
              as (self' & texts & R & F & L & B)
        end.
        exists self', (out :: texts).
        split; [exact R|]. split; [constructor; assumption|].
        split; [rewrite L; cbn; now rewrite <- app_assoc|]. exact B.
      - pose proof (truthy_false _ Hbuf) as Hnil.
        destruct (IH self Hk Hrun Hmode Hdec)
          as (self' & texts & R & F & L & B).
        exists self', texts. rewrite <- Hnil. auto. }
    10: { (* ChildWrote *)
      cbn [decodable] in Hdec. cbn [run step chunks_read left_waiting].
      rewrite Hrun.
      assert (Hs : proc_stdout (child_wrote ch data (cli_process self))
                   = (proc_stdout (cli_process self) ++ data)%string).
      { unfold child_wrote. rewrite Hmode. destruct ch; reflexivity. }
      destruct (IH (put_cli_process (child_wrote ch data (cli_process self)) self)
                  Hk Hrun Hmode)
        as (self' & texts & R & F & L & B).
      { cbn [cli_process put_cli_process]. rewrite Hs. exact Hdec. }
      cbn [cli_process put_cli_process] in F, B. rewrite Hs in F, B.
      exists self', texts. auto. }
    all: match goal with
         | |- context [run' (?e :: _) _] =>
             destruct (quiet_step_returns e self eq_refl ltac:(discriminate))
               as [s1 Hstep];
             destruct (quiet_step e self s1 eq_refl
                         ltac:(intros; discriminate) ltac:(discriminate)
                         Hrun Hstep) as [Ep El]
         end;
      cbn [decodable] in Hdec; cbn [chunks_read left_waiting];
      rewrite <- Ep in Hrun, Hmode, Hdec;
      destruct (IH s1 Hk Hrun Hmode Hdec)
        as (self' & texts & R & F & L & B);
      exists self', texts;
      (split; [cbn [run]; rewrite Hstep; exact R|]);
      rewrite <- Ep; (split; [exact F|]); (split; [congruence|]);
      exact B.
Qed.

(** In a session, while the child runs (no exit, no error) and until the
    next generation request, provided every chunk read from the process
    can be decoded in the default encoding, the slots return and the log
    only grows: each [readyRead] appends the decoded text of all that
    waited, so the paragraphs appended are the decoded chunks in the order
    read; the chunks read, followed by what still waits, are the bytes the
    child wrote on its two streams in the order they arrived, after what
    waited before; and the bytes of each stream keep their order in that
    feed. *)
Lemma output_appended_in_order
    (info : FontInfo) (which : option string) (located : string)
    (before events : list Event) (self : RF_Qt) :
  run' before (init info which located) = Ok self ->
  proc_state (cli_process self) = Running ->
  forallb keeps_running events = true ->
  decodable decode events (proc_stdout (cli_process self)) = true ->
  exists (self' : RF_Qt) (texts : list string),
    run' events self = Ok self'
    /\ Forall2 (fun chunk text => decode chunk = Some text)
         (chunks_read events (proc_stdout (cli_process self))) texts
    /\ log_win self' = log_win self ++ texts
    /\ proc_stdout (cli_process self')
       = left_waiting events (proc_stdout (cli_process self))
    /\ (str_concat (chunks_read events (proc_stdout (cli_process self)))
        ++ proc_stdout (cli_process self'))%string
       = (proc_stdout (cli_process self)
          ++ string_of_list_ascii (map snd (written events)))%string
    /\ forall ch : ProcessChannel,
         map snd (filter (fun b => ProcessChannel_eqb (fst b) ch) (written events))
         = written_on ch events.
Proof.
  intros Hbefore Hrun Hk Hdec.
  assert (Hmode : proc_channel_mode (cli_process self) = MergedChannels).
  { revert Hbefore.
    apply (run_invariant
             (fun s => proc_channel_mode (cli_process s) = MergedChannels)
             mode_step before).
    unfold init. cbv zeta.
    match goal with
    | |- context [set_hint ?r ?s] =>
        destruct (set_hint_cases r s) as [E|[h E]]; rewrite E; clear E
    end;
      cbn [ff_path put_font_info]; unfold set_ff_path;
      destruct (truthy_opt which); cbn [negb];
      try destruct (PyStr.truthy located); reflexivity. }
  destruct (output_run events self Hk Hrun Hmode Hdec)
    as (self' & texts & R & F & L & B).
  exists self', texts. split; [exact R|]. split; [exact F|].
  split; [exact L|]. split; [exact B|]. split.
  - rewrite B. apply chunks_read_account.
  - intros ch. apply written_on_filter.
Qed.

(** *** Generation requests while a process is active (C8) *)

Lemma skipn_length_app {A : Type} (l app : list A) :
  skipn (List.length l) (l ++ app) = app.
Proof. induction l as [|x l IH]; [reflexivity | exact IH]. Qed.

(** With no signal during its dialogs the slot is [gen_ttf]. *)
Lemma gen_ttf_modal_no_signals (located chosen_dir : string) (self : RF_Qt) :
  gen_ttf_modal valid_filename gen_cli_command decode located [] chosen_dir [] self
  = gen_ttf gen_cli_command located chosen_dir self.
Proof.
  unfold gen_ttf_modal, gen_ttf, during_dialog. cbn [filter run].
  destruct (negb (truthy_opt (ff_path (put_log_win [] self))));
    match goal with
    | |- context [truthy_opt (ff_path ?s)] =>
        destruct (ff_path s) as [p|] eqn:Hp
    end; cbn [truthy_opt]; try reflexivity;
    destruct (PyStr.truthy p); try reflexivity;
    destruct (_ || _); try reflexivity;
    cbn [font_files put_font_info ff_path] in *;
    match goal with
    | |- context [font_files ?s] => destruct (font_files s)
    end; try reflexivity;
    rewrite Hp; reflexivity.
Qed.

(** The slot of a process signal does not look at the log: on a window
    with another log it does the same and appends the same paragraphs. *)
Lemma process_step_log (e : Event) (s q : RF_Qt) :
  process_event e = true ->
  step' e s = Ok q ->
  exists app : list string,
    log_win q = log_win s ++ app
    /\ forall l : list string,
         step' e (put_log_win l s) = Ok (put_log_win (l ++ app) q).
Proof.
  intros He Hstep.
  destruct e as [ | | | | | | | | | |ch data| |code|err];
    try discriminate He; clear He.
  3: { (* ReadyRead *)
    cbn [step] in *. unfold read_proc_output, readAllStandardOutput in *.
    destruct s; cbn in *.
    destruct (PyStr.truthy (proc_stdout cli_process0)).
    - destruct (decode (proc_stdout cli_process0)) as [output|];
        [|discriminate Hstep].
      exists [output]. injection Hstep as <-. cbn. split; reflexivity.
    - exists []. injection Hstep as <-. cbn.
      split; [now rewrite app_nil_r|]. intros l. now rewrite app_nil_r. }
  all: exists []; cbn [step] in *;
    unfold on_proc_started, on_proc_finished, on_proc_error, manage_proc in *;
    destruct s; cbn [cli_process put_cli_process put_prog_bar prog_bar log_win
                     put_log_win proc_state proc_setState proc_setExitCode] in *;
    try destruct err; destruct (proc_state cli_process0);
    injection Hstep as <-;
    (split; [cbn; now rewrite app_nil_r | intros l; now rewrite app_nil_r]).
Qed.

Lemma process_run_log (events : list Event) :
  forall s q : RF_Qt,
  during_dialog valid_filename gen_cli_command decode events s = Ok q ->
  exists app : list string,
    log_win q = log_win s ++ app
    /\ forall l : list string,
         during_dialog valid_filename gen_cli_command decode events
           (put_log_win l s)
         = Ok (put_log_win (l ++ app) q).
Proof.
  unfold during_dialog.
  induction events as [|e events IH]; intros s q Hrun.
  - cbn in *. injection Hrun as <-. exists [].
    split; [now rewrite app_nil_r|]. intros l. rewrite app_nil_r.
    destruct s; reflexivity.
  - cbn [filter] in *. destruct (process_event e) eqn:He; [|now apply IH].
    cbn [run] in *. destruct (step' e s) as [s1|x] eqn:Hstep; [|discriminate Hrun].
    destruct (process_step_log e s s1 He Hstep) as (app1 & L1 & S1).
    destruct (IH s1 q Hrun) as (app2 & L2 & S2).
    exists (app1 ++ app2). split; [now rewrite L2, L1, app_assoc|].
    intros l. rewrite S1, S2, app_assoc. reflexivity.
Qed.

(** The slots of the process signals leave the inputs of a generation
    alone. *)
Lemma process_run_frame (events : list Event) :
  forall s q : RF_Qt,
  during_dialog valid_filename gen_cli_command decode events s = Ok q ->
  ff_path q = ff_path s
  /\ font_files q = font_files s
  /\ font_info q = font_info s
  /\ fnt_sty_combo_list q = fnt_sty_combo_list s.
Proof.
  unfold during_dialog.
  induction events as [|e events IH]; intros s q Hrun.
  - cbn in Hrun. injection Hrun as <-. auto.
  - cbn [filter] in Hrun. destruct (process_event e) eqn:He; [|now apply IH].
    cbn [run] in Hrun.
    destruct (step' e s) as [s1|x] eqn:Hstep; [|discriminate Hrun].
    destruct (IH s1 q Hrun) as (-> & -> & -> & ->).
    clear IH Hrun. destruct e; try discriminate He;
      slots; cases; cbn in *; auto.
Qed.

(** Signals during the directory dialog, when the path of the executable
    is known: the slot does what [gen_ttf] does once the signals have been
    served, except that the log keeps what they appended.  So the slots
    taken one after the other differ from the program only in the log of a
    request made while the child writes. *)
Lemma gen_ttf_modal_atomic
    (located chosen_dir : string) (during_locate during_dir : list Event)
    (self quiet : RF_Qt) :
  truthy_opt (ff_path self) = true ->
  run' (filter process_event during_dir) self = Ok quiet ->
  gen_ttf_modal valid_filename gen_cli_command decode
    located during_locate chosen_dir during_dir self
  = match gen_ttf gen_cli_command located chosen_dir quiet with
    | Ok self' =>
        Ok (put_log_win (skipn (List.length (log_win self)) (log_win quiet)) self')
    | Raise x => Raise x
    end.
Proof.
  intros Hff Hquiet.
  destruct (process_run_log during_dir self quiet Hquiet)
    as (added & Hlog & Hshift).
  specialize (Hshift []). cbn [List.app] in Hshift.
  destruct (process_run_frame during_dir self quiet Hquiet) as (F1 & F2 & F3 & F4).
  rewrite Hlog, skipn_length_app.
  unfold gen_ttf_modal, gen_ttf, set_ff_path.
  cbn [ff_path put_log_win]. rewrite F1, Hff.
  cbn [negb ff_path put_log_win]. rewrite Hff, Hshift. cbv zeta.
  destruct (ff_path self) as [p|] eqn:Hp; [|discriminate Hff].
  cbn [truthy_opt] in Hff. rewrite F1, Hff.
  destruct ((posixpath.normpath chosen_dir =? ".")
            || (posixpath.normpath chosen_dir =? "")).
  - destruct quiet; reflexivity.
  - cbn [font_files put_font_info put_log_win ff_path]. rewrite F1.
    destruct (font_files quiet); [|reflexivity].
    destruct quiet; reflexivity.
Qed.

(** C8, amended.  A generation request made while a process is starting or
    running (the path of the executable is known then, and font files are
    loaded) is not turned down: the slot returns without a failure, having
    cleared the log, so that what the log shows afterwards is what the
    child wrote while the directory dialog was open.  Let [quiet] be the
    window the same signals lead to without the request.  If the process
    is still starting or running when the dialog closes, the call of
    [start] is ignored and the process object is exactly that of [quiet]:
    nothing is launched and nothing is queued.  A process is launched by
    the request only if the earlier one has ended in the meantime, so at
    most one process is active. *)
Theorem gen_ttf_while_busy
    (located chosen_dir : string) (during_locate during_dir : list Event)
    (files : list string) (self quiet : RF_Qt) :
  busy (cli_process self) = true ->
  truthy_opt (ff_path self) = true ->
  font_files self = Some files ->
  run' (filter process_event during_dir) self = Ok quiet ->
  exists self' : RF_Qt,
    gen_ttf_modal valid_filename gen_cli_command decode
      located during_locate chosen_dir during_dir self = Ok self'
    /\ log_win self' = skipn (List.length (log_win self)) (log_win quiet)
    /\ (busy (cli_process quiet) = true -> cli_process self' = cli_process quiet)
    /\ (cli_process self' = cli_process quiet
        \/ proc_state (cli_process quiet) = NotRunning
           /\ proc_state (cli_process self') = Starting).
Proof.
  intros Hbusy Hff Hfiles Hquiet.
  destruct (process_run_log during_dir self quiet Hquiet)
    as (added & Hlog & Hshift).
  specialize (Hshift []). cbn [List.app] in Hshift.
  destruct (process_run_frame during_dir self quiet Hquiet) as (F1 & F2 & F3 & F4).
  assert (Hskip : skipn (List.length (log_win self)) (log_win quiet) = added).
  { rewrite Hlog. apply skipn_length_app. }
  rewrite Hskip.
  unfold gen_ttf_modal. cbn [ff_path put_log_win]. rewrite Hff.
  cbn [negb ff_path put_log_win]. rewrite Hff, Hshift. cbv zeta.
  destruct ((posixpath.normpath chosen_dir =? ".")
            || (posixpath.normpath chosen_dir =? "")).
  - exists (put_log_win added quiet). split; [reflexivity|]. cbn. auto.
  - cbn [font_files put_font_info put_log_win ff_path]. rewrite F1, F2, Hfiles.
    destruct (ff_path self) as [p|] eqn:Hp; [|discriminate Hff].
    eexists. split; [reflexivity|].
    cbn [log_win cli_process put_cli_process put_font_info put_log_win].
    split; [reflexivity|]. split.
    + intros Hb. apply start_busy. exact Hb.
    + unfold start. destruct (proc_state (cli_process quiet)) eqn:E; cbn; auto.
Qed.

End Session.

(** ** The examples of the session properties *)

Lemma gen_ttf_while_busy_witness :
  busy (cli_process logging0) = true
  /\ run0 (filter process_event late_output) logging0 = Ok went_on0
  /\ exists self' : RF_Qt,
       gen_ttf_modal Spec.isValidFamilyName cli_of_name decode_ascii
         "" [] "/elsewhere" late_output logging0 = Ok self'
       /\ log_win self' = ["Saving"]
       /\ cli_process self' = cli_process went_on0.
Proof.
  assert (Hbusy : busy (cli_process logging0) = true) by (vm_compute; reflexivity).
  assert (Hff : truthy_opt (ff_path logging0) = true) by (vm_compute; reflexivity).
  assert (Hfiles : font_files logging0 = Some ["/fonts/Foo-Regular.ttf"])
    by (vm_compute; reflexivity).
  assert (Hquiet : run Spec.isValidFamilyName cli_of_name decode_ascii
                     (filter process_event late_output) logging0 = Ok went_on0)
    by (vm_compute; reflexivity).
  split; [exact Hbusy|]. split; [exact Hquiet|].
  destruct (gen_ttf_while_busy Spec.isValidFamilyName cli_of_name decode_ascii
              "" "/elsewhere" [] late_output ["/fonts/Foo-Regular.ttf"]
              logging0 went_on0 Hbusy Hff Hfiles Hquiet)
    as (self' & R & L & P & _).
  exists self'. split; [exact R|]. split.
  - rewrite L. vm_compute; reflexivity.
  - apply P. vm_compute; reflexivity.
Defined.

(** When the child ends while the directory dialog is open, the request
    launches a new process. *)
Example request_relaunches_after_exit :
  exists self' : RF_Qt,
    gen_ttf_modal Spec.isValidFamilyName cli_of_name decode_ascii
      "" [] "/elsewhere" [ProcFinished 0] logging0 = Ok self'
    /\ proc_state (cli_process logging0) = Running
    /\ proc_state (cli_process self') = Starting
    /\ log_win self' = [].
Proof.
  eexists. split; [vm_compute; reflexivity|].
  split; [vm_compute; reflexivity|].
  split; vm_compute; reflexivity.
Qed.


Lemma mod_bearings_frozen_while_darken_off_witness :
  run0 [DarkenClicked; ModBearingClicked; DarkenClicked] window0 = Ok darken_off0
  /\ forall (e : Event) (self' : RF_Qt),
       step Spec.isValidFamilyName cli_of_name decode_ascii e darken_off0 = Ok self' ->
       mod_bearings (font_info self') = true.
Proof.
  assert (Hrun : run0 [DarkenClicked; ModBearingClicked; DarkenClicked] window0
                 = Ok darken_off0) by (vm_compute; reflexivity).
  split; [exact Hrun|].
  intros e self' Hstep.
  destruct (mod_bearings_frozen_while_darken_off
              Spec.isValidFamilyName cli_of_name decode_ascii
              Spec.FontInfo_new (Some "/usr/bin/fontforge") ""
              [DarkenClicked; ModBearingClicked; DarkenClicked] darken_off0 Hrun)
    as (_ & H & _).
  rewrite (H e self' ltac:(vm_compute; reflexivity) Hstep).
  vm_compute; reflexivity.
Defined.

(** C3 as stated fails: with Modify Bearings checked, unchecking Darken
    leaves [mod_bearings] true. *)
Lemma mod_bearings_survives_darken_off :
  exists self : RF_Qt,
    run0 [DarkenClicked; ModBearingClicked; DarkenClicked] window0 = Ok self
    /\ chk_checked (darken_opt self) = false
    /\ add_weight (font_info self) = 0%Z
    /\ mod_bearings (font_info self) = true.
Proof. exists darken_off0. vm_compute. repeat split. Qed.

(** C8 as stated fails: a request made while the child runs is not turned
    down and does not leave the job as it was; it goes through the
    directory dialog (here answered before any signal arrives), stores the
    new output directory and clears the log of the running job. *)
Lemma request_while_running_clears_log :
  exists self' : RF_Qt,
    run0 [GenerateClicked "" "/elsewhere"] logging0 = Ok self'
    /\ gen_ttf_modal Spec.isValidFamilyName cli_of_name decode_ascii
         "" [] "/elsewhere" [] logging0 = Ok self'
    /\ proc_state (cli_process logging0) = Running
    /\ log_win logging0 = ["Opening font"]
    /\ log_win self' = []
    /\ job self' <> job logging0
    /\ out_dir (font_info logging0) = Some "/out"
    /\ out_dir (font_info self') = Some "/elsewhere".
Proof.
  eexists. split; [vm_compute; reflexivity|].
  split; [vm_compute; reflexivity|].
  split; [vm_compute; reflexivity|].
  split; [vm_compute; reflexivity|].
  split; [vm_compute; reflexivity|].
  split; [vm_compute; discriminate|].
  split; vm_compute; reflexivity.
Qed.

Lemma gen_ttf_last_file_of_style_witness :
  slot_file SEL_BOLD (font_info (after two_bold)) = Some "/fonts/B-Bold.ttf".
Proof.
  rewrite (gen_ttf_last_file_of_style cli_of_name "" "/out"
             (after (firstn 2 two_bold)) (after two_bold)
             ["/fonts/A-Bold.ttf"; "/fonts/B-Bold.ttf"] SEL_BOLD
             ltac:(vm_compute; reflexivity) ltac:(vm_compute; reflexivity)
             ltac:(vm_compute; reflexivity) ltac:(vm_compute; reflexivity)
             ltac:(vm_compute; tauto)).
  vm_compute; reflexivity.
Defined.

(** C5 as stated fails: a request is accepted while two of the loaded
    files have the style Bold. *)
Lemma two_bold_files_accepted :
  run0 two_bold window0 = Ok (after two_bold)
  /\ proc_state (cli_process (after two_bold)) = Starting
  /\ assigned_entries (after two_bold)
     = [("/fonts/A-Bold.ttf", SEL_BOLD); ("/fonts/B-Bold.ttf", SEL_BOLD)]
  /\ ~ NoDup (map snd (assigned_entries (after two_bold))).
Proof.
  split; [vm_compute; reflexivity|].
  split; [vm_compute; reflexivity|].
  split; [vm_compute; reflexivity|].
  intros H. vm_compute in H.
  inversion H as [|x l Hnotin _]. apply Hnotin. left. reflexivity.
Qed.

Lemma generate_needs_name_and_files_witness :
  run0 (firstn 2 no_style) window0 = Ok (after (firstn 2 no_style))
  /\ btn_enabled (gen_ttf_btn (after (firstn 2 no_style))) = true
  /\ PyStr.truthy (le_text (new_fnt_name (after (firstn 2 no_style)))) = true
  /\ truthy_list (font_files (after (firstn 2 no_style))) = true.
Proof.
  assert (Hrun : run0 (firstn 2 no_style) window0 = Ok (after (firstn 2 no_style)))
    by (vm_compute; reflexivity).
  assert (Hbtn : btn_enabled (gen_ttf_btn (after (firstn 2 no_style))) = true)
    by (vm_compute; reflexivity).
  split; [exact Hrun|]. split; [exact Hbtn|].
  destruct (generate_needs_name_and_files
              Spec.isValidFamilyName cli_of_name decode_ascii
              Spec.FontInfo_new (Some "/usr/bin/fontforge") ""
              (firstn 2 no_style) (after (firstn 2 no_style)) Hrun)
    as [H _].
  exact (H Hbtn).
Defined.

(** C6 as stated fails: with a valid family name and a loaded file whose
    row has no style, the request is accepted and a process is launched. *)
Lemma request_accepted_without_style :
  run0 no_style window0 = Ok (after no_style)
  /\ Spec.isValidFamilyName "MyFont" = true
  /\ proc_state (cli_process (after no_style)) = Starting
  /\ map cmb_currentIndex (fnt_sty_combo_list (after no_style))
     = [SEL_NONE; SEL_NONE; SEL_NONE; SEL_NONE]
  /\ assigned_entries (after no_style) = [].
Proof.
  split; [vm_compute; reflexivity|].
  split; [vm_compute; reflexivity|].
  split; [vm_compute; reflexivity|].
  split; vm_compute; reflexivity.
Qed.

(** Loading fonts enables the button on a non-empty name field without
    asking the validator. *)
Example invalid_name_then_load :
  let self := after [NameEdited "My/Font"; LoadFontsClicked ["/fonts/Foo-Regular.ttf"]] in
  Spec.isValidFamilyName "My/Font" = false
  /\ btn_enabled (gen_ttf_btn self) = true
  /\ font_name (font_info self) = "".
Proof.
  cbv zeta. split; [vm_compute; reflexivity|].
  split; vm_compute; reflexivity.
Qed.

Lemma ff_path_cached_witness :
  run0 two_bold window1 = Ok located0
  /\ ff_path located0 = Some "/opt/ff/fontforge".
Proof.
  assert (Hrun : run Spec.isValidFamilyName cli_of_name decode_ascii two_bold
                   (init Spec.FontInfo_new None "/opt/ff/bin/../fontforge")
                 = Ok located0) by (vm_compute; reflexivity).
  split; [exact Hrun|].
  pose proof (ff_path_cached Spec.isValidFamilyName cli_of_name decode_ascii
                Spec.FontInfo_new None "/opt/ff/bin/../fontforge" two_bold
                located0 Hrun) as (_ & H & _).
  rewrite (H eq_refl eq_refl). vm_compute; reflexivity.
Defined.

Lemma files_beyond_fourth_ignored_witness :
  4 < List.length five_files
  /\ load_fonts five_files window0
     = put_font_files (Some five_files) (load_fonts (firstn 4 five_files) window0).
Proof.
  assert (Hlen : 4 < List.length five_files) by (cbn; lia).
  split; [exact Hlen|].
  apply (files_beyond_fourth_ignored
           Spec.isValidFamilyName cli_of_name decode_ascii
           Spec.FontInfo_new (Some "/usr/bin/fontforge") "" [] window0 five_files
           eq_refl Hlen).
Defined.

(** Output on both streams, read in one chunk while the name is edited. *)
Example output_appended_in_order_ex :
  exists self' : RF_Qt,
    run0 some_output running0 = Ok self'
    /\ chunks_read some_output (proc_stdout (cli_process running0)) = ["abcerr"]
    /\ log_win self' = log_win running0 ++ ["abcerr"]
    /\ proc_stdout (cli_process self') = "d".
Proof.
  assert (Hrun : run Spec.isValidFamilyName cli_of_name decode_ascii to_running
                   (init Spec.FontInfo_new (Some "/usr/bin/fontforge") "")
                 = Ok running0) by (vm_compute; reflexivity).
  destruct (output_appended_in_order
              Spec.isValidFamilyName cli_of_name decode_ascii
              Spec.FontInfo_new (Some "/usr/bin/fontforge") ""
              to_running some_output running0 Hrun
              ltac:(vm_compute; reflexivity) ltac:(vm_compute; reflexivity)
              ltac:(vm_compute; reflexivity))
    as (self' & texts & R & F & L & B & _).
  assert (Hc : chunks_read some_output (proc_stdout (cli_process running0))
               = ["abcerr"]) by (vm_compute; reflexivity).
  exists self'. split; [exact R|]. split; [exact Hc|].
  rewrite Hc in F. inversion F as [|c t cs ts Hd Hrest]; subst.
  inversion Hrest; subst. vm_compute in Hd. injection Hd as <-.
  split; [exact L|]. rewrite B. vm_compute; reflexivity.
Qed.

(** C7.  The claim fails on the code at a chunk that the default encoding
    cannot decode: [read_proc_output] takes the bytes from the process and
    raises before it appends anything, so they are never shown.  The two
    bytes of one character are shown when they are read together; when the
    first is read before the second has arrived, the slot raises, in
    'utf-8' as in 'ascii'; and 'ascii' raises on the whole character
    too. *)
Lemma undecodable_chunk_not_delivered :
  proc_state (cli_process running0) = Running
  /\ (exists self' : RF_Qt,
        run Spec.isValidFamilyName cli_of_name decode_utf8
          [ChildWrote StandardOutput
             (String (ascii_of_nat 195) (String (ascii_of_nat 169) ""));
           ReadyRead]
          running0
        = Ok self'
        /\ log_win self'
           = [String (ascii_of_nat 195) (String (ascii_of_nat 169) "")])
  /\ run Spec.isValidFamilyName cli_of_name decode_utf8
       [ChildWrote StandardOutput (String (ascii_of_nat 195) ""); ReadyRead;
        ChildWrote StandardOutput (String (ascii_of_nat 169) ""); ReadyRead]
       running0
     = Raise UnicodeDecodeError
  /\ run Spec.isValidFamilyName cli_of_name decode_ascii
       [ChildWrote StandardOutput (String (ascii_of_nat 195) ""); ReadyRead]
       running0
     = Raise UnicodeDecodeError
  /\ run Spec.isValidFamilyName cli_of_name decode_ascii
       [ChildWrote StandardOutput
          (String (ascii_of_nat 195) (String (ascii_of_nat 169) ""));
        ReadyRead]
       running0
     = Raise UnicodeDecodeError.
Proof.
  split; [vm_compute; reflexivity|].
  split; [eexists; split; vm_compute; reflexivity|].
  split; [vm_compute; reflexivity|].
  split; vm_compute; reflexivity.
Qed.

(** ** The command builder of the specification (C4) *)

Lemma slot_args_elements (cfg : Spec.JobConfiguration) (s : Spec.StyleSlot)
    (a : string) :
  In a (Spec.slot_args cfg s) ->
  a = Spec.slot_flag s \/ exists e, In e (Spec.files cfg) /\ a = Spec.path e.
Proof.
  unfold Spec.slot_args.
  destruct (find _ (Spec.files cfg)) as [e|] eqn:E; [|intros []].
  apply find_some in E as [He _].
  intros [<-|[<-|[]]]; [left; reflexivity | right; exists e; auto].
Qed.

Lemma with_darken_values_build (amount : Z) (bearings : bool)
    (cfg : Spec.JobConfiguration) :
  Spec.darkenEnabled cfg = false ->
  Spec.build (Spec.with_darken_values amount bearings cfg) = Spec.build cfg.
Proof.
  intros Hoff. unfold Spec.build, Spec.darken_args, Spec.option_args, Spec.slot_args.
  cbn. rewrite Hoff. reflexivity.
Qed.

(** With darkening off, none of the options the builder emits is
    [--darken] or [--fix-bearings]: such a string is in the command only
    if it is the family name, the path of a file or the output directory,
    which the builder passes on as they are. *)
Lemma build_options_without_darken
    (cfg : Spec.JobConfiguration) (args : list string) :
  Spec.darkenEnabled cfg = false ->
  Spec.build cfg = Spec.Built args ->
  forall flag : string,
    In flag ["--darken"; "--fix-bearings"] ->
    In flag args ->
    Spec.familyName cfg = flag
    \/ (exists e, In e (Spec.files cfg) /\ Spec.path e = flag)
    \/ Spec.outputDir cfg = Some flag.
Proof.
  intros Hoff Hbuild flag Hflag Hin.
  unfold Spec.build in Hbuild.
  destruct (Spec.outputDir cfg) as [dir|]; [|discriminate Hbuild].
  destruct (_ && _); [|discriminate Hbuild].
  injection Hbuild as <-.
  unfold Spec.darken_args in Hin. rewrite Hoff in Hin.
  change (In flag
            ([Spec.familyName cfg]
             ++ flat_map (Spec.slot_args cfg)
                  [Spec.Regular; Spec.Italic; Spec.Bold; Spec.BoldItalic]
             ++ Spec.option_args cfg
             ++ [Spec.hint_flag (Spec.hintMode cfg)]
             ++ ["--out-dir"; dir])) in Hin.
  apply in_app_or in Hin as [[Hin|[]]|Hin]; [left; exact Hin|].
  apply in_app_or in Hin as [Hin|Hin].
  - apply in_flat_map in Hin as (s & Hs & Hin).
    apply slot_args_elements in Hin as [->|(e & He & ->)].
    + destruct Hs as [<-|[<-|[<-|[<-|[]]]]]; cbn in Hflag;
        destruct Hflag as [H|[H|[]]]; discriminate H.
    + right; left. exists e. auto.
  - apply in_app_or in Hin as [Hin|Hin].
    + unfold Spec.option_args in Hin.
      destruct (Spec.legacyKerning cfg), (Spec.stripPanose cfg),
        (Spec.nameHack cfg); cbn in Hin;
        destruct Hflag as [<-|[<-|[]]]; intuition discriminate.
    + apply in_app_or in Hin as [[Hin|[]]|Hin];
        [subst flag; destruct (Spec.hintMode cfg); cbn in Hflag;
         destruct Hflag as [H|[H|[]]]; discriminate H|].
      cbn in Hin. destruct Hin as [Hin|[Hin|[]]].
      * destruct Hflag as [<-|[<-|[]]]; discriminate.
      * right; right. now rewrite Hin.
Qed.

(** C4.  For a configuration with darkening off whose family name, file
    paths and output directory are not themselves one of the two option
    strings, the command of the builder contains neither [--darken] nor
    [--fix-bearings], and it is the same whatever darken amount and
    bearings flag are stored: the amount is absent, not zero. *)
Theorem build_without_darken
    (cfg : Spec.JobConfiguration) (args : list string) :
  Spec.darkenEnabled cfg = false ->
  Spec.build cfg = Spec.Built args ->
  (forall flag : string,
     In flag ["--darken"; "--fix-bearings"] ->
     Spec.familyName cfg <> flag
     /\ (forall e, In e (Spec.files cfg) -> Spec.path e <> flag)
     /\ Spec.outputDir cfg <> Some flag) ->
  ~ In "--darken" args
  /\ ~ In "--fix-bearings" args
  /\ forall (amount : Z) (bearings : bool),
       Spec.build (Spec.with_darken_values amount bearings cfg) = Spec.Built args.
Proof.
  intros Hoff Hbuild Huser.
  assert (Hnone : forall flag : string,
             In flag ["--darken"; "--fix-bearings"] -> ~ In flag args).
  { intros flag Hflag Hin.
    destruct (Huser flag Hflag) as (Hn & Hf & Ho).
    destruct (build_options_without_darken cfg args Hoff Hbuild flag Hflag Hin)
      as [E|[(e & He & E)|E]].
    - exact (Hn E).
    - exact (Hf e He E).
    - exact (Ho E). }
  split; [apply Hnone; left; reflexivity|].
  split; [apply Hnone; right; left; reflexivity|].
  intros amount bearings. now rewrite with_darken_values_build.
Qed.

Lemma build_without_darken_witness :
  Spec.build plain_cfg
  = Spec.Built ["MyFont"; "--regular-file"; "a.ttf"; "--hint-keep"; "--out-dir"; "/out"]
  /\ Spec.modifyBearings plain_cfg = true
  /\ ~ In "--fix-bearings"
        ["MyFont"; "--regular-file"; "a.ttf"; "--hint-keep"; "--out-dir"; "/out"]
  /\ Spec.build (Spec.with_darken_values 0 false plain_cfg)
     = Spec.Built ["MyFont"; "--regular-file"; "a.ttf"; "--hint-keep"; "--out-dir"; "/out"].
Proof.
  assert (Hb : Spec.build plain_cfg
               = Spec.Built ["MyFont"; "--regular-file"; "a.ttf"; "--hint-keep";
                             "--out-dir"; "/out"]) by (vm_compute; reflexivity).
  assert (Huser : forall flag : string,
             In flag ["--darken"; "--fix-bearings"] ->
             Spec.familyName plain_cfg <> flag
             /\ (forall e, In e (Spec.files plain_cfg) -> Spec.path e <> flag)
             /\ Spec.outputDir plain_cfg <> Some flag).
  { intros flag [<-|[<-|[]]]; (split; [discriminate|]);
      (split; [intros e [<-|[]]; discriminate | discriminate]). }
  split; [exact Hb|]. split; [reflexivity|].
  destruct (build_without_darken plain_cfg _ eq_refl Hb Huser) as (_ & H2 & H3).
  split; [exact H2 | apply H3].
Defined.

(** The builder passes the user's strings on as they are: a font file
    whose path is the string [--darken] puts that string in the command,
    as the value of its file option. *)
Example user_string_in_command :
  Spec.darkenEnabled odd_path_cfg = false
  /\ Spec.build odd_path_cfg
     = Spec.Built ["MyFont"; "--regular-file"; "--darken"; "--hint-keep";
                   "--out-dir"; "/out"].
Proof. split; [reflexivity | vm_compute; reflexivity]. Qed.

(** * Further properties of the window *)

Lemma assign_files_frame_out_dir (files : list string) (combos : list QComboBox)
    (fi : FontInfo) :
  out_dir (assign_files files combos fi) = out_dir fi.
Proof. apply (assign_files_frame files combos fi). Qed.

Section Coverage.

Variable valid_filename : string -> bool.
Variable gen_cli_command : FontInfo -> list string.
Variable decode : string -> option string.

Local Abbreviation step' := (step valid_filename gen_cli_command decode).
Local Abbreviation run' := (run valid_filename gen_cli_command decode).
Local Abbreviation invariant := (run_invariant valid_filename gen_cli_command decode).

(** ** The basic options *)

Lemma basic_options_step (e : Event) (s s' : RF_Qt) :
  step' e s = Ok s' ->
  leg_kern (font_info s') = leg_kern (font_info s)
  /\ strip_panose (font_info s') = strip_panose (font_info s)
  /\ name_hack (font_info s') = name_hack (font_info s).
Proof.
  intros Hstep.
  destruct e; slots; cases; cbn in *;
    try (destruct (assign_files_frame l (fnt_sty_combo_list s)
                     (put_out_dir (Some (posixpath.normpath chosen_dir)) (font_info s)))
           as (_ & H2 & H3 & H4 & _); cbv zeta in *; rewrite H2, H3, H4);
    repeat split.
Qed.

(** X2.  No slot is connected to the three basic option boxes
    ([set_basic_opt] is defined but never connected), so all along a
    session the attributes [leg_kern], [strip_panose] and [name_hack] keep
    the values of the fresh [FontInfo], whatever the user checks. *)
Theorem basic_options_never_stored
    (info : FontInfo) (which : option string) (located : string)
    (events : list Event) (self : RF_Qt) :
  run' events (init info which located) = Ok self ->
  leg_kern (font_info self) = leg_kern info
  /\ strip_panose (font_info self) = strip_panose info
  /\ name_hack (font_info self) = name_hack info.
Proof.
  intros Hrun.
  apply (invariant
           (fun s => leg_kern (font_info s) = leg_kern info
                     /\ strip_panose (font_info s) = strip_panose info
                     /\ name_hack (font_info s) = name_hack info))
    with (3 := Hrun).
  - intros e s s' (H1 & H2 & H3) Hstep.
    destruct (basic_options_step e s s' Hstep) as (-> & -> & ->). auto.
  - unfold init. cbv zeta.
    match goal with
    | |- context [set_hint ?r ?s] =>
        destruct (set_hint_cases r s) as [E|[h E]]; rewrite E; clear E
    end;
      cbn [ff_path put_font_info]; unfold set_ff_path;
      destruct (truthy_opt which); cbn [negb];
      try destruct (PyStr.truthy located); repeat split.
Qed.


(** ** The hinting buttons *)

(** Only a click on a hinting button changes the hinting group. *)
Lemma hint_frame (e : Event) (s s' : RF_Qt) :
  (forall j : nat, e <> HintClicked j) ->
  step' e s = Ok s' ->
  hint_opt_list s' = hint_opt_list s
  /\ change_hint (font_info s') = change_hint (font_info s).
Proof.
  intros Hne Hstep.
  destruct e as [ | |j| | | | | | | | | | | ];
    [ | |exfalso; apply (Hne j); reflexivity| .. ];
    slots; cases; cbn in *;
    try (destruct (assign_files_frame l (fnt_sty_combo_list s)
                     (put_out_dir (Some (posixpath.normpath chosen_dir)) (font_info s)))
           as (_ & _ & _ & _ & H5 & _); cbv zeta in *; rewrite H5);
    cbn; auto.
Qed.

(** A click on hinting button [j] leaves that button alone checked and
    its keyword stored, whichever button was checked before. *)
Lemma hint_click (i j : nat) (s : RF_Qt) :
  hint_group i s -> j < 3 -> hint_group j (on_hint_clicked j s).
Proof.
  intros (Ht & Hc & Hk) Hj. unfold hint_group, on_hint_clicked in *.
  destruct (hint_opt_list s) as [|[t0 c0] [|[t1 c1] [|[t2 c2] [|r3 l]]]] eqn:El;
    try discriminate Ht.
  cbn in Ht, Hc. injection Ht as -> -> ->. injection Hc as -> -> ->.
  destruct i as [|[|[|i]]]; [ | | |destruct i; discriminate Hk];
    cbn in Hk; injection Hk as Hk;
    (destruct j as [|[|[|j]]]; [ | | |lia]);
    cbn [nth_error Nat.eqb rad_checked];
    rewrite ?El; unfold set_hint;
    cbn [rad_checked rad_text rad_setChecked check_radio map hint_opt_list
         put_hint_opt_list put_font_info font_info];
    repeat match goal with
           | |- context [PyStr.contains ?a (PyStr.lower ?b)] =>
               let v := eval vm_compute in (PyStr.contains a (PyStr.lower b)) in
               replace (PyStr.contains a (PyStr.lower b)) with v
                 by (vm_compute; reflexivity)
           end;
    cbn [hint_opt_list put_hint_opt_list put_font_info font_info change_hint
         put_change_hint map rad_text rad_checked rad_setChecked nth_error
         hint_keywords Nat.eqb];
    rewrite ?El; cbn [map rad_text rad_checked]; rewrite <- ?Hk; auto.
Qed.

Lemma hint_step (e : Event) (s s' : RF_Qt) :
  (exists i : nat, hint_group i s) ->
  step' e s = Ok s' ->
  exists i : nat, hint_group i s'.
Proof.
  intros [i Hi] Hstep.
  destruct e as [ | |j| | | | | | | | | | | ].
  3: { (* HintClicked *)
    cbn [step] in Hstep. injection Hstep as <-.
    destruct (Nat.ltb j 3) eqn:Hj.
    - exists j. apply (hint_click i); [exact Hi|]. now apply Nat.ltb_lt.
    - exists i. unfold on_hint_clicked.
      destruct Hi as (Ht & Hc & Hk).
      assert (Hnone : nth_error (hint_opt_list s) j = None).
      { apply nth_error_None. apply Nat.ltb_ge in Hj.
        rewrite <- (length_map rad_text), Ht. exact Hj. }
      rewrite Hnone. repeat split; assumption. }
  all: exists i;
    match goal with
    | H : step' ?e ?s0 = Ok ?s1, Hg : hint_group _ ?s0 |- _ =>
        destruct (hint_frame e s0 s1 ltac:(intros; discriminate) H) as [E1 E2];
        unfold hint_group in *; rewrite E1, E2; exact Hg
    end.
Qed.

Lemma init_hint (info : FontInfo) (which : option string) (located : string) :
  hint_group 0 (init info which located).
Proof.
  unfold hint_group, init. cbv zeta. unfold set_hint. cbn [rad_checked rad_text].
  replace (PyStr.contains "keep" (PyStr.lower "Keep Existing")) with true
    by (vm_compute; reflexivity).
  cbn [ff_path put_font_info]. unfold set_ff_path.
  destruct (truthy_opt which); cbn [negb];
    try destruct (PyStr.truthy located); repeat split.
Qed.

(** X1.  The window opens with the first hinting button checked and
    [change_hint] set to 'keep'.  All along a session the three buttons
    keep their texts, exactly one of them is checked, and [change_hint] is
    the keyword of the checked one (first button 'keep', second 'remove',
    third 'auto'); a click on a button leaves that button checked and its
    keyword stored, whichever button was checked before. *)
Theorem hint_keyword_of_button
    (info : FontInfo) (which : option string) (located : string)
    (events : list Event) (self : RF_Qt) :
  run' events (init info which located) = Ok self ->
  hint_group 0 (init info which located)
  /\ (exists i : nat, hint_group i self)
  /\ forall (j : nat) (self' : RF_Qt),
       j < 3 ->
       step' (HintClicked j) self = Ok self' ->
       hint_group j self'.
Proof.
  intros Hrun.
  pose proof (init_hint info which located) as I0.
  split; [exact I0|].
  assert (H : exists i : nat, hint_group i self).
  { apply (invariant _ hint_step) with (2 := Hrun). exists 0. exact I0. }
  split; [exact H|].
  intros j self' Hj Hstep. destruct H as [i Hi].
  cbn [step] in Hstep. injection Hstep as <-.
  apply (hint_click i); assumption.
Qed.


(** ** The progress bar *)

Lemma bar_setRange_range (lo hi : Z) (b : QProgressBar) :
  (lo <= hi)%Z ->
  bar_minimum (bar_setRange lo hi b) = lo
  /\ bar_maximum (bar_setRange lo hi b) = hi.
Proof.
  intros Hle. unfold bar_setRange.
  destruct (Z.eqb_spec lo (bar_minimum b)) as [E1|E1]; cbn [andb].
  - destruct (Z.eqb_spec hi (bar_maximum b)) as [E2|E2]; cbn; [auto|].
    split; [reflexivity | lia].
  - cbn. split; [reflexivity | lia].
Qed.

Lemma bar_setValue_range (v : Z) (b : QProgressBar) :
  bar_minimum (bar_setValue v b) = bar_minimum b
  /\ bar_maximum (bar_setValue v b) = bar_maximum b.
Proof.
  unfold bar_setValue. destruct (_ || _); split; reflexivity.
Qed.

(** The range [manage_proc] leaves, by the state of the sender. *)
Lemma manage_proc_range (p : QProcess) (s : RF_Qt) :
  match proc_state p with
  | Running =>
      bar_minimum (prog_bar (manage_proc p s)) = 0%Z
      /\ bar_maximum (prog_bar (manage_proc p s)) = 0%Z
  | NotRunning =>
      bar_minimum (prog_bar (manage_proc p s)) = 0%Z
      /\ bar_maximum (prog_bar (manage_proc p s)) = 100%Z
  | Starting => prog_bar (manage_proc p s) = prog_bar s
  end.
Proof.
  unfold manage_proc. destruct (proc_state p); cbn.
  - destruct (bar_setValue_range 100 (bar_setRange 0 100 (prog_bar s))) as [-> ->].
    apply bar_setRange_range. lia.
  - reflexivity.
  - apply bar_setRange_range. lia.
Qed.

Lemma manage_proc_process (p : QProcess) (s : RF_Qt) :
  cli_process (manage_proc p s) = cli_process s.
Proof. unfold manage_proc. destruct (proc_state p); reflexivity. Qed.

Lemma bar_step (e : Event) (s s' : RF_Qt) :
  bar_minimum (prog_bar s) = 0%Z
  /\ bar_maximum (prog_bar s)
     = match proc_state (cli_process s) with Running => 0%Z | _ => 100%Z end ->
  step' e s = Ok s' ->
  bar_minimum (prog_bar s') = 0%Z
  /\ bar_maximum (prog_bar s')
     = match proc_state (cli_process s') with Running => 0%Z | _ => 100%Z end.
Proof.
  intros Hinv Hstep.
  destruct e as [ | | | | | | | | | | | |code|err];
    try (unfold step, on_hint_clicked, on_darken_clicked, on_mod_bearing_clicked,
           on_slider_moved, on_style_chosen, set_family_name, set_darken_amount,
           set_hint, set_darken_opt, set_mod_bearing, load_fonts,
           read_proc_output, readAllStandardOutput, gen_ttf, set_ff_path,
           start, child_wrote in Hstep;
         cases; cbn in *; try congruence; exact Hinv).
  - (* ProcStarted *)
    cbn [step] in Hstep. injection Hstep as <-. unfold on_proc_started. cbv zeta.
    destruct (proc_state (cli_process s)) eqn:E; rewrite ?E; try exact Hinv.
    match goal with
    | |- context [manage_proc ?p ?t] =>
        pose proof (manage_proc_range p t) as H;
        rewrite (manage_proc_process p t)
    end.
    cbn in H |- *. exact H.
  - (* ProcFinished *)
    cbn [step] in Hstep. injection Hstep as <-. unfold on_proc_finished. cbv zeta.
    destruct (proc_state (cli_process s)) eqn:E; rewrite ?E; try exact Hinv.
    match goal with
    | |- context [manage_proc ?p ?t] =>
        pose proof (manage_proc_range p t) as H;
        rewrite (manage_proc_process p t)
    end.
    cbn in H |- *. exact H.
  - (* ProcErrorOccurred *)
    cbn [step] in Hstep. injection Hstep as <-. unfold on_proc_error. cbv zeta.
    destruct err, (proc_state (cli_process s)) eqn:E; rewrite ?E; try exact Hinv;
      repeat match goal with
             | |- context [manage_proc ?p ?t] =>
                 pose proof (manage_proc_range p t);
                 rewrite (manage_proc_process p t)
             end;
      cbn in *; rewrite ?E in *; cbn in *;
      try assumption; try (destruct Hinv; split; congruence).
Qed.

(** X8.  All along a session the progress bar starts at 0 and is
    indeterminate (range 0..0) exactly while the process is running; at
    every other time its range is 0..100. *)
Theorem progress_bar_busy_while_running
    (info : FontInfo) (which : option string) (located : string)
    (events : list Event) (self : RF_Qt) :
  run' events (init info which located) = Ok self ->
  bar_minimum (prog_bar self) = 0%Z
  /\ bar_maximum (prog_bar self)
     = match proc_state (cli_process self) with Running => 0%Z | _ => 100%Z end.
Proof.
  intros Hrun.
  apply (invariant _ bar_step) with (2 := Hrun).
  unfold init. cbv zeta.
  match goal with
  | |- context [set_hint ?r ?s] =>
      destruct (set_hint_cases r s) as [E|[h E]]; rewrite E; clear E
  end;
    cbn [ff_path put_font_info]; unfold set_ff_path;
    destruct (truthy_opt which); cbn [negb];
    try destruct (PyStr.truthy located); split; reflexivity.
Qed.


(** ** The file attributes are never cleared *)

Lemma slot_file_step (style : nat) (e : Event) (s s' : RF_Qt) :
  In style [SEL_REGULAR; SEL_ITALIC; SEL_BOLD; SEL_BOLDITALIC] ->
  (exists f : string, slot_file style (font_info s) = Some f) ->
  step' e s = Ok s' ->
  exists f : string, slot_file style (font_info s') = Some f.
Proof.
  intros Hin [f Hf] Hstep.
  destruct e as [ | | | | | | | |located chosen_dir| | | | | ].
  9: { (* GenerateClicked *)
    cbn [step] in Hstep. destruct (btn_enabled (gen_ttf_btn s)).
    - unfold gen_ttf, set_ff_path in Hstep. cbn [ff_path put_log_win] in Hstep.
      cases; cbn [font_info put_cli_process put_font_info put_ff_path
                    put_log_win fnt_sty_combo_list];
        try (exists f; exact Hf);
        rewrite (assign_files_last_wins _ _ _ style Hin);
        destruct (last_with_style style _) as [g|]; try (exists g; reflexivity);
        exists f; rewrite <- Hf;
        destruct Hin as [<-|[<-|[<-|[<-|[]]]]]; reflexivity.
    - injection Hstep as <-. exists f; exact Hf. }
  all: exists f; rewrite <- Hf; slots; cases; cbn;
    destruct Hin as [<-|[<-|[<-|[<-|[]]]]]; reflexivity.
Qed.

(** X7.  No slot ever clears a file attribute of the job: once
    [font_file_reg], [font_file_it], [font_file_bd] or [font_file_bi] holds
    a file it holds a file through every later event, also after other
    fonts have been loaded. *)
Theorem file_attributes_never_cleared
    (style : nat) (events : list Event) (self self' : RF_Qt) (f : string) :
  In style [SEL_REGULAR; SEL_ITALIC; SEL_BOLD; SEL_BOLDITALIC] ->
  slot_file style (font_info self) = Some f ->
  run' events self = Ok self' ->
  exists f' : string, slot_file style (font_info self') = Some f'.
Proof.
  intros Hin Hf Hrun.
  apply (invariant _ (fun e s s' => slot_file_step style e s s' Hin))
    with (2 := Hrun).
  exists f. exact Hf.
Qed.


(** ** When a process is launched *)

(** X5.  A generation request made while no process runs and fonts are
    loaded returns, with the log cleared.  It launches a process exactly
    when an executable path is known (stored, or given in the dialog) and
    the directory dialog gives a directory other than '.' after
    normalisation (an empty answer, the cancelled dialog, normalises to
    '.'): the program is that path, the arguments are those of
    [gen_cli_command] on the updated job and the directory is stored in
    [out_dir].  Otherwise neither the process nor the job is touched. *)
Theorem gen_ttf_launch
    (located chosen_dir : string) (self : RF_Qt) (files : list string) :
  font_files self = Some files ->
  proc_state (cli_process self) = NotRunning ->
  exists self' : RF_Qt,
    gen_ttf gen_cli_command located chosen_dir self = Ok self'
    /\ log_win self' = []
    /\ if (truthy_opt (ff_path self) || PyStr.truthy located)
          && negb (posixpath.normpath chosen_dir =? ".")
       then proc_state (cli_process self') = Starting
            /\ Some (proc_program (cli_process self'))
               = (if truthy_opt (ff_path self) then ff_path self
                  else Some (posixpath.normpath located))
            /\ proc_arguments (cli_process self') = gen_cli_command (font_info self')
            /\ out_dir (font_info self') = Some (posixpath.normpath chosen_dir)
       else cli_process self' = cli_process self
            /\ font_info self' = font_info self.
Proof.
  intros Hfiles Hidle. unfold gen_ttf, set_ff_path.
  cbn [ff_path put_log_win].
  destruct (truthy_opt (ff_path self)) eqn:Hff; cbn [negb orb].
  - destruct (ff_path self) as [p|] eqn:Hp; [|discriminate Hff].
    cbn [truthy_opt] in Hff. cbn [ff_path put_log_win]. rewrite Hp, Hff.
    assert (Hne : (posixpath.normpath chosen_dir =? "") = false).
    { apply String.eqb_neq. intros E.
      pose proof (normpath_truthy chosen_dir) as T. rewrite E in T. discriminate T. }
    rewrite Hne, orb_false_r.
    destruct (posixpath.normpath chosen_dir =? "."); cbn [negb andb].
    + eexists. split; [reflexivity|]. cbn. auto.
    + cbn [font_files put_font_info put_log_win]. rewrite Hfiles.
      eexists. split; [reflexivity|]. cbn. unfold start. rewrite Hidle. cbn.
      rewrite assign_files_frame_out_dir. cbn. auto.
  - destruct (PyStr.truthy located) eqn:Hloc; cbn [andb].
    + cbn [ff_path put_ff_path]. rewrite normpath_truthy.
      assert (Hne : (posixpath.normpath chosen_dir =? "") = false).
      { apply String.eqb_neq. intros E.
        pose proof (normpath_truthy chosen_dir) as T. rewrite E in T. discriminate T. }
      rewrite Hne, orb_false_r.
      destruct (posixpath.normpath chosen_dir =? "."); cbn [negb].
      * eexists. split; [reflexivity|]. cbn. auto.
      * cbn [font_files put_font_info put_log_win put_ff_path]. rewrite Hfiles.
        eexists. split; [reflexivity|]. cbn. unfold start. rewrite Hidle. cbn.
        rewrite assign_files_frame_out_dir. cbn. auto.
    + destruct (ff_path self) as [p|] eqn:Hp.
      * cbn [truthy_opt] in Hff. cbn [ff_path put_log_win]. rewrite Hp, Hff.
        eexists. split; [reflexivity|]. cbn. auto.
      * cbn [ff_path put_log_win]. rewrite Hp.
        eexists. split; [reflexivity|]. cbn. auto.
Qed.


(** ** What an active process relies on *)

(** The two ways [gen_ttf] returns: without reaching the start, or with
    the job updated and the start called. *)
Lemma gen_ttf_cases (located chosen_dir : string) (s s' : RF_Qt) :
  gen_ttf gen_cli_command located chosen_dir s = Ok s' ->
  (cli_process s' = cli_process s
   /\ font_info s' = font_info s
   /\ font_files s' = font_files s
   /\ (truthy_opt (ff_path s) = true -> ff_path s' = ff_path s))
  \/ (exists (p : string) (files : list string),
        ff_path s' = Some p
        /\ PyStr.truthy p = true
        /\ (truthy_opt (ff_path s) = true -> ff_path s = Some p)
        /\ font_files s' = Some files
        /\ out_dir (font_info s') = Some (posixpath.normpath chosen_dir)
        /\ posixpath.normpath chosen_dir <> "."
        /\ cli_process s'
           = start p (gen_cli_command (font_info s')) (cli_process s)).
Proof.
  unfold gen_ttf, set_ff_path. cbn [ff_path put_log_win].
  intros H.
  assert (Hdir : forall b, (posixpath.normpath chosen_dir =? ".") || b = false ->
                      posixpath.normpath chosen_dir <> ".").
  { intros b Hb E. rewrite E in Hb. discriminate Hb. }
  destruct (truthy_opt (ff_path s)) eqn:Hff; cbn [negb] in H.
  - destruct (ff_path s) as [p|] eqn:Hp; [|discriminate Hff].
    cbn [truthy_opt] in Hff. cbn [ff_path put_log_win] in H.
    rewrite Hp, Hff in H.
    destruct (_ || _) eqn:Hd in H.
    + injection H as <-. left. cbn. auto.
    + cbn [font_files put_font_info put_log_win] in H.
      destruct (font_files s) as [files|] eqn:Hf; [|discriminate H].
      injection H as <-. right. exists p, files. cbn.
      rewrite assign_files_frame_out_dir. cbn.
      repeat split; auto. eapply Hdir; eassumption.
  - destruct (PyStr.truthy located) eqn:Hloc.
    + cbn [ff_path put_ff_path] in H. rewrite normpath_truthy in H.
      destruct (_ || _) eqn:Hd in H.
      * injection H as <-. left. cbn. repeat split. discriminate.
      * cbn [font_files put_font_info put_log_win put_ff_path] in H.
        destruct (font_files s) as [files|] eqn:Hf; [|discriminate H].
        injection H as <-. right. exists (posixpath.normpath located), files. cbn.
        rewrite assign_files_frame_out_dir. cbn.
        repeat split; auto; try discriminate.
        -- apply normpath_truthy.
        -- eapply Hdir; eassumption.
    + cbn [ff_path put_log_win] in H.
      destruct (ff_path s) as [p|] eqn:Hp.
      * cbn [truthy_opt] in Hff. rewrite Hff in H. injection H as <-.
        left. cbn. repeat split. discriminate.
      * injection H as <-. left. cbn. repeat split. discriminate.
Qed.

Lemma active_step (e : Event) (s s' : RF_Qt) :
  (proc_state (cli_process s) <> NotRunning ->
   ff_path s = Some (proc_program (cli_process s))
   /\ PyStr.truthy (proc_program (cli_process s)) = true
   /\ font_files s <> None
   /\ exists d : string,
        out_dir (font_info s) = Some (posixpath.normpath d)
        /\ posixpath.normpath d <> ".") ->
  step' e s = Ok s' ->
  proc_state (cli_process s') <> NotRunning ->
  ff_path s' = Some (proc_program (cli_process s'))
  /\ PyStr.truthy (proc_program (cli_process s')) = true
  /\ font_files s' <> None
  /\ exists d : string,
       out_dir (font_info s') = Some (posixpath.normpath d)
       /\ posixpath.normpath d <> ".".
Proof.
  intros Hinv Hstep.
  destruct e as [ | | | | | | | |located chosen_dir| | | |code|err].
  9: { (* GenerateClicked *)
    cbn [step] in Hstep.
    destruct (btn_enabled (gen_ttf_btn s)); [|injection Hstep as <-; exact Hinv].
    apply gen_ttf_cases in Hstep
      as [(Ep & Ei & Ef & Ek)|(p & files & Hp & Ht & Hk & Hf & Ho & Hd & Es)].
    - rewrite Ep, Ei, Ef. intros Hb. destruct (Hinv Hb) as (H1 & H2 & H3 & H4).
      rewrite Ek; [auto|]. rewrite H1. exact H2.
    - rewrite Es, Hp, Hf, Ho. unfold start.
      destruct (proc_state (cli_process s)) eqn:Est; cbn [proc_state proc_program].
      + intros _. repeat split; auto; try discriminate.
        exists chosen_dir. auto.
      + rewrite Est. intros Hb. destruct (Hinv Hb) as (H1 & H2 & H3 & H4).
        rewrite <- H1. rewrite Hk; [|rewrite H1; exact H2].
        repeat split; auto; try discriminate. exists chosen_dir. auto.
      + rewrite Est. intros Hb. destruct (Hinv Hb) as (H1 & H2 & H3 & H4).
        rewrite <- H1. rewrite Hk; [|rewrite H1; exact H2].
        repeat split; auto; try discriminate. exists chosen_dir. auto. }
  all: try (slots; unfold child_wrote in *; cases; cbn in *; exact Hinv).
  - (* LoadFontsClicked *)
    slots; cases; cbn in *; try exact Hinv;
      intros Hb; destruct (Hinv Hb) as (H1 & H2 & H3 & H4);
      repeat split; try assumption; discriminate.
  - (* ProcStarted *)
    cbn [step] in Hstep. injection Hstep as <-. unfold on_proc_started. cbv zeta.
    destruct (proc_state (cli_process s)) eqn:E; rewrite ?E; try exact Hinv.
    rewrite manage_proc_process. intros _.
    destruct Hinv as (H1 & H2 & H3 & H4); [discriminate|].
    unfold manage_proc; cbn. auto.
  - (* ChildWrote *)
    cbn [step] in Hstep.
    destruct (proc_state (cli_process s)) eqn:E;
      injection Hstep as <-; rewrite ?E; try exact Hinv.
    intros _. destruct Hinv as (H1 & H2 & H3 & H4); [discriminate|].
    cbn. auto.
  - (* ProcFinished *)
    cbn [step] in Hstep. injection Hstep as <-. unfold on_proc_finished. cbv zeta.
    destruct (proc_state (cli_process s)) eqn:E; rewrite ?E; try exact Hinv.
    rewrite manage_proc_process. cbn. congruence.
  - (* ProcErrorOccurred *)
    cbn [step] in Hstep. injection Hstep as <-. unfold on_proc_error. cbv zeta.
    destruct err, (proc_state (cli_process s)) eqn:E; rewrite ?E; try exact Hinv;
      rewrite ?manage_proc_process; cbn; try congruence;
      intros _; (destruct Hinv as (H1 & H2 & H3 & H4); [congruence|]);
      unfold manage_proc; rewrite ?E; cbn; rewrite ?E; cbn; auto.
Qed.

(** X6.  All along a session, whenever a process is starting or running,
    its program is the stored [ff_path] (a non-empty path), font files are
    loaded and [out_dir] holds a normalised directory other than '.'. *)
Theorem active_process_has_its_inputs
    (info : FontInfo) (which : option string) (located : string)
    (events : list Event) (self : RF_Qt) :
  run' events (init info which located) = Ok self ->
  proc_state (cli_process self) <> NotRunning ->
  ff_path self = Some (proc_program (cli_process self))
  /\ PyStr.truthy (proc_program (cli_process self)) = true
  /\ font_files self <> None
  /\ exists d : string,
       out_dir (font_info self) = Some (posixpath.normpath d)
       /\ posixpath.normpath d <> ".".
Proof.
  intros Hrun.
  apply (invariant _ active_step) with (2 := Hrun).
  unfold init. cbv zeta.
  match goal with
  | |- context [set_hint ?r ?s] =>
      destruct (set_hint_cases r s) as [E|[h E]]; rewrite E; clear E
  end;
    cbn [ff_path put_font_info]; unfold set_ff_path;
    destruct (truthy_opt which); cbn [negb];
    try destruct (PyStr.truthy located); cbn; congruence.
Qed.


(** ** The darken amount *)

Lemma darken_group_frame (info : FontInfo) (s s' : RF_Qt) :
  darken_amount_opt s' = darken_amount_opt s ->
  darken_opt s' = darken_opt s ->
  darken_amount_lab s' = darken_amount_lab s ->
  add_weight (font_info s') = add_weight (font_info s) ->
  darken_group info s -> darken_group info s'.
Proof.
  unfold darken_group. intros -> -> -> ->. auto.
Qed.

Lemma darken_amount_step (info : FontInfo) (e : Event) (s s' : RF_Qt) :
  darken_group info s -> step' e s = Ok s' -> darken_group info s'.
Proof.
  intros Hinv Hstep.
  destruct e as [ | | | | |v| | | | | | | | ].
  4: { (* DarkenClicked *)
    cbn [step] in Hstep. injection Hstep as <-.
    destruct Hinv as (Hmin & Hmax & Hval & Hen & Hw).
    unfold on_darken_clicked, set_darken_opt, set_darken_amount, darken_group.
    cbn. destruct (chk_checked (darken_opt s)); cbn; auto 10. }
  5: { (* SliderMoved *)
    cbn [step] in Hstep. injection Hstep as <-.
    destruct Hinv as (Hmin & Hmax & Hval & Hen & Hw).
    unfold on_slider_moved, set_darken_amount, darken_group.
    destruct (sld_enabled (darken_amount_opt s)) eqn:Een; cbn [andb].
    2: { rewrite <- Hen in *. repeat split; auto; try lia; apply Hw. }
    destruct (negb _) eqn:Ech.
    2: { rewrite <- Hen in *. repeat split; auto; try lia; apply Hw. }
    cbn. rewrite <- Hen, Hmin, Hmax. repeat split; try lia; auto. }
  all: apply (darken_group_frame info s s'); [ | | | | exact Hinv];
    slots; cases; cbn; rewrite ?assign_files_add_weight; reflexivity.
Qed.

(** X3.  All along a session the darken slider stays between 1 and 50 and
    is enabled exactly when the Darken box is checked.  While the box is
    checked, [add_weight] is the value of the slider (so between 1 and 50)
    and the amount label shows it; while it is unchecked, [add_weight] is 0
    or, before the box was ever checked, the value of the fresh
    [FontInfo]. *)
Theorem darken_amount_follows_slider
    (info : FontInfo) (which : option string) (located : string)
    (events : list Event) (self : RF_Qt) :
  run' events (init info which located) = Ok self ->
  darken_group info self.
Proof.
  intros Hrun.
  apply (invariant _ (darken_amount_step info)) with (2 := Hrun).
  unfold darken_group, init. cbv zeta.
  match goal with
  | |- context [set_hint ?r ?s] =>
      destruct (set_hint_cases r s) as [E|[h E]]; rewrite E; clear E
  end;
    cbn [ff_path put_font_info]; unfold set_ff_path;
    destruct (truthy_opt which); cbn [negb];
    try destruct (PyStr.truthy located); cbn; repeat split; auto; lia.
Qed.


(** ** The font grid *)

Lemma nth_error_lt {A : Type} (l : list A) (i : nat) (x : A) :
  nth_error l i = Some x -> i < List.length l.
Proof. intros H. apply nth_error_Some. rewrite H. discriminate. Qed.

Lemma fill_rows_nth_beyond (names : list string) (labels : list QLabel)
    (combos : list QComboBox) (i : nat) :
  nth_error names i = None ->
  nth_error (snd (fill_rows names labels combos)) i = nth_error combos i.
Proof.
  revert labels combos i; induction names as [|n names IH];
    intros [|l labels] [|c combos] i Hn; try reflexivity.
  destruct i as [|i]; [discriminate Hn|].
  cbn [fill_rows]. destruct (fill_row n l c) as [l' c'].
  specialize (IH labels combos i Hn).
  destruct (fill_rows names labels combos). cbn in *. exact IH.
Qed.

Lemma nth_error_alter_nth {A : Type} (f : A -> A) (j : nat) (l : list A) (i : nat) :
  nth_error (alter_nth f j l) i
  = if Nat.eqb i j then option_map f (nth_error l i) else nth_error l i.
Proof.
  revert j i; induction l as [|x l IH]; intros j i.
  - destruct j, i; cbn; try reflexivity; destruct (Nat.eqb _ _); reflexivity.
  - destruct j as [|j], i as [|i]; cbn; try reflexivity. apply IH.
Qed.

Lemma detect_style_range (f_file : string) (k : nat) :
  detect_style f_file = Some k -> 1 <= k <= 4.
Proof.
  unfold detect_style, SEL_REGULAR, SEL_BOLDITALIC, SEL_BOLD, SEL_ITALIC.
  repeat match goal with
         | |- context [if ?x then _ else _] => destruct x
         end; intros H; try discriminate H; injection H as <-; lia.
Qed.

Lemma rows_ok_frame (s s' : RF_Qt) :
  fnt_sty_combo_list s' = fnt_sty_combo_list s ->
  font_files s' = font_files s ->
  rows_ok s -> rows_ok s'.
Proof.
  unfold rows_ok, loaded_files. intros -> ->. auto.
Qed.

Lemma load_fonts_rows_ok (selected : list string) (s : RF_Qt) :
  List.length (fnt_file_name_list s) = List.length (fnt_sty_combo_list s) ->
  rows_ok s -> rows_ok (load_fonts selected s).
Proof.
  intros Hlen Hinv.
  destruct selected as [|f selected]; [exact Hinv|].
  set (sel := f :: selected).
  assert (Hne : sel <> []) by discriminate.
  destruct (load_fonts_rows sel s Hne) as [_ Ec]. cbv zeta in Ec.
  assert (Hfiles : loaded_files (load_fonts sel s) = sel).
  { unfold loaded_files, load_fonts, sel.
    destruct (reset_rows _ _). destruct (fill_rows _ _ _).
    destruct (PyStr.truthy _); reflexivity. }
  intros i c Hc. rewrite Hfiles. rewrite Ec in Hc.
  assert (Hi : i < List.length (fnt_sty_combo_list s)).
  { apply nth_error_lt in Hc.
    destruct (fill_rows_length (map file_name sel)
                (fst (reset_rows (fnt_file_name_list s) (fnt_sty_combo_list s)))
                (snd (reset_rows (fnt_file_name_list s) (fnt_sty_combo_list s))))
      as [_ E]. rewrite E in Hc.
    destruct (reset_rows_length (fnt_file_name_list s) (fnt_sty_combo_list s))
      as [_ E']. rewrite E' in Hc. exact Hc. }
  destruct (nth_error (fnt_sty_combo_list s) i) as [c0|] eqn:Hc0;
    [|apply nth_error_None in Hc0; lia].
  destruct (nth_error (fnt_file_name_list s) i) as [l0|] eqn:Hl0;
    [|apply nth_error_None in Hl0; lia].
  destruct (reset_rows_nth _ _ i l0 c0 Hl0 Hc0) as [Hl1 Hc1].
  destruct (nth_error sel i) as [file|] eqn:Hsel.
  - pose proof (map_nth_error file_name i sel Hsel) as Hn.
    destruct (fill_rows_nth _ _ _ i _ _ _ Hn Hl1 Hc1) as [_ Hc2].
    rewrite Hc2 in Hc. injection Hc as <-.
    assert (Hlt : Nat.ltb i (List.length sel) = true).
    { apply Nat.ltb_lt. apply nth_error_lt in Hsel. exact Hsel. }
    rewrite Hlt. unfold fill_row. cbn [snd].
    destruct (detect_style (file_name file)) as [k|] eqn:Hk; cbn.
    + apply detect_style_range in Hk.
      split; [lia|]. split; [reflexivity | discriminate].
    + unfold SEL_NONE. split; [lia|]. split; [reflexivity | discriminate].
  - assert (Hn : nth_error (map file_name sel) i = None).
    { apply nth_error_None. rewrite length_map. apply nth_error_None. exact Hsel. }
    rewrite (fill_rows_nth_beyond _ _ _ i Hn), Hc1 in Hc. injection Hc as <-.
    assert (Hge : Nat.ltb i (List.length sel) = false).
    { apply Nat.ltb_ge. apply nth_error_None. exact Hsel. }
    rewrite Hge. cbn. unfold SEL_NONE. split; [lia|]. split; reflexivity.
Qed.

Lemma rows_ok_step (e : Event) (s s' : RF_Qt) :
  List.length (fnt_file_name_list s) = List.length (fnt_sty_combo_list s)
  /\ rows_ok s ->
  step' e s = Ok s' ->
  List.length (fnt_file_name_list s') = List.length (fnt_sty_combo_list s')
  /\ rows_ok s'.
Proof.
  intros [Hlen Hinv] Hstep.
  split.
  { destruct (rows_step valid_filename gen_cli_command decode _ _ e s s'
                (conj eq_refl eq_refl) Hstep) as [-> ->]. exact Hlen. }
  destruct e as [ | | | | | |row index|selected| | | | | | ].
  7: { (* StyleChosen *)
    cbn [step] in Hstep. injection Hstep as <-. unfold on_style_chosen.
    destruct (Nat.leb index (List.length fnt_styles)) eqn:Hle; [|exact Hinv].
    apply Nat.leb_le in Hle. cbn in Hle.
    intros i c Hc. unfold loaded_files in *.
    cbn [fnt_sty_combo_list font_files put_fnt_sty_combo_list] in *.
    rewrite nth_error_alter_nth in Hc.
    destruct (Nat.eqb i row); [|exact (Hinv i c Hc)].
    destruct (nth_error (fnt_sty_combo_list s) i) as [c0|] eqn:Hc0;
      [|discriminate Hc].
    cbn [option_map] in Hc. injection Hc as <-.
    destruct (Hinv i c0 Hc0) as (H1 & H2 & H3).
    destruct (cmb_enabled c0) eqn:Hen; cbn; rewrite ?Hen; auto.
    repeat split; auto; discriminate. }
  7: { (* LoadFontsClicked *)
    cbn [step] in Hstep. injection Hstep as <-.
    apply load_fonts_rows_ok; assumption. }
  all: apply (rows_ok_frame s s'); [ | | exact Hinv];
    slots; unfold start, child_wrote in *; cases; reflexivity.
Qed.

(** X4.  All along a session a style combo box is enabled exactly when its
    row shows one of the loaded files (row [i] with [i] below the number of
    loaded files), its index is one of the five entries 0..4, and a
    disabled combo box shows the empty entry: only the rows of loaded files
    can carry a style. *)
Theorem rows_follow_loaded_files
    (info : FontInfo) (which : option string) (located : string)
    (events : list Event) (self : RF_Qt) :
  run' events (init info which located) = Ok self ->
  rows_ok self.
Proof.
  intros Hrun.
  apply (invariant _ rows_ok_step) with (2 := Hrun).
  destruct (init_frame info which located) as (_ & _ & Hf & Hl & Hc & _).
  cbv zeta in Hf, Hl, Hc. split; [congruence|].
  intros i c Hi. unfold loaded_files. rewrite Hf. cbn [List.length].
  revert Hi. unfold init. cbv zeta.
  match goal with
  | |- context [set_hint ?r ?s] =>
      destruct (set_hint_cases r s) as [E|[h E]]; rewrite E; clear E
  end;
    cbn [ff_path put_font_info]; unfold set_ff_path;
    destruct (truthy_opt which); cbn [negb];
    try destruct (PyStr.truthy located);
    cbn [fnt_sty_combo_list put_font_info put_ff_path fnt_styles map];
    intros Hi;
    do 5 (destruct i as [|i]; cbn in Hi; try discriminate Hi;
          try (injection Hi as <-; cbn; repeat split; lia)).
Qed.

(** ** The names shown in the grid *)

Lemma contains_char_cons (c a : ascii) (t : string) :
  PyStr.contains (String c "") (String a t)
  = Ascii.eqb c a || PyStr.contains (String c "") t.
Proof.
  change (PyStr.contains (String c "") (String a t))
    with (PyStr.startswith (String c "") (String a t)
          || PyStr.contains (String c "") t).
  cbn [PyStr.startswith]. rewrite andb_true_r. reflexivity.
Qed.

Lemma from_rfind_succ (c : ascii) (s : string) :
  PyStr.contains (String c "") (PyStr.from (PyStr.rfind_succ c s) s) = false.
Proof.
  induction s as [|a t IH]; [reflexivity|].
  cbn [PyStr.rfind_succ]. destruct (PyStr.rfind_succ c t) as [|k].
  - cbn [PyStr.from] in IH. destruct (Ascii.eqb a c) eqn:E.
    + cbn [PyStr.from]. exact IH.
    + cbn [PyStr.from]. rewrite contains_char_cons, Ascii.eqb_sym, E, IH.
      reflexivity.
  - cbn [PyStr.from]. exact IH.
Qed.

(** ** Loading replaces the grid *)

Lemma reset_rows_combos (labels : list QLabel) (combos : list QComboBox) :
  List.length labels = List.length combos ->
  snd (reset_rows labels combos)
  = map (fun _ => {| cmb_currentIndex := SEL_NONE; cmb_enabled := false |}) combos.
Proof.
  revert combos; induction labels as [|l labels IH]; intros [|c combos] Hlen;
    try discriminate Hlen; [reflexivity|].
  cbn [reset_rows]. injection Hlen as Hlen. specialize (IH combos Hlen).
  destruct (reset_rows labels combos). cbn in *. now rewrite IH.
Qed.

Lemma fill_rows_combos (names : list string) (ls1 ls2 : list QLabel)
    (combos : list QComboBox) :
  List.length ls1 = List.length ls2 ->
  snd (fill_rows names ls1 combos) = snd (fill_rows names ls2 combos).
Proof.
  revert ls1 ls2 combos; induction names as [|n names IH];
    intros [|l1 ls1] [|l2 ls2] [|c combos] Hlen;
    try discriminate Hlen; try reflexivity.
  injection Hlen as Hlen. cbn [fill_rows fill_row].
  specialize (IH ls1 ls2 combos Hlen).
  destruct (fill_rows names ls1 combos), (fill_rows names ls2 combos).
  cbn in *. now rewrite IH.
Qed.

End Coverage.

(** X10.  Loading fonts replaces the style grid wholesale: on two windows
    with as many labels as combo boxes and the same number of rows, the
    combo boxes after [load_fonts] of a non-empty selection are the same,
    whatever files were loaded and whatever styles were chosen before. *)
Theorem load_fonts_forgets_earlier_styles
    (selected : list string) (s1 s2 : RF_Qt) :
  selected <> [] ->
  List.length (fnt_file_name_list s1) = List.length (fnt_sty_combo_list s1) ->
  List.length (fnt_file_name_list s2) = List.length (fnt_sty_combo_list s2) ->
  List.length (fnt_sty_combo_list s1) = List.length (fnt_sty_combo_list s2) ->
  fnt_sty_combo_list (load_fonts selected s1)
  = fnt_sty_combo_list (load_fonts selected s2).
Proof.
  intros Hne H1 H2 H12.
  destruct (load_fonts_rows selected s1 Hne) as [_ ->].
  destruct (load_fonts_rows selected s2 Hne) as [_ ->].
  rewrite (reset_rows_combos _ _ H1), (reset_rows_combos _ _ H2).
  assert (Hc : map (fun _ : QComboBox =>
                      {| cmb_currentIndex := SEL_NONE; cmb_enabled := false |})
                 (fnt_sty_combo_list s1)
               = map (fun _ : QComboBox =>
                        {| cmb_currentIndex := SEL_NONE; cmb_enabled := false |})
                   (fnt_sty_combo_list s2)).
  { revert H12. generalize (fnt_sty_combo_list s1) (fnt_sty_combo_list s2).
    intros l1; induction l1 as [|x l1 IH]; intros [|y l2] H;
      try discriminate H; [reflexivity|].
    cbn. f_equal. apply IH. now injection H. }
  rewrite Hc. apply fill_rows_combos.
  destruct (reset_rows_length (fnt_file_name_list s1) (fnt_sty_combo_list s1)) as [-> _].
  destruct (reset_rows_length (fnt_file_name_list s2) (fnt_sty_combo_list s2)) as [-> _].
  congruence.
Qed.

(** X9.  The name shown for a loaded file, the last component of its
    normalised path, never contains a slash. *)
Theorem file_name_has_no_slash (file : string) :
  PyStr.contains "/" (file_name file) = false.
Proof.
  unfold file_name, posixpath.split. cbn [snd].
  apply (from_rfind_succ posixpath.sep).
Qed.

(** ** Examples of the further properties *)

Lemma hint_keyword_of_button_witness :
  run0 [HintClicked 1; HintClicked 2] window0
  = Ok (after [HintClicked 1; HintClicked 2])
  /\ map rad_checked (hint_opt_list (after [HintClicked 1; HintClicked 2]))
     = [false; false; true]
  /\ change_hint (font_info (after [HintClicked 1; HintClicked 2])) = "auto"
  /\ exists i : nat, hint_group i (after [HintClicked 1; HintClicked 2]).
Proof.
  assert (Hrun : run Spec.isValidFamilyName cli_of_name decode_ascii
                   [HintClicked 1; HintClicked 2]
                   (init Spec.FontInfo_new (Some "/usr/bin/fontforge") "")
                 = Ok (after [HintClicked 1; HintClicked 2]))
    by (vm_compute; reflexivity).
  split; [exact Hrun|].
  split; [vm_compute; reflexivity|].
  split; [vm_compute; reflexivity|].
  apply (hint_keyword_of_button Spec.isValidFamilyName cli_of_name decode_ascii
           Spec.FontInfo_new (Some "/usr/bin/fontforge") ""
           [HintClicked 1; HintClicked 2]
           (after [HintClicked 1; HintClicked 2]) Hrun).
Defined.

Lemma basic_options_never_stored_witness :
  run0 busy_session window0 = Ok (after busy_session)
  /\ map chk_checked (basic_opt_list (after busy_session)) = [true; false; false]
  /\ leg_kern (font_info (after busy_session)) = false.
Proof.
  assert (Hrun : run Spec.isValidFamilyName cli_of_name decode_ascii busy_session
                   (init Spec.FontInfo_new (Some "/usr/bin/fontforge") "")
                 = Ok (after busy_session)) by (vm_compute; reflexivity).
  split; [exact Hrun|]. split; [vm_compute; reflexivity|].
  apply (basic_options_never_stored Spec.isValidFamilyName cli_of_name decode_ascii
           Spec.FontInfo_new (Some "/usr/bin/fontforge") "" busy_session
           (after busy_session) Hrun).
Defined.

Lemma darken_amount_follows_slider_witness :
  run0 busy_session window0 = Ok (after busy_session)
  /\ darken_group Spec.FontInfo_new (after busy_session).
Proof.
  assert (Hrun : run Spec.isValidFamilyName cli_of_name decode_ascii busy_session
                   (init Spec.FontInfo_new (Some "/usr/bin/fontforge") "")
                 = Ok (after busy_session)) by (vm_compute; reflexivity).
  split; [exact Hrun|].
  apply (darken_amount_follows_slider Spec.isValidFamilyName cli_of_name
           decode_ascii Spec.FontInfo_new (Some "/usr/bin/fontforge") ""
           busy_session (after busy_session) Hrun).
Defined.

Lemma rows_follow_loaded_files_witness :
  run0 busy_session window0 = Ok (after busy_session)
  /\ rows_ok (after busy_session).
Proof.
  assert (Hrun : run Spec.isValidFamilyName cli_of_name decode_ascii busy_session
                   (init Spec.FontInfo_new (Some "/usr/bin/fontforge") "")
                 = Ok (after busy_session)) by (vm_compute; reflexivity).
  split; [exact Hrun|].
  apply (rows_follow_loaded_files Spec.isValidFamilyName cli_of_name
           decode_ascii Spec.FontInfo_new (Some "/usr/bin/fontforge") ""
           busy_session (after busy_session) Hrun).
Defined.

Lemma gen_ttf_launch_witness :
  font_files (after (firstn 2 two_bold))
  = Some ["/fonts/A-Bold.ttf"; "/fonts/B-Bold.ttf"]
  /\ proc_state (cli_process (after (firstn 2 two_bold))) = NotRunning
  /\ exists self' : RF_Qt,
       gen_ttf cli_of_name "" "" (after (firstn 2 two_bold)) = Ok self'
       /\ log_win self' = []
       /\ cli_process self' = cli_process (after (firstn 2 two_bold))
       /\ font_info self' = font_info (after (firstn 2 two_bold)).
Proof.
  assert (Hf : font_files (after (firstn 2 two_bold))
               = Some ["/fonts/A-Bold.ttf"; "/fonts/B-Bold.ttf"])
    by (vm_compute; reflexivity).
  assert (Hidle : proc_state (cli_process (after (firstn 2 two_bold))) = NotRunning)
    by (vm_compute; reflexivity).
  split; [exact Hf|]. split; [exact Hidle|].
  destruct (gen_ttf_launch cli_of_name "" "" (after (firstn 2 two_bold)) _ Hf Hidle)
    as (self' & Hgen & Hlog & H).
  exists self'. split; [exact Hgen|]. split; [exact Hlog|].
  replace ((truthy_opt (ff_path (after (firstn 2 two_bold))) || PyStr.truthy "")
           && negb (posixpath.normpath "" =? ".")) with false in H
    by (vm_compute; reflexivity).
  exact H.
Defined.

Lemma active_process_has_its_inputs_witness :
  run0 busy_session window0 = Ok (after busy_session)
  /\ proc_state (cli_process (after busy_session)) = Running
  /\ ff_path (after busy_session)
     = Some (proc_program (cli_process (after busy_session))).
Proof.
  assert (Hrun : run Spec.isValidFamilyName cli_of_name decode_ascii busy_session
                   (init Spec.FontInfo_new (Some "/usr/bin/fontforge") "")
                 = Ok (after busy_session)) by (vm_compute; reflexivity).
  assert (Hst : proc_state (cli_process (after busy_session)) = Running)
    by (vm_compute; reflexivity).
  split; [exact Hrun|]. split; [exact Hst|].
  apply (active_process_has_its_inputs Spec.isValidFamilyName cli_of_name
           decode_ascii Spec.FontInfo_new (Some "/usr/bin/fontforge") ""
           busy_session (after busy_session) Hrun).
  rewrite Hst. discriminate.
Defined.

Lemma file_attributes_never_cleared_witness :
  slot_file SEL_BOLD (font_info (after two_bold)) = Some "/fonts/B-Bold.ttf"
  /\ run0 reload (after two_bold) = Ok reloaded0
  /\ loaded_files reloaded0 = ["/fonts/Foo-Regular.ttf"]
  /\ exists f' : string, slot_file SEL_BOLD (font_info reloaded0) = Some f'.
Proof.
  assert (Hf : slot_file SEL_BOLD (font_info (after two_bold))
               = Some "/fonts/B-Bold.ttf") by (vm_compute; reflexivity).
  assert (Hrun : run Spec.isValidFamilyName cli_of_name decode_ascii reload
                   (after two_bold) = Ok reloaded0) by (vm_compute; reflexivity).
  split; [exact Hf|]. split; [exact Hrun|]. split; [vm_compute; reflexivity|].
  apply (file_attributes_never_cleared Spec.isValidFamilyName cli_of_name
           decode_ascii SEL_BOLD reload (after two_bold) reloaded0
           "/fonts/B-Bold.ttf" ltac:(cbn; tauto) Hf Hrun).
Defined.

Lemma progress_bar_busy_while_running_witness :
  run0 busy_session window0 = Ok (after busy_session)
  /\ proc_state (cli_process (after busy_session)) = Running
  /\ bar_maximum (prog_bar (after busy_session)) = 0%Z.
Proof.
  assert (Hrun : run Spec.isValidFamilyName cli_of_name decode_ascii busy_session
                   (init Spec.FontInfo_new (Some "/usr/bin/fontforge") "")
                 = Ok (after busy_session)) by (vm_compute; reflexivity).
  assert (Hst : proc_state (cli_process (after busy_session)) = Running)
    by (vm_compute; reflexivity).
  split; [exact Hrun|]. split; [exact Hst|].
  destruct (progress_bar_busy_while_running Spec.isValidFamilyName cli_of_name
              decode_ascii Spec.FontInfo_new (Some "/usr/bin/fontforge") ""
              busy_session (after busy_session) Hrun) as [_ H].
  rewrite Hst in H. exact H.
Defined.

Lemma load_fonts_forgets_earlier_styles_witness :
  fnt_sty_combo_list (load_fonts ["/fonts/Foo-Regular.ttf"] (after two_bold))
  = fnt_sty_combo_list (load_fonts ["/fonts/Foo-Regular.ttf"] window0).
Proof.
  apply load_fonts_forgets_earlier_styles;
    [discriminate | vm_compute; reflexivity ..].
Defined.
